(** * Kundali clients: a shallow embedding of the web and iOS presentation code

    The repository holds the React web client and the React Native iOS client
    of a Vedic astrology service.  The clients are JavaScript / TypeScript:
    values are dynamically typed, conditions go through truthiness, property
    reads on [null] and [undefined] throw, and handlers are [async] functions
    with [try]/[catch]/[finally].  The embedding keeps all of that:

    - [JS]       values, truthiness, property reads, completions;
    - [Outlook]  the score-to-band helpers of the timeline views;
    - [Transit]  the [analyzeTransits] handlers of the two web transit views;
    - [Yoga]     the web [YogaList] component;
    - [Timeline] the best / challenging month cells of the web timeline tab;
    - [Engine]   the parts of the scoring engine the clients only consume;
    - [Client]   the request-building handlers of the web App and of the iOS
                 Home and Results screens. *)

From Stdlib Require Import List String Ascii Bool ZArith QArith Qround Qabs Lia Lqa.
From Stdlib Require Import DecimalString.
Import ListNotations.

Local Open Scope string_scope.
Local Open Scope list_scope.

Set Warnings "-register-all".

(* ================================================================== *)
(** * Part I: definitions *)
(* ================================================================== *)

(** ** JavaScript values *)

Module JS.

(** A JavaScript number that the modelled code compares and prints: either
    [NaN] or a finite value.  Comparisons between finite doubles are exact, so
    a finite double is represented by the rational it denotes. *)
Inductive number : Type :=
| NaN
| Num (q : Q).

(** [a >= c] for a numeric constant [c]: false as soon as [a] is [NaN]. *)
Definition ge (a : number) (c : Q) : bool :=
  match a with
  | NaN => false
  | Num q => Qle_bool c q
  end.

(** [a > c], [a < c] for a numeric constant [c]. *)
Definition gt (a : number) (c : Q) : bool :=
  match a with
  | NaN => false
  | Num q => negb (Qle_bool q c)
  end.

Definition lt (a : number) (c : Q) : bool :=
  match a with
  | NaN => false
  | Num q => negb (Qle_bool c q)
  end.

(** Values as they come out of [JSON.parse], plus [undefined], which a read of
    a missing property produces.  An object is the list of its own properties
    in enumeration order (the order [Object.values] follows); a JavaScript
    object never lists a key twice, and reads take the first binding. *)
Inductive value : Type :=
| Undefined
| Null
| Bool (b : bool)
| Number (n : number)
| Str (s : string)
| Arr (l : list value)
| Obj (o : list (string * value)).

(** ToBoolean. *)
Definition truthy (v : value) : bool :=
  match v with
  | Undefined | Null => false
  | Bool b => b
  | Number NaN => false
  | Number (Num q) => negb (Qeq_bool q 0)
  | Str s => negb (String.eqb s "")
  | Arr _ | Obj _ => true
  end.

(** [a || b] on values (both operands are already evaluated where the model
    uses it: the right operands are constants or pure reads). *)
Definition or_else (a b : value) : value :=
  if truthy a then a else b.

Definition isArray (v : value) : bool :=
  match v with
  | Arr _ => true
  | _ => false
  end.

(** [typeof v === 'object'] *)
Definition typeof_object (v : value) : bool :=
  match v with
  | Null | Arr _ | Obj _ => true
  | _ => false
  end.

(** [v !== false] *)
Definition not_strictly_false (v : value) : bool :=
  match v with
  | Bool false => false
  | _ => true
  end.

(** What a thrown [Error] carries as far as the handlers look: its message. *)
Record error : Type := mkError { message : string }.

Inductive completion (A : Type) : Type :=
| Normal (a : A)
| Throw (e : error).
Arguments Normal {A} a.
Arguments Throw {A} e.

Definition cbind {A B} (c : completion A) (k : A -> completion B) : completion B :=
  match c with
  | Normal a => k a
  | Throw e => Throw e
  end.

Fixpoint lookup (k : string) (o : list (string * value)) : option value :=
  match o with
  | [] => None
  | (k', v) :: o' => if String.eqb k k' then Some v else lookup k o'
  end.

(** The own property [k] of [v], when [v] is an object that has it. *)
Definition field (v : value) (k : string) : option value :=
  match v with
  | Obj o => lookup k o
  | _ => None
  end.

(** The value of [v.k] when the read does not throw. *)
Definition prop (v : value) (k : string) : value :=
  match field v k with
  | Some x => x
  | None => Undefined
  end.

(** Reading property [k] of [v].  On [undefined] and [null] the read throws a
    [TypeError], whose message text is the engine's; on everything else it
    yields the own property or [undefined].  The modelled code reads only
    data keys ([success], [error], [data], [all_yogas], ...), none of which a
    prototype supplies. *)
Section Reads.
Variable type_error_message : value -> string -> string.

Definition get (v : value) (k : string) : completion value :=
  match v with
  | Undefined | Null => Throw (mkError (type_error_message v k))
  | Obj o =>
      match lookup k o with
      | Some x => Normal x
      | None => Normal Undefined
      end
  | _ => Normal Undefined
  end.

(** An object literal whose property values are reads of one object:
    [{k1: v.k1, k2: v.k2, ...}], evaluated left to right. *)
Fixpoint pick (v : value) (ks : list string) : completion (list (string * value)) :=
  match ks with
  | [] => Normal []
  | k :: ks' =>
      cbind (get v k) (fun x =>
      cbind (pick v ks') (fun rest => Normal ((k, x) :: rest)))
  end.

End Reads.

(** An engine's wording of the [TypeError] of a read on [null] / [undefined]. *)
Definition v8_message (v : value) (k : string) : string :=
  "Cannot read properties of " ++
  match v with Undefined => "undefined" | _ => "null" end ++
  " (reading '" ++ k ++ "')".

(** What [JSON.stringify] keeps of a request body: [NaN] goes out as [null],
    a property whose value is [undefined] is left out, an [undefined] array
    element goes out as [null]. *)
Fixpoint wire (v : value) : value :=
  match v with
  | Number NaN => Null
  | Arr l =>
      Arr (map (fun x => match x with Undefined => Null | _ => wire x end) l)
  | Obj o =>
      Obj ((fix props (o : list (string * value)) : list (string * value) :=
              match o with
              | [] => []
              | (_, Undefined) :: t => props t
              | (k, x) :: t => (k, wire x) :: props t
              end) o)
  | _ => v
  end.

(** An effectful computation over a state [S] (component state, effects
    log): it completes normally or by throwing. *)
Definition M (S A : Type) : Type := S -> completion A * S.

Definition ret {S A} (a : A) : M S A := fun s => (Normal a, s).

Definition bind {S A B} (m : M S A) (k : A -> M S B) : M S B :=
  fun s =>
    match m s with
    | (Normal a, s') => k a s'
    | (Throw e, s') => (Throw e, s')
    end.

Definition throw {S A} (e : error) : M S A := fun s => (Throw e, s).

Definition lift {S A} (c : completion A) : M S A := fun s => (c, s).

(** [try { body } catch (err) { handler err }] *)
Definition try_catch {S A} (body : M S A) (handler : error -> M S A) : M S A :=
  fun s =>
    match body s with
    | (Normal a, s') => (Normal a, s')
    | (Throw e, s') => handler e s'
    end.

(** [try { body } finally { fin }]: [fin] always runs; the completion of
    [body] stands unless [fin] itself throws. *)
Definition finally {S A} (body : M S A) (fin : M S unit) : M S A :=
  fun s =>
    match body s with
    | (c, s') =>
        match fin s' with
        | (Normal _, s'') => (c, s'')
        | (Throw e, s'') => (Throw e, s'')
        end
    end.

(** [m] only adds to the list of requests, and every request it adds
    satisfies [P]. *)
Definition appends {S A} (sent : S -> list (string * value))
    (P : string * value -> Prop) (m : M S A) : Prop :=
  forall s, exists new, sent (snd (m s)) = sent s ++ new /\ Forall P new.

Declare Scope js_scope.
Delimit Scope js_scope with js.
Notation "x <- c1 ;; c2" := (bind c1 (fun x => c2))
  (at level 61, c1 at next level, right associativity) : js_scope.
Notation "c1 ;; c2" := (bind c1 (fun _ => c2))
  (at level 61, right associativity) : js_scope.

End JS.

(** ** Score bands of the timeline views *)

Module Outlook.
Import JS.

(** [getOutlookColor] of the web timeline tab
    (frontend/src/EnhancedTransitAnalysis.js). *)
Definition getOutlookColor (score : number) : string :=
  if ge score (70#1) then "#4ade80"
  else if ge score (50#1) then "#fbbf24"
  else if ge score (30#1) then "#fb923c"
  else "#f87171".

(** [getOutlookLabel] of the web timeline tab. *)
Definition getOutlookLabel (score : number) : string :=
  if ge score (70#1) then "Favorable"
  else if ge score (50#1) then "Above Average"
  else if ge score (30#1) then "Below Average"
  else "Challenging".

(** [getStrengthColor] of the iOS results screen; it colours the monthly
    scores of the 12-month outlook and the house percentages. *)
Definition getStrengthColor (pct : number) : string :=
  if ge pct (70#1) then "#4ade80"
  else if ge pct (50#1) then "#fbbf24"
  else if ge pct (30#1) then "#fb923c"
  else "#f87171".

End Outlook.

(** ** The transit handlers of the web client *)

Module Transit.
Import JS.

(** The component state the handlers write, and the requests they have sent
    (URL and JSON body). *)
Record state : Type := mkState {
  transitData : value;
  enhancedData : value;
  loading : bool;
  error : value;
  sent : list (string * value)
}.

Local Open Scope js_scope.

Definition setTransitData (v : value) : M state unit :=
  fun s => (Normal tt, mkState v (enhancedData s) (loading s) (error s) (sent s)).
Definition setEnhancedData (v : value) : M state unit :=
  fun s => (Normal tt, mkState (transitData s) v (loading s) (error s) (sent s)).
Definition setLoading (b : bool) : M state unit :=
  fun s => (Normal tt, mkState (transitData s) (enhancedData s) b (error s) (sent s)).
Definition setError (v : value) : M state unit :=
  fun s => (Normal tt, mkState (transitData s) (enhancedData s) (loading s) v (sent s)).

(** What the network does with the one request a handler sends: [fetch]
    rejects, or [response.json()] rejects, or the body parses to [r].  The
    handlers never look at the HTTP status. *)
Inductive fetch_outcome : Type :=
| NetworkFailure (e : JS.error)
| NotJson (e : JS.error)
| Body (r : value).

(** [await fetch(url, {method: 'POST', ..., body: JSON.stringify(body)})]
    followed by [await response.json()]. *)
Definition fetch_json (url : string) (body : value) (net : fetch_outcome) :
    M state value :=
  fun s =>
    let s' := mkState (transitData s) (enhancedData s) (loading s) (error s)
                      (sent s ++ [(url, wire body)]) in
    match net with
    | NetworkFailure e => (Throw e, s')
    | NotJson e => (Throw e, s')
    | Body r => (Normal r, s')
    end.

Definition birth_keys : list string :=
  ["year"; "month"; "day"; "hour"; "minute"; "lat"; "lon"].

(** The piece of [s] before its first dash, and the pieces after it. *)
Fixpoint pieces (s : string) : string * list string :=
  match s with
  | EmptyString => (EmptyString, [])
  | String c t =>
      let (piece, rest) := pieces t in
      if Ascii.eqb c "-" then (EmptyString, piece :: rest)
      else (String c piece, rest)
  end.

(** [s.split('-')]: a text without a dash, the empty one included, is its
    only piece. *)
Definition split_dash (s : string) : list string :=
  let (piece, rest) := pieces s in piece :: rest.

Definition fallback : string := "Failed to analyze transits".
Definition no_chart : string := "Please calculate your birth chart first".
Definition connect_prefix : string := "Failed to connect to server: ".

Section Handlers.
Variable type_error_message : value -> string -> string.
(** [Number(s)] on a text is the engine's.  (An infinite result is not told
    apart from [NaN]: [JSON.stringify] writes [null] for both.) *)
Variable ToNumber : string -> number.
Local Abbreviation get := (JS.get type_error_message).
Local Abbreviation pick := (JS.pick type_error_message).

(** [const [year, month, day] = transitDate.split('-').map(Number)]: an
    element the array does not have is [undefined]. *)
Definition date_parts (transitDate : string) : value * value * value :=
  let parts := map (fun piece => Number (ToNumber piece)) (split_dash transitDate) in
  (nth 0 parts Undefined, nth 1 parts Undefined, nth 2 parts Undefined).

(** [transit_year: year, transit_month: month, transit_day: day] *)
Definition transit_fields (transitDate : string) : list (string * value) :=
  let '(year, month, day) := date_parts transitDate in
  [("transit_year", year); ("transit_month", month); ("transit_day", day)].

(** [analyzeTransits] of frontend/src/TransitAnalysis.js; [transitDate] is
    the text of the date input. *)
Definition analyzeTransits (birthData : value) (transitDate : string)
    (net : fetch_outcome) : M state unit :=
  if negb (truthy birthData) then
    setError (Str no_chart)
  else
    setLoading true ;;
    setError Null ;;
    finally
      (try_catch
         (fields <- lift (pick birthData birth_keys) ;;
          result <- fetch_json "/api/v1/transit/analyze"
                      (Obj (fields ++ transit_fields transitDate)) net ;;
          success <- lift (get result "success") ;;
          if truthy success then
            data <- lift (get result "data") ;;
            setTransitData data
          else
            e <- lift (get result "error") ;;
            setError (or_else e (Str fallback)))
         (fun err => setError (Str (connect_prefix ++ message err))))
      (setLoading false).

(** [getStatusColor] of frontend/src/TransitAnalysis.js. *)
Definition getStatusColor (status : value) : string :=
  match status with
  | Str s =>
      if String.eqb s "Good" then "#4ade80"
      else if String.eqb s "Bad" then "#f87171"
      else if String.eqb s "Obstructed" then "#fbbf24"
      else "#9ca3af"
  | _ => "#9ca3af"
  end.

(** Whether a planet card of frontend/src/TransitAnalysis.js draws its Vedha
    warning: [result.vedha.is_obstructed && ...]. *)
Definition vedha_warning (result : value) : completion bool :=
  cbind (get result "vedha") (fun vedha =>
  cbind (get vedha "is_obstructed") (fun is_obstructed =>
  Normal (truthy is_obstructed))).

(** The object the enhanced handler builds for the basic view. *)
Definition compatible_view (result : value) : completion value :=
  cbind (get result "native_data") (fun nd1 =>
  cbind (get nd1 "natal_moon_sign") (fun sign =>
  cbind (get result "native_data") (fun nd2 =>
  cbind (get nd2 "natal_moon_nakshatra") (fun nak =>
  cbind (get result "transit_date") (fun td =>
  cbind (get result "planet_results") (fun pr =>
  cbind (get result "overall_summary") (fun os =>
  cbind (get result "favorable_planets") (fun fp =>
  cbind (get result "unfavorable_planets") (fun up =>
  Normal (Obj [("natal_moon_sign", sign); ("natal_moon_nakshatra", nak);
               ("transit_date", td); ("analysis_results", pr);
               ("summary", os); ("favorable_planets", fp);
               ("unfavorable_planets", up)])))))))))).

(** [analyzeTransits] of frontend/src/EnhancedTransitAnalysis.js (its
    [enhanced] argument is never read). *)
Definition analyzeTransitsEnhanced (birthData : value) (transitDate : string)
    (net : fetch_outcome) : M state unit :=
  if negb (truthy birthData) then
    setError (Str no_chart)
  else
    setLoading true ;;
    setError Null ;;
    finally
      (try_catch
         (fields <- lift (pick birthData birth_keys) ;;
          result <- fetch_json "/api/v1/transit/enhanced"
                      (Obj (fields ++ transit_fields transitDate)) net ;;
          success <- lift (get result "success") ;;
          if truthy success then
            setEnhancedData result ;;
            view <- lift (compatible_view result) ;;
            setTransitData view
          else
            e <- lift (get result "error") ;;
            setError (or_else e (Str fallback)))
         (fun err => setError (Str (connect_prefix ++ message err))))
      (setLoading false).

End Handlers.

(** The error text the specification words for a non-success body: [r.error],
    or the fixed fallback when the body has no [error] field. *)
Definition worded_error_text (r : value) : value :=
  match field r "error" with
  | Some e => e
  | None => Str fallback
  end.

(** A state and a chart to run the handlers on. *)
Definition idle : state := mkState Null Null false Null [].

Definition delhi_1990 : value :=
  Obj [("year", Number (Num (1990#1))); ("month", Number (Num (6#1)));
       ("day", Number (Num (15#1))); ("hour", Number (Num (10#1)));
       ("minute", Number (Num (30#1))); ("lat", Number (Num (286139#10000)));
       ("lon", Number (Num (772090#10000)))].

End Transit.

(** ** The web yoga list *)

Module Yoga.
Import JS.

(** [Object.values(v)], which the component calls only on a truthy value
    whose [typeof] is ['object']: an array or an object. *)
Definition Object_values (v : value) : list value :=
  match v with
  | Arr l => l
  | Obj o => map snd o
  | _ => []
  end.

(** [l.flat()]: one level of arrays is opened, everything else stays. *)
Fixpoint flat (l : list value) : list value :=
  match l with
  | [] => []
  | Arr l' :: t => l' ++ flat t
  | x :: t => x :: flat t
  end.

(** What one card shows of a yoga. *)
Record card : Type := mkCard {
  record : value;      (* the yoga the card is for *)
  title : value;       (* y.name || y.yoga_name *)
  strength : value;    (* y.strength; the badge shows when it is truthy *)
  text : value         (* y.description || y.effects || y.notes || default *)
}.

Definition default_text : string := "Auspicious yoga present in chart".

Section Component.
Variable type_error_message : value -> string -> string.
Local Abbreviation get := (JS.get type_error_message).

(** [l.filter(y => y.is_present !== false)] *)
Fixpoint filter_present (l : list value) : completion (list value) :=
  match l with
  | [] => Normal []
  | y :: t =>
      cbind (get y "is_present") (fun p =>
      cbind (filter_present t) (fun t' =>
      Normal (if not_strictly_false p then y :: t' else t')))
  end.

Definition render_card (y : value) : completion card :=
  cbind (get y "name") (fun name =>
  cbind (get y "yoga_name") (fun yoga_name =>
  cbind (get y "strength") (fun str =>
  cbind (get y "description") (fun description =>
  cbind (get y "effects") (fun effects =>
  cbind (get y "notes") (fun notes =>
  Normal (mkCard y (or_else name yoga_name) str
            (or_else description
               (or_else effects (or_else notes (Str default_text))))))))))).

Fixpoint render_cards (l : list value) : completion (list card) :=
  match l with
  | [] => Normal []
  | y :: t =>
      cbind (render_card y) (fun c =>
      cbind (render_cards t) (fun cs => Normal (c :: cs)))
  end.

(** The list the component picks from the payload, before filtering. *)
Definition pick_list (yogas : value) : completion (list value) :=
  cbind (get yogas "all_yogas") (fun all_yogas =>
  if truthy all_yogas && isArray all_yogas then
    Normal (Object_values all_yogas)
  else
    cbind (get yogas "detected_yogas") (fun detected_yogas =>
    if truthy detected_yogas && isArray detected_yogas then
      Normal (Object_values detected_yogas)
    else if isArray yogas then
      Normal (Object_values yogas)
    else
      cbind (get yogas "yogas") (fun by_category =>
      if truthy by_category && typeof_object by_category then
        Normal (flat (Object_values by_category))
      else
        Normal []))).

(** [YogaList] (the web component): [None] when it returns [null], otherwise
    the cards it draws, in order; an empty list shows 'No yogas detected'. *)
Definition YogaList (yogas : value) : completion (option (list card)) :=
  if negb (truthy yogas) then Normal None
  else
    cbind (pick_list yogas) (fun yogaList =>
    cbind (filter_present yogaList) (fun shown =>
    cbind (render_cards shown) (fun cards =>
    Normal (Some cards)))).

End Component.

(** The specification's wording of the same choice.  The concatenation of
    the value lists of a category dictionary: *)
Fixpoint concat_value_lists (vs : list value) : option (list value) :=
  match vs with
  | [] => Some []
  | Arr l :: t =>
      match concat_value_lists t with
      | Some rest => Some (l ++ rest)
      | None => None
      end
  | _ => None
  end.

(** [y.all_yogas] when it is an array; otherwise [y.detected_yogas] when it is
    an array; otherwise [y] itself when it is an array; otherwise the
    concatenation of the value lists of the dictionary [y.yogas]. *)
Definition yoga_source (y : value) : option (list value) :=
  match field y "all_yogas" with
  | Some (Arr l) => Some l
  | _ =>
      match field y "detected_yogas" with
      | Some (Arr l) => Some l
      | _ =>
          match y with
          | Arr l => Some l
          | _ =>
              match field y "yogas" with
              | Some (Obj d) => concat_value_lists (map snd d)
              | _ => None
              end
          end
      end
  end.

(** [r.is_present !== false] on a record. *)
Definition present (r : value) : bool :=
  not_strictly_false (prop r "is_present").

(** A list element whose properties can be read: anything but [null]. *)
Definition readable (v : value) : bool :=
  match v with
  | Undefined | Null => false
  | _ => true
  end.

Definition raj : value :=
  Obj [("name", Str "Raj Yoga"); ("strength", Str "Strong")].
Definition gaja : value :=
  Obj [("name", Str "Gaja Kesari"); ("is_present", Bool true)].
Definition kemadruma : value :=
  Obj [("name", Str "Kemadruma"); ("is_present", Bool false)].

End Yoga.

(** ** Request-building handlers of the web App and of the iOS screens *)

Module Client.
Import JS.
Local Open Scope js_scope.

(** *** [parseInt]

    Text is a string of 8-bit code units.  [parseInt(s)] drops leading white
    space, reads a sign, takes radix 16 after [0x] / [0X] and radix 10
    otherwise, and converts the longest prefix of digits; with no digit it
    answers [NaN].  (A digit string longer than a double's 53 bits is rounded
    by the engine; the model keeps the integer.) *)

Definition is_white_space (c : ascii) : bool :=
  let n := nat_of_ascii c in
  (Nat.eqb n 9 || Nat.eqb n 10 || Nat.eqb n 11 || Nat.eqb n 12 ||
   Nat.eqb n 13 || Nat.eqb n 32 || Nat.eqb n 160)%bool.

Fixpoint skip_white_space (s : string) : string :=
  match s with
  | String c t => if is_white_space c then skip_white_space t else s
  | EmptyString => s
  end.

Definition digit_value (c : ascii) : option Z :=
  let n := Z.of_nat (nat_of_ascii c) in
  if ((48 <=? n) && (n <=? 57))%Z%bool then Some (n - 48)%Z
  else if ((97 <=? n) && (n <=? 122))%Z%bool then Some (n - 97 + 10)%Z
  else if ((65 <=? n) && (n <=? 90))%Z%bool then Some (n - 65 + 10)%Z
  else None.

(** The value of the longest prefix of radix-[radix] digits, [acc] being the
    value read so far ([None]: no digit yet). *)
Fixpoint digits (radix : Z) (s : string) (acc : option Z) : option Z :=
  match s with
  | String c t =>
      match digit_value c with
      | Some d =>
          if (d <? radix)%Z then
            digits radix t
              (Some (match acc with Some a => a | None => 0 end * radix + d)%Z)
          else acc
      | None => acc
      end
  | EmptyString => acc
  end.

Definition parseInt (s : string) : number :=
  let s1 := skip_white_space s in
  let signed :=
    match s1 with
    | String "-"%char t => (true, t)
    | String "+"%char t => (false, t)
    | _ => (false, s1)
    end in
  let based :=
    match snd signed with
    | String "0"%char (String "x"%char t) => (16%Z, t)
    | String "0"%char (String "X"%char t) => (16%Z, t)
    | _ => (10%Z, snd signed)
    end in
  match digits (fst based) (snd based) None with
  | None => NaN
  | Some z => Num (inject_Z (if fst signed then - z else z))
  end.

(** [!s] on a string. *)
Definition is_empty (s : string) : bool := String.eqb s "".

(** [{...a, ...}]: the properties of [extra] are written over those of [a];
    a key already in [a] keeps its place, a new key goes to the end. *)
Fixpoint assign (k : string) (v : value) (o : list (string * value)) :
    list (string * value) :=
  match o with
  | [] => [(k, v)]
  | (k', v') :: t =>
      if String.eqb k k' then (k, v) :: t else (k', v') :: assign k v t
  end.

Definition spread (a extra : list (string * value)) : list (string * value) :=
  fold_left (fun o kv => assign (fst kv) (snd kv) o) extra a.

(** What the network answers to one [fetch]: the promise rejects, or a
    response arrives with its [ok] flag and what [response.json()] gives. *)
Inductive reply : Type :=
| Rejected (e : error)
| Response (ok : bool) (json : completion value).

(** A request body carries zero seconds and the Lahiri ayanamsa. *)
Definition lahiri_zero_seconds (request : string * value) : Prop :=
  field (snd request) "second" = Some (Number (Num 0)) /\
  field (snd request) "ayanamsa" = Some (Str "lahiri").

(** The specification's wording of a valid field: text that parses to an
    integer between the bounds. *)
Definition integer_between (s : string) (lo hi : Z) : Prop :=
  exists z : Z, parseInt s = Num (inject_Z z) /\ (lo <= z <= hi)%Z.

(** What the range tests of the Home screen let through: a number between
    the bounds, or [NaN], on which both comparisons are false. *)
Definition between_or_NaN (s : string) (lo hi : Z) : Prop :=
  match parseInt s with
  | NaN => True
  | Num q => inject_Z lo <= q /\ q <= inject_Z hi
  end.

(** An object that binds [second] to 0 and [ayanamsa] to ['lahiri']. *)
Definition memo_shaped (birthData : value) : Prop :=
  exists o, birthData = Obj o /\
            lookup "second" o = Some (Number (Num 0)) /\
            lookup "ayanamsa" o = Some (Str "lahiri").

Section Handlers.
(** [parseFloat] is the engine's; the handlers only pass its result on. *)
Variable parseFloat : string -> number.
Variable type_error_message : value -> string -> string.
Local Abbreviation get := (JS.get type_error_message).

(** *** The web App *)

(** The web form: every field is the text of an input. *)
Record web_form : Type := mkWebForm {
  w_year : string; w_month : string; w_day : string;
  w_hour : string; w_minute : string;
  w_lat : string; w_lon : string; w_place : string
}.

Record app_state : Type := mkApp {
  chartData : value;
  dashaData : value;
  yogaData : value;
  interpretation : value;
  houseData : value;
  app_loading : bool;
  app_error : value;
  app_sent : list (string * value)
}.

Definition setChartData (v : value) : M app_state unit :=
  fun s => (Normal tt, mkApp v (dashaData s) (yogaData s) (interpretation s)
                         (houseData s) (app_loading s) (app_error s) (app_sent s)).
Definition setDashaData (v : value) : M app_state unit :=
  fun s => (Normal tt, mkApp (chartData s) v (yogaData s) (interpretation s)
                         (houseData s) (app_loading s) (app_error s) (app_sent s)).
Definition setYogaData (v : value) : M app_state unit :=
  fun s => (Normal tt, mkApp (chartData s) (dashaData s) v (interpretation s)
                         (houseData s) (app_loading s) (app_error s) (app_sent s)).
Definition setInterpretation (v : value) : M app_state unit :=
  fun s => (Normal tt, mkApp (chartData s) (dashaData s) (yogaData s) v
                         (houseData s) (app_loading s) (app_error s) (app_sent s)).
Definition setHouseData (v : value) : M app_state unit :=
  fun s => (Normal tt, mkApp (chartData s) (dashaData s) (yogaData s)
                         (interpretation s) v (app_loading s) (app_error s)
                         (app_sent s)).
Definition setAppLoading (b : bool) : M app_state unit :=
  fun s => (Normal tt, mkApp (chartData s) (dashaData s) (yogaData s)
                         (interpretation s) (houseData s) b (app_error s)
                         (app_sent s)).
Definition setAppError (v : value) : M app_state unit :=
  fun s => (Normal tt, mkApp (chartData s) (dashaData s) (yogaData s)
                         (interpretation s) (houseData s) (app_loading s) v
                         (app_sent s)).

(** [await fetch(url, {method: 'POST', ..., body: JSON.stringify(body)})]:
    the request goes out; the response, when there is one, is its [ok] flag
    and its [json()]. *)
Definition fetch (net : string -> reply) (url : string) (body : value) :
    M app_state (bool * completion value) :=
  fun s =>
    let s' := mkApp (chartData s) (dashaData s) (yogaData s) (interpretation s)
                    (houseData s) (app_loading s) (app_error s)
                    (app_sent s ++ [(url, wire body)]) in
    match net url with
    | Rejected e => (Throw e, s')
    | Response ok json => (Normal (ok, json), s')
    end.

(** The [birthData] object of [handleFormSubmit]. *)
Definition web_birthData (form : web_form) : value :=
  Obj [("year", Number (parseInt (w_year form)));
       ("month", Number (parseInt (w_month form)));
       ("day", Number (parseInt (w_day form)));
       ("hour", Number (parseInt (w_hour form)));
       ("minute", Number (parseInt (w_minute form)));
       ("second", Number (Num 0));
       ("lat", Number (parseFloat (w_lat form)));
       ("lon", Number (parseFloat (w_lon form)));
       ("ayanamsa", Str "lahiri")].

(** [if (res.ok) { const x = await res.json(); setX(x); }] *)
Definition store_if_ok (res : bool * completion value)
    (set : value -> M app_state unit) : M app_state unit :=
  if fst res then x <- lift (snd res) ;; set x else ret tt.

(** [handleFormSubmit] of the web App. *)
Definition handleFormSubmit (form : web_form) (net : string -> reply) :
    M app_state unit :=
  setAppLoading true ;;
  setAppError Null ;;
  let birthData := web_birthData form in
  finally
    (try_catch
       (chartRes <- fetch net "/api/v1/chart/calculate" birthData ;;
        (if negb (fst chartRes)
         then throw (mkError "Failed to calculate chart")
         else ret tt) ;;
        chart <- lift (snd chartRes) ;;
        setChartData chart ;;
        dashaRes <- fetch net "/api/v1/dasha/calculate" birthData ;;
        store_if_ok dashaRes setDashaData ;;
        yogaRes <- fetch net "/api/v1/yoga/detect" birthData ;;
        store_if_ok yogaRes setYogaData ;;
        interpRes <- fetch net "/api/v1/interpretation/summary" birthData ;;
        store_if_ok interpRes setInterpretation ;;
        houseRes <- fetch net "/api/v1/interpretation/houses" birthData ;;
        store_if_ok houseRes setHouseData)
       (fun err => setAppError (Str (message err))))
    (setAppLoading false).

(** *** The iOS client: API calls (src/api/kundali.ts) *)

Definition API_BASE_URL : string := "http://127.0.0.1:8002/api/v1".

(** A city of the picker: its coordinates are text. *)
Record City : Type := mkCity {
  city_name : string; city_lat : string; city_lon : string
}.

(** *** The iOS Home screen *)

Record home_form : Type := mkHomeForm {
  year : string; month : string; day : string;
  hour : string; minute : string;
  selectedCity : City
}.

(** The screen's [loading] flag and what it does to the outside: alerts
    shown (title, text), requests issued, the navigation performed, lines
    sent to [console.error]. *)
Record home_world : Type := mkHome {
  home_loading : bool;
  alerts : list (string * string);
  home_sent : list (string * value);
  navigated : option (string * value);
  home_console : list string
}.

Definition alert (title text : string) : M home_world unit :=
  fun s => (Normal tt, mkHome (home_loading s) (alerts s ++ [(title, text)])
                         (home_sent s) (navigated s) (home_console s)).
Definition setHomeLoading (b : bool) : M home_world unit :=
  fun s => (Normal tt, mkHome b (alerts s) (home_sent s) (navigated s)
                         (home_console s)).
Definition navigate (screen : string) (params : value) : M home_world unit :=
  fun s => (Normal tt, mkHome (home_loading s) (alerts s) (home_sent s)
                         (Some (screen, params)) (home_console s)).
Definition home_console_error (line : string) : M home_world unit :=
  fun s => (Normal tt, mkHome (home_loading s) (alerts s) (home_sent s)
                         (navigated s) (home_console s ++ [line])).
(** [api.post(path, body)]: the request is issued when the call is made. *)
Definition home_post (path : string) (body : value) : M home_world unit :=
  fun s => (Normal tt, mkHome (home_loading s) (alerts s)
                         (home_sent s ++ [((API_BASE_URL ++ path)%string, wire body)])
                         (navigated s) (home_console s)).

(** [validateInputs] of the Home screen. *)
Definition validateInputs (f : home_form) : M home_world bool :=
  let y := parseInt (year f) in
  let m := parseInt (month f) in
  let d := parseInt (day f) in
  let h := parseInt (hour f) in
  let min := parseInt (minute f) in
  if (is_empty (year f) || is_empty (month f) || is_empty (day f) ||
      is_empty (hour f) || is_empty (minute f))%bool then
    alert "Error" "Please fill in all birth details" ;; ret false
  else if (lt y (1900#1) || gt y (2100#1))%bool then
    alert "Error" "Please enter a valid year (1900-2100)" ;; ret false
  else if (lt m (1#1) || gt m (12#1))%bool then
    alert "Error" "Month must be between 1 and 12" ;; ret false
  else if (lt d (1#1) || gt d (31#1))%bool then
    alert "Error" "Day must be between 1 and 31" ;; ret false
  else if (lt h (0#1) || gt h (23#1))%bool then
    alert "Error" "Hour must be between 0 and 23" ;; ret false
  else if (lt min (0#1) || gt min (59#1))%bool then
    alert "Error" "Minute must be between 0 and 59" ;; ret false
  else ret true.

(** The [birthData] object of the Home screen's [handleSubmit]. *)
Definition home_birthData (f : home_form) : value :=
  Obj [("year", Number (parseInt (year f)));
       ("month", Number (parseInt (month f)));
       ("day", Number (parseInt (day f)));
       ("hour", Number (parseInt (hour f)));
       ("minute", Number (parseInt (minute f)));
       ("second", Number (Num 0));
       ("lat", Number (parseFloat (city_lat (selectedCity f))));
       ("lon", Number (parseFloat (city_lon (selectedCity f))));
       ("ayanamsa", Str "lahiri")].

(** How [Promise.all] over the four calls settles: all four fulfilled with
    their [response.data], or rejected with the reason of the call that
    failed first. *)
Inductive settled4 : Type :=
| Fulfilled4 (chart dasha yoga interp : value)
| Rejected4 (e : error).

(** [handleSubmit] of the Home screen. *)
Definition handleSubmit (f : home_form) (net : settled4) : M home_world unit :=
  valid <- validateInputs f ;;
  if negb valid then ret tt
  else
    setHomeLoading true ;;
    let birthData := home_birthData f in
    finally
      (try_catch
         (home_post "/chart/calculate" birthData ;;
          home_post "/dasha/calculate" birthData ;;
          home_post "/yoga/detect" birthData ;;
          home_post "/interpretation/summary" birthData ;;
          match net with
          | Rejected4 e => throw e
          | Fulfilled4 chart dasha yoga interp =>
              navigate "Results"
                (Obj [("chartData", chart); ("dashaData", dasha);
                      ("yogaData", yoga); ("interpretation", interp)])
          end)
         (fun error =>
            home_console_error "API Error:" ;;
            alert "Connection Error"
              ("Unable to connect to the server. " ++ message error ++
               String (ascii_of_nat 10) (String (ascii_of_nat 10)
                 "Please ensure the backend is running on port 8002."))%string))
      (setHomeLoading false).

(** *** The iOS Results screen *)

(** The screen's state and effects.  [chartData] comes with the navigation
    and never changes while the screen is up. *)
Record results_world : Type := mkResults {
  activeTab : string;
  res_transitData : value;
  transitLoading : bool;
  timelineData : value;
  selectedTransitArea : value;
  housesData : value;
  housesLoading : bool;
  res_sent : list (string * value);
  res_console : list string
}.

Definition setActiveTab (t : string) : M results_world unit :=
  fun s => (Normal tt, mkResults t (res_transitData s) (transitLoading s)
                         (timelineData s) (selectedTransitArea s) (housesData s)
                         (housesLoading s) (res_sent s) (res_console s)).
Definition setResTransitData (v : value) : M results_world unit :=
  fun s => (Normal tt, mkResults (activeTab s) v (transitLoading s)
                         (timelineData s) (selectedTransitArea s) (housesData s)
                         (housesLoading s) (res_sent s) (res_console s)).
Definition setTransitLoading (b : bool) : M results_world unit :=
  fun s => (Normal tt, mkResults (activeTab s) (res_transitData s) b
                         (timelineData s) (selectedTransitArea s) (housesData s)
                         (housesLoading s) (res_sent s) (res_console s)).
Definition setTimelineData (v : value) : M results_world unit :=
  fun s => (Normal tt, mkResults (activeTab s) (res_transitData s)
                         (transitLoading s) v (selectedTransitArea s)
                         (housesData s) (housesLoading s) (res_sent s)
                         (res_console s)).
Definition setSelectedTransitArea (v : value) : M results_world unit :=
  fun s => (Normal tt, mkResults (activeTab s) (res_transitData s)
                         (transitLoading s) (timelineData s) v (housesData s)
                         (housesLoading s) (res_sent s) (res_console s)).
Definition setHousesData (v : value) : M results_world unit :=
  fun s => (Normal tt, mkResults (activeTab s) (res_transitData s)
                         (transitLoading s) (timelineData s)
                         (selectedTransitArea s) v (housesLoading s)
                         (res_sent s) (res_console s)).
Definition setHousesLoading (b : bool) : M results_world unit :=
  fun s => (Normal tt, mkResults (activeTab s) (res_transitData s)
                         (transitLoading s) (timelineData s)
                         (selectedTransitArea s) (housesData s) b (res_sent s)
                         (res_console s)).
Definition res_console_error (line : string) : M results_world unit :=
  fun s => (Normal tt, mkResults (activeTab s) (res_transitData s)
                         (transitLoading s) (timelineData s)
                         (selectedTransitArea s) (housesData s)
                         (housesLoading s) (res_sent s)
                         (res_console s ++ [line])).
Definition res_post (path : string) (body : value) : M results_world unit :=
  fun s => (Normal tt, mkResults (activeTab s) (res_transitData s)
                         (transitLoading s) (timelineData s)
                         (selectedTransitArea s) (housesData s)
                         (housesLoading s)
                         (res_sent s ++ [((API_BASE_URL ++ path)%string, wire body)])
                         (res_console s)).

(** The [birthData] memo of the Results screen, from the chart it was given;
    it throws (the screen does not render) when the chart has no
    [birth_data]. *)
Definition results_birthData (chartData : value) : completion value :=
  let read k := cbind (get chartData "birth_data") (fun bd => get bd k) in
  cbind (read "year") (fun y =>
  cbind (read "month") (fun m =>
  cbind (read "day") (fun d =>
  cbind (read "hour") (fun h =>
  cbind (read "minute") (fun mi =>
  cbind (read "lat") (fun la =>
  cbind (read "lon") (fun lo =>
  Normal (Obj [("year", y); ("month", m); ("day", d); ("hour", h);
               ("minute", mi); ("second", Number (Num 0));
               ("lat", la); ("lon", lo); ("ayanamsa", Str "lahiri")])))))))).

(** [{...birthData, k1: v1, ...}] *)
Definition spread_object (birthData : value) (extra : list (string * value)) :
    value :=
  match birthData with
  | Obj o => Obj (spread o extra)
  | _ => Obj (spread [] extra)
  end.

(** [getEnhancedTransit(birthData, new Date())]; the three numbers are the
    date's [getFullYear()], [getMonth() + 1] and [getDate()]. *)
Definition getEnhancedTransit (birthData : value) (ty tm td : number) :
    M results_world unit :=
  res_post "/transit/enhanced"
    (spread_object birthData
       [("transit_year", Number ty); ("transit_month", Number tm);
        ("transit_day", Number td)]).

Definition getTransitTimeline (birthData : value) (area : value) :
    M results_world unit :=
  res_post "/transit/timeline" (spread_object birthData [("area", area)]).

Definition getHouseInterpretation (birthData : value) : M results_world unit :=
  res_post "/interpretation/houses" birthData.

Inductive settled2 : Type :=
| Fulfilled2 (transit timeline : value)
| Rejected2 (e : error).

Definition fetchTransit (birthData : value) (ty tm td : number)
    (net : settled2) : M results_world unit :=
  setTransitLoading true ;;
  finally
    (try_catch
       (getEnhancedTransit birthData ty tm td ;;
        getTransitTimeline birthData (Str "career") ;;
        match net with
        | Rejected2 e => throw e
        | Fulfilled2 transit timeline =>
            setResTransitData transit ;; setTimelineData timeline
        end)
       (fun e => res_console_error "Transit fetch error:"))
    (setTransitLoading false).

Definition handleTransitAreaPress (birthData : value) (area : string)
    (net : completion value) : M results_world unit :=
  setSelectedTransitArea (Str area) ;;
  try_catch
    (getTransitTimeline birthData (Str area) ;;
     timeline <- lift net ;;
     setTimelineData timeline)
    (fun e => res_console_error "Transit timeline fetch error:").

Definition fetchHouses (birthData : value) (net : completion value) :
    M results_world unit :=
  setHousesLoading true ;;
  finally
    (try_catch
       (getHouseInterpretation birthData ;;
        houses <- lift net ;;
        setHousesData houses)
       (fun e => res_console_error "Houses fetch error:"))
    (setHousesLoading false).

(** [handleTabChange]: the two fetches are started, not awaited; the tests
    read the state the callback closed over. *)
Definition handleTabChange (birthData : value) (tab : string)
    (ty tm td : number) (net2 : settled2) (net1 : completion value) :
    M results_world unit :=
  fun s =>
    (setActiveTab tab ;;
     (if (String.eqb tab "transit" && negb (truthy (res_transitData s)))%bool
      then fetchTransit birthData ty tm td net2 else ret tt) ;;
     (if (String.eqb tab "houses" && negb (truthy (housesData s)))%bool
      then fetchHouses birthData net1 else ret tt)) s.

End Handlers.

Definition new_delhi : City := mkCity "New Delhi" "28.6139" "77.2090".

(** A chart as the Results screen receives it, reduced to its birth data. *)
Definition chart_1990 : value := Obj [("birth_data", Transit.delhi_1990)].

(** The Home screen before anything happened. *)
Definition home_idle : home_world := mkHome false [] [] None [].

(** A form whose year is not a number. *)
Definition letters_for_year : home_form :=
  mkHomeForm "abc" "6" "15" "10" "30" new_delhi.

Definition born_1990 : home_form :=
  mkHomeForm "1990" "6" "15" "10" "30" new_delhi.

End Client.

(** ** The scoring engine the clients consume

    The engine is the HTTP service behind [/api/v1]; its code is not part of
    the client sources.  What follows is the specification's description of
    the three computations whose results the clients render. *)

Module Engine.
Import JS.

(** *** Timeline summary *)

Record TimelinePoint : Type := mkPoint {
  month : string;
  year : Z;
  normalized_score : Q;
  outlook : string
}.

(** Modelled from the spec: the search behind 'argmax/argmin ..., ties broken
    by earliest month' (backend code, missing from the sources).  It gives
    the first position (from 0) of an extreme value of a list, with the value:
    the head wins when the best of the tail is no better than it, so among
    equal values the earliest one is kept.  [no_better a b] says that [a] is
    no better than [b]. *)
Fixpoint first_extreme (no_better : Q -> Q -> bool) (l : list Q) : option (nat * Q) :=
  match l with
  | [] => None
  | x :: t =>
      match first_extreme no_better t with
      | None => Some (0%nat, x)
      | Some (j, v) => if no_better v x then Some (0%nat, x) else Some (S j, v)
      end
  end.

Definition at_most (a b : Q) : bool := Qle_bool a b.
Definition at_least (a b : Q) : bool := Qle_bool b a.

(** Modelled from the spec: the month summary of the timeline endpoint, which
    is missing from the sources.  'best/challenging months are the
    argmax/argmin of normalizedScore across the 12 points, ties broken by
    earliest month'; the months are named by their position in
    [monthly_data], counted from 1, which is how the web client reads them
    back. *)
Definition best_months (points : list TimelinePoint) : list nat :=
  match first_extreme at_most (map normalized_score points) with
  | Some (j, _) => [S j]
  | None => []
  end.

(** Modelled from the spec: the same summary (missing from the sources), for
    the argmin. *)
Definition challenging_months (points : list TimelinePoint) : list nat :=
  match first_extreme at_least (map normalized_score points) with
  | Some (j, _) => [S j]
  | None => []
  end.

(** Modelled from the spec: a TimelinePoint as the timeline endpoint (missing
    from the sources) puts it in [monthly_data], with the field names the
    clients read. *)
Definition point_json (p : TimelinePoint) : value :=
  Obj [("month", Str (month p));
       ("year", Number (Num (inject_Z (year p))));
       ("normalized_score", Number (Num (normalized_score p)));
       ("outlook", Str (outlook p))].

(** A year of monthly points: the top score is reached in February and again
    in April, the lowest in June and again in July. *)
Definition sample_year : list TimelinePoint :=
  [mkPoint "January 2025" 2025 (55#1) "Above Average";
   mkPoint "February 2025" 2025 (72#1) "Favorable";
   mkPoint "March 2025" 2025 (60#1) "Above Average";
   mkPoint "April 2025" 2025 (72#1) "Favorable";
   mkPoint "May 2025" 2025 (41#1) "Below Average";
   mkPoint "June 2025" 2025 (38#1) "Below Average";
   mkPoint "July 2025" 2025 (38#1) "Below Average";
   mkPoint "August 2025" 2025 (50#1) "Above Average";
   mkPoint "September 2025" 2025 (65#1) "Above Average";
   mkPoint "October 2025" 2025 (70#1) "Favorable";
   mkPoint "November 2025" 2025 (45#1) "Below Average";
   mkPoint "December 2025" 2025 (52#1) "Above Average"].

(** *** Vimshottari dasha *)

Inductive Planet : Type :=
| Ketu | Venus | Sun | Moon | Mars | Rahu | Jupiter | Saturn | Mercury.

(** Modelled from the spec: the dasha-period table of the knowledge base
    (missing from the sources): the catalog duration of each planet's
    mahadasha in years, as the Vimshottari system the spec names fixes
    them. *)
Definition years (p : Planet) : Q :=
  match p with
  | Ketu => 7#1 | Venus => 20#1 | Sun => 6#1 | Moon => 10#1 | Mars => 7#1
  | Rahu => 18#1 | Jupiter => 16#1 | Saturn => 19#1 | Mercury => 17#1
  end.

(** Modelled from the spec: 'the fixed 9-planet Vimshottari sequence', walked
    cyclically (knowledge base, missing from the sources). *)
Definition next (p : Planet) : Planet :=
  match p with
  | Ketu => Venus | Venus => Sun | Sun => Moon | Moon => Mars | Mars => Rahu
  | Rahu => Jupiter | Jupiter => Saturn | Saturn => Mercury | Mercury => Ketu
  end.

Fixpoint walk (n : nat) (p : Planet) : list Planet :=
  match n with
  | O => []
  | S n' => p :: walk n' (next p)
  end.

(** Modelled from the spec: the nakshatra data of the knowledge base (missing
    from the sources).  A nakshatra spans 360/27 degrees; the lords of the 27
    nakshatras repeat the sequence three times, from Ketu. *)
Definition nakshatra_span : Q := 40#3.

Definition nakshatra_index (moon_longitude : Q) : Z :=
  (Qfloor (moon_longitude / nakshatra_span) mod 27)%Z.

Definition nakshatra_lord (moon_longitude : Q) : Planet :=
  nth (Z.to_nat (nakshatra_index moon_longitude mod 9)) (walk 9 Ketu) Ketu.

(** Modelled from the spec: how far into its nakshatra the Moon stands, a
    longitude on a boundary belonging to the nakshatra that starts there
    ('closed-open interval convention'); backend code, missing from the
    sources. *)
Definition nakshatra_elapsed (moon_longitude : Q) : Q :=
  moon_longitude
  - nakshatra_span * inject_Z (Qfloor (moon_longitude / nakshatra_span)).

(** Modelled from the spec: step (1) of the dasha engine (missing from the
    sources), 'balance-of-first-dasha = (nakshatra_span_remaining /
    nakshatra_span_total) x dasha_lord_total_years'. *)
Definition balance_of_first_dasha (moon_longitude : Q) : Q :=
  (nakshatra_span - nakshatra_elapsed moon_longitude) / nakshatra_span
  * years (nakshatra_lord moon_longitude).

(** Modelled from the spec: a DashaPeriod as the dasha endpoint (missing from
    the sources) returns it and as src/types/index.ts declares it; dates are
    in years, birth being 0. *)
Inductive DashaPeriod : Type :=
| mkPeriod (planet : Planet) (start_date end_date duration_years : Q)
           (is_current : bool) (antardashas : option (list DashaPeriod)).

Definition planet (p : DashaPeriod) : Planet :=
  match p with mkPeriod x _ _ _ _ _ => x end.
Definition start_date (p : DashaPeriod) : Q :=
  match p with mkPeriod _ x _ _ _ _ => x end.
Definition end_date (p : DashaPeriod) : Q :=
  match p with mkPeriod _ _ x _ _ _ => x end.
Definition duration_years (p : DashaPeriod) : Q :=
  match p with mkPeriod _ _ _ x _ _ => x end.
Definition is_current (p : DashaPeriod) : bool :=
  match p with mkPeriod _ _ _ _ x _ => x end.
Definition antardashas (p : DashaPeriod) : option (list DashaPeriod) :=
  match p with mkPeriod _ _ _ _ _ x => x end.

(** [start <= now < finish] *)
Definition contains (start finish now : Q) : bool :=
  (Qle_bool start now && negb (Qle_bool finish now))%bool.

(** Modelled from the spec: periods laid end to end from [start], each marked
    current when it contains [now] (step (3)); [children] gives a period its
    sub-periods.  Backend code, missing from the sources. *)
Fixpoint periods (now start : Q) (items : list (Planet * Q))
    (children : Planet -> Q -> Q -> option (list DashaPeriod)) :
    list DashaPeriod :=
  match items with
  | [] => []
  | (p, d) :: t =>
      mkPeriod p start (start + d) d (contains start (start + d) now)
               (children p start d)
      :: periods now (start + d) t children
  end.

(** Modelled from the spec: the antardashas of a mahadasha (backend code,
    missing from the sources).  'Antardasha sub-periods subdivide a mahadasha
    proportionally by the same 120-year-cycle ratios, re-anchored to the
    mahadasha's own start date': the walk starts at the mahadasha's own
    lord. *)
Definition antardasha_items (lord : Planet) (md_years : Q) : list (Planet * Q) :=
  map (fun p => (p, md_years * years p / (120#1))) (walk 9 lord).

Definition antardashas_of (now : Q) (lord : Planet) (start md_years : Q) :
    option (list DashaPeriod) :=
  Some (periods now start (antardasha_items lord md_years) (fun _ _ _ => None)).

(** Modelled from the spec: the dasha engine, which is missing from the
    sources.  The Moon's place in its nakshatra gives the first lord and the
    balance of its period; the nine periods of the cycle follow the fixed
    sequence from that lord, each with its catalog duration, and 'partition
    exactly 120 years (the full Vimshottari cycle) starting from a
    birth-relative offset': the first period began before birth by the part
    of it that had elapsed, so that its balance runs from birth.  Durations
    and dates are exact rationals, in years from birth; calendar dates and
    floating-point rounding are not modelled. *)
Definition mahadashas (moon_longitude now : Q) : list DashaPeriod :=
  let lord := nakshatra_lord moon_longitude in
  let elapsed := years lord - balance_of_first_dasha moon_longitude in
  periods now (0 - elapsed) (map (fun p => (p, years p)) (walk 9 lord))
          (antardashas_of now).

Definition Qsum (l : list Q) : Q := fold_right Qplus 0 l.

(** [l] covers the span from [start] to [finish] with no gap and no overlap:
    the first period starts at [start], every period has a positive length
    and ends where the next one starts, the last ends at [finish]. *)
Fixpoint partitions (start : Q) (l : list DashaPeriod) (finish : Q) : Prop :=
  match l with
  | [] => start == finish
  | p :: t =>
      start_date p == start /\
      end_date p == start_date p + duration_years p /\
      0 < duration_years p /\
      partitions (end_date p) t finish
  end.

End Engine.

(** ** The month cells of the web timeline tab *)

Module Timeline.
Import JS.

Section Cells.
Variable type_error_message : value -> string -> string.
Local Abbreviation get := (JS.get type_error_message).

(** [a[i]] on an array, for an integer [i]. *)
Definition index (a : list value) (i : Z) : value :=
  if (i <? 0)%Z then Undefined
  else nth (Z.to_nat i) a Undefined.

(** [x?.slice(0, 3)]: strings and arrays have [slice]; on anything else but
    [null] and [undefined] the call throws. *)
Definition slice_0_3 (x : value) : completion value :=
  match x with
  | Undefined | Null => Normal Undefined
  | Str s => Normal (Str (String.substring 0 3 s))
  | Arr l => Normal (Arr (firstn 3 l))
  | _ => Throw (mkError (type_error_message x "slice"))
  end.

(** [monthly_data[m-1]?.month?.slice(0,3) || m], the text of one listed month
    in the 'Best Period' and 'Challenging' cards of
    frontend/src/EnhancedTransitAnalysis.js. *)
Definition month_cell (monthly_data : list value) (m : Z) : completion value :=
  let entry := index monthly_data (m - 1) in
  cbind (match entry with
         | Undefined | Null => Normal Undefined
         | _ => get entry "month"
         end) (fun name =>
  cbind (slice_0_3 name) (fun short =>
  Normal (or_else short (Number (Num (inject_Z m)))))).

End Cells.

End Timeline.

(** ** Optional reads and the remaining handlers of the enhanced transit view *)

Module Enhanced.
Import JS.
Local Open Scope js_scope.

(** [a ?? b], with [b] already evaluated (a constant or a value at hand). *)
Definition nullish_or (a b : value) : value :=
  match a with
  | Undefined | Null => b
  | _ => a
  end.

(** [s.trim()]: white space goes from both ends. *)
Definition trim (s : string) : string :=
  let rev (x : string) := string_of_list_ascii (rev (list_ascii_of_string x)) in
  rev (Client.skip_white_space (rev (Client.skip_white_space s))).

(** The part of the component state that [askQuestion] and [fetchTimeline]
    write ([analyzeTransits] writes the part in [Transit.state]; the error
    text is the same state variable), and the requests sent. *)
Record state : Type := mkState {
  error : value;
  answer : value;
  questionLoading : bool;
  timelineData : value;
  timelineLoading : bool;
  sent : list (string * value)
}.

Definition setError (v : value) : M state unit :=
  fun s => (Normal tt, mkState v (answer s) (questionLoading s) (timelineData s)
                         (timelineLoading s) (sent s)).
Definition setAnswer (v : value) : M state unit :=
  fun s => (Normal tt, mkState (error s) v (questionLoading s) (timelineData s)
                         (timelineLoading s) (sent s)).
Definition setQuestionLoading (b : bool) : M state unit :=
  fun s => (Normal tt, mkState (error s) (answer s) b (timelineData s)
                         (timelineLoading s) (sent s)).
Definition setTimelineData (v : value) : M state unit :=
  fun s => (Normal tt, mkState (error s) (answer s) (questionLoading s) v
                         (timelineLoading s) (sent s)).
Definition setTimelineLoading (b : bool) : M state unit :=
  fun s => (Normal tt, mkState (error s) (answer s) (questionLoading s)
                         (timelineData s) b (sent s)).

(** [await fetch(url, ...)] followed by [await response.json()]. *)
Definition fetch_json (url : string) (body : value) (net : Transit.fetch_outcome) :
    M state value :=
  fun s =>
    let s' := mkState (error s) (answer s) (questionLoading s) (timelineData s)
                      (timelineLoading s) (sent s ++ [(url, wire body)]) in
    match net with
    | Transit.NetworkFailure e => (Throw e, s')
    | Transit.NotJson e => (Throw e, s')
    | Transit.Body r => (Normal r, s')
    end.

Definition question_fallback : string := "Failed to process question".
Definition timeline_fallback : string := "Failed to fetch timeline".

Section Handlers.
Variable type_error_message : value -> string -> string.
Local Abbreviation get := (JS.get type_error_message).
Local Abbreviation pick := (JS.pick type_error_message).

(** [v?.k] *)
Definition get_opt (v : value) (k : string) : completion value :=
  match v with
  | Undefined | Null => Normal Undefined
  | _ => get v k
  end.

(** [askQuestion] of frontend/src/EnhancedTransitAnalysis.js. *)
Definition askQuestion (birthData : value) (question : string)
    (net : Transit.fetch_outcome) : M state unit :=
  if (Client.is_empty (trim question) || negb (truthy birthData))%bool then
    ret tt
  else
    setQuestionLoading true ;;
    finally
      (try_catch
         (fields <- lift (pick birthData Transit.birth_keys) ;;
          result <- fetch_json "/api/v1/transit/ask"
                      (Obj (fields ++ [("question", Str question)])) net ;;
          success <- lift (get result "success") ;;
          if truthy success then
            setAnswer result
          else
            e <- lift (get result "error") ;;
            setError (or_else e (Str question_fallback)))
         (fun err => setError (Str (Transit.connect_prefix ++ message err))))
      (setQuestionLoading false).

(** [fetchTimeline] of frontend/src/EnhancedTransitAnalysis.js; [area] is
    [null] when the caller passes none. *)
Definition fetchTimeline (birthData : value) (area : value)
    (net : Transit.fetch_outcome) : M state unit :=
  if negb (truthy birthData) then
    setError (Str Transit.no_chart)
  else
    setTimelineLoading true ;;
    finally
      (try_catch
         (fields <- lift (pick birthData Transit.birth_keys) ;;
          result <- fetch_json "/api/v1/transit/timeline"
                      (Obj (fields ++ [("area", area)])) net ;;
          success <- lift (get result "success") ;;
          if truthy success then
            setTimelineData result
          else
            e <- lift (get result "error") ;;
            setError (or_else e (Str timeline_fallback)))
         (fun err => setError (Str (Transit.connect_prefix ++ message err))))
      (setTimelineLoading false).

(** Whether a planet card of the enhanced view draws its Vedha warning:
    [result.vedha?.is_obstructed && ...]. *)
Definition vedha_warning (result : value) : completion bool :=
  cbind (get result "vedha") (fun vedha =>
  cbind (get_opt vedha "is_obstructed") (fun is_obstructed =>
  Normal (truthy is_obstructed))).

End Handlers.

(** [getStatusColor] of frontend/src/EnhancedTransitAnalysis.js. *)
Definition getStatusColor (status : value) : string :=
  match status with
  | Str s =>
      if String.eqb s "Good" then "#4ade80"
      else if String.eqb s "Bad" then "#f87171"
      else if String.eqb s "Obstructed" then "#fbbf24"
      else if String.eqb s "Positive" then "#4ade80"
      else if String.eqb s "Challenging" then "#f87171"
      else "#9ca3af"
  | _ => "#9ca3af"
  end.

(** [getStatusBgColor] of frontend/src/EnhancedTransitAnalysis.js. *)
Definition getStatusBgColor (status : value) : string :=
  match status with
  | Str s =>
      if String.eqb s "Good" then "rgba(74, 222, 128, 0.2)"
      else if String.eqb s "Bad" then "rgba(248, 113, 113, 0.2)"
      else if String.eqb s "Obstructed" then "rgba(251, 191, 36, 0.2)"
      else if String.eqb s "Positive" then "rgba(74, 222, 128, 0.2)"
      else if String.eqb s "Challenging" then "rgba(248, 113, 113, 0.2)"
      else "rgba(156, 163, 175, 0.2)"
  | _ => "rgba(156, 163, 175, 0.2)"
  end.

Definition idle : state := mkState Null Null false Null false [].

End Enhanced.

(** ** What the iOS Results screen draws *)

Module ResultsView.
Import JS.

(** [getStatusColor] of the iOS Results screen. *)
Definition getStatusColor (status : value) : string :=
  match status with
  | Str s =>
      if existsb (String.eqb s)
           ["Good"; "Favorable"; "Very Favorable"; "Positive"; "Excellent"]
      then "#4ade80"
      else if existsb (String.eqb s)
           ["Bad"; "Challenging"; "Very Weak"; "Difficult"]
      then "#f87171"
      else if existsb (String.eqb s)
           ["Obstructed"; "Mixed"; "Average"; "Neutral"]
      then "#fbbf24"
      else "#9ca3af"
  | _ => "#9ca3af"
  end.

(** [names.includes(v)] for an array literal of strings. *)
Definition includes (names : list string) (v : value) : bool :=
  match v with
  | Str s => existsb (String.eqb s) names
  | _ => false
  end.

Definition favorable_outlooks : list string :=
  ["Excellent"; "Very Good"; "Good"; "Favorable"; "Very Favorable"].
Definition neutral_outlooks : list string :=
  ["Neutral"; "Average"; "Mixed"].
Definition challenging_outlooks : list string :=
  ["Challenging"; "Difficult"; "Bad"; "Weak"; "Very Weak"].

(** [Object.entries(v)]: own properties in order; the elements of an array
    and the characters of a string under their decimal indices. *)
Definition indexed (l : list value) : list (string * value) :=
  combine (map (fun i => NilZero.string_of_uint (Nat.to_uint i))
               (seq 0 (List.length l))) l.

Definition Object_entries (v : value) : list (string * value) :=
  match v with
  | Obj o => o
  | Arr l => indexed l
  | Str s => indexed (map (fun c => Str (String c EmptyString))
                          (list_ascii_of_string s))
  | _ => []
  end.

(** The three panels of the transit tab. *)
Inductive transit_panel : Type :=
| Spinner          (* 'Analyzing transits...' *)
| LoadButton       (* 'Load Transit Analysis' *)
| Analysis.        (* the summary, areas, timeline and planet cards *)

Section Views.
Variable type_error_message : value -> string -> string.
Local Abbreviation get := (JS.get type_error_message).
Local Abbreviation get_opt := (Enhanced.get_opt type_error_message).

(** The percentage a house card shows:
    [house.strength?.legacy?.percentage ?? house.strength?.percentage ?? 0]. *)
Definition house_pct (house : value) : completion value :=
  cbind (get house "strength") (fun strength =>
  cbind (get_opt strength "legacy") (fun legacy =>
  cbind (get_opt legacy "percentage") (fun first =>
  match first with
  | Undefined | Null =>
      cbind (get house "strength") (fun strength' =>
      cbind (get_opt strength' "percentage") (fun second =>
      Normal (Enhanced.nullish_or second (Number (Num 0)))))
  | _ => Normal first
  end))).

(** [areas.filter(([_, a]) => names.includes(a.outlook))] *)
Fixpoint areas_with (names : list string) (areas : list (string * value)) :
    completion (list (string * value)) :=
  match areas with
  | [] => Normal []
  | (key, a) :: t =>
      cbind (get a "outlook") (fun outlook =>
      cbind (areas_with names t) (fun t' =>
      Normal (if includes names outlook then (key, a) :: t' else t')))
  end.

(** The three groups of life areas of the houses tab, in the order they are
    computed. *)
Definition area_groups (life_areas_summary : value) :
    completion (list (string * value) * list (string * value) * list (string * value)) :=
  let areas := Object_entries (or_else life_areas_summary (Obj [])) in
  cbind (areas_with favorable_outlooks areas) (fun favorable =>
  cbind (areas_with neutral_outlooks areas) (fun neutral =>
  cbind (areas_with challenging_outlooks areas) (fun challenging =>
  Normal (favorable, neutral, challenging)))).

(** Which panel [renderTransit] draws. *)
Definition renderTransit_panel (transitLoading : bool) (transitData : value) :
    completion transit_panel :=
  if transitLoading then Normal Spinner
  else
    cbind (get_opt transitData "success") (fun success =>
    Normal (if negb (truthy success) then LoadButton else Analysis)).

(** [v.length] of a value that came out of JSON. *)
Definition length_of (v : value) : completion value :=
  match v with
  | Arr l => Normal (Number (Num (inject_Z (Z.of_nat (List.length l)))))
  | Str s => Normal (Number (Num (inject_Z (Z.of_nat (String.length s)))))
  | _ => get v "length"
  end.

(** [ToNumber] on anything but a number is the engine's. *)
Variable to_number : value -> number.

(** [v > 0] *)
Definition positive (v : value) : bool :=
  match v with
  | Number n => gt n 0
  | Undefined => false
  | _ => gt (to_number v) 0
  end.

(** The reads one yoga row performs, row after row. *)
Fixpoint yoga_rows (l : list value) : completion (list value) :=
  match l with
  | [] => Normal []
  | yoga :: t =>
      cbind (get yoga "name") (fun _ =>
      cbind (get yoga "strength") (fun _ =>
      cbind (get yoga "type") (fun _ =>
      cbind (get yoga "description") (fun _ =>
      cbind (yoga_rows t) (fun t' => Normal (yoga :: t'))))))
  end.

(** The yogas [renderYoga] lists:
    [yogaData.all_yogas && yogaData.all_yogas.length > 0
       ? yogaData.all_yogas.map(...) : 'No yogas detected']. *)
Definition renderYoga (yogaData : value) : completion (list value) :=
  cbind (get yogaData "all_yogas") (fun all_yogas =>
  if truthy all_yogas then
    cbind (length_of all_yogas) (fun len =>
    if positive len then
      match all_yogas with
      | Arr l => yoga_rows l
      | _ => Throw (mkError (type_error_message all_yogas "map"))
      end
    else Normal [])
  else Normal []).

End Views.

End ResultsView.

(** ** The web dasha timeline *)

Module DashaView.
Import JS.

(** One row of the timeline. *)
Record row : Type := mkRow {
  row_planet : value;   (* d.planet || d.lord *)
  row_start : value;    (* d.start_date || d.start *)
  row_end : value;      (* d.end_date || d.end *)
  row_years : value     (* d.years ? `${d.years.toFixed(1)}y` : d.duration || '' *)
}.

Section Component.
Variable type_error_message : value -> string -> string.
(** [n.toFixed(1)] is the engine's. *)
Variable toFixed1 : number -> string.
Local Abbreviation get := (JS.get type_error_message).

(** [l.slice(0, 9)]: arrays and strings have [slice]. *)
Definition slice_0_9 (v : value) : completion value :=
  match v with
  | Arr l => Normal (Arr (firstn 9 l))
  | Str s => Normal (Str (String.substring 0 9 s))
  | _ => Throw (mkError (type_error_message v "slice"))
  end.

Definition years_cell (d : value) : completion value :=
  cbind (get d "years") (fun years =>
  if truthy years then
    match years with
    | Number n => Normal (Str (toFixed1 n ++ "y"))
    | _ => Throw (mkError (type_error_message years "toFixed"))
    end
  else
    cbind (get d "duration") (fun duration =>
    Normal (or_else duration (Str "")))).

Definition render_row (d : value) : completion row :=
  cbind (get d "planet") (fun planet =>
  cbind (get d "lord") (fun lord =>
  cbind (get d "start_date") (fun start_date =>
  cbind (get d "start") (fun start =>
  cbind (get d "end_date") (fun end_date =>
  cbind (get d "end") (fun end_ =>
  cbind (years_cell d) (fun years =>
  Normal (mkRow (or_else planet lord) (or_else start_date start)
                (or_else end_date end_) years)))))))).

Fixpoint render_rows (l : list value) : completion (list row) :=
  match l with
  | [] => Normal []
  | d :: t =>
      cbind (render_row d) (fun r =>
      cbind (render_rows t) (fun rs => Normal (r :: rs)))
  end.

(** [dashas.mahadashas || dashas.dashas || (Array.isArray(dashas) ? dashas : [])] *)
Definition dasha_list (dashas : value) : completion value :=
  cbind (get dashas "mahadashas") (fun mahadashas =>
  if truthy mahadashas then Normal mahadashas
  else
    cbind (get dashas "dashas") (fun ds =>
    if truthy ds then Normal ds
    else Normal (if isArray dashas then dashas else Arr []))).

(** The rows of [DashaTimeline]: [None] when the component returns [null]. *)
Definition DashaTimeline (dashas : value) : completion (option (list row)) :=
  if negb (truthy dashas) then Normal None
  else
    cbind (dasha_list dashas) (fun dashaList =>
    cbind (slice_0_9 dashaList) (fun first9 =>
    match first9 with
    | Arr l => cbind (render_rows l) (fun rows => Normal (Some rows))
    | _ => Throw (mkError (type_error_message first9 "map"))
    end)).

End Component.

(** A period with the fields src/types/index.ts declares, and no other. *)
Definition declared_period (planet start_date end_date : string)
    (duration_years : Q) (is_current : bool) : value :=
  Obj [("planet", Str planet); ("start_date", Str start_date);
       ("end_date", Str end_date);
       ("duration_years", Number (Num duration_years));
       ("is_current", Bool is_current)].

End DashaView.

(** ** The South Indian chart of the web client *)

Module Chart.
Import JS.

(** The sixteen positions of the grid, row by row; the four inner ones carry
    no sign. *)
Definition SIGN_ORDER : list (option string) :=
  [Some "Pisces"; Some "Aries"; Some "Taurus"; Some "Gemini";
   Some "Aquarius"; None; None; Some "Cancer";
   Some "Capricorn"; None; None; Some "Leo";
   Some "Sagittarius"; Some "Scorpio"; Some "Libra"; Some "Virgo"].

Definition SIGN_NAMES_MAP : list (string * string) :=
  [("Aries", "Mesh"); ("Taurus", "Vrish"); ("Gemini", "Mith");
   ("Cancer", "Kark"); ("Leo", "Simha"); ("Virgo", "Kanya");
   ("Libra", "Tula"); ("Scorpio", "Vrishc"); ("Sagittarius", "Dhanu");
   ("Capricorn", "Makar"); ("Aquarius", "Kumbh"); ("Pisces", "Meen")].

Definition PLANET_ABBR : list (string * string) :=
  [("Sun", "Su"); ("Moon", "Mo"); ("Mars", "Ma"); ("Mercury", "Me");
   ("Jupiter", "Ju"); ("Venus", "Ve"); ("Saturn", "Sa"); ("Rahu", "Ra");
   ("Ketu", "Ke"); ("Uranus", "Ur"); ("Neptune", "Ne"); ("Pluto", "Pl");
   ("Ascendant", "Asc")].

(** The own property [k] of an object literal. *)
Fixpoint own {A} (k : string) (t : list (string * A)) : option A :=
  match t with
  | [] => None
  | (k', a) :: t' => if String.eqb k k' then Some a else own k t'
  end.

(** [planetsBySign]: its own keys in the order they are created, each with
    its array. *)
Definition board : Type := list (string * list value).

(** [Object.keys(SIGN_NAMES_MAP).forEach(sign => { planetsBySign[sign] = [] })] *)
Definition initial : board := map (fun kv => (fst kv, [])) SIGN_NAMES_MAP.

(** [b[k].push(x)] for an own key [k]. *)
Fixpoint push (k : string) (x : value) (b : board) : board :=
  match b with
  | [] => []
  | (k', l) :: t =>
      if String.eqb k k' then (k', l ++ [x]) :: t else (k', l) :: push k x t
  end.

(** [{ name: 'Ascendant', isLagna: true }] *)
Definition ascendant : value :=
  Obj [("name", Str "Ascendant"); ("isLagna", Bool true)].

(** [{ name, ...data }] *)
Definition entry (name : string) (data : value) : value :=
  Obj (Client.spread [("name", Str name)] (ResultsView.Object_entries data)).

(** What a read [planetsBySign[k]] finds. *)
Inductive slot : Type :=
| Own (l : list value)   (* the array of a sign *)
| Inherited              (* a member of [Object.prototype] *)
| Missing.               (* [undefined] *)

(** One planet of a cell: the entry, its abbreviation when that is a text,
    whether 'R' follows, and whether a comma follows. *)
Record occupant : Type := mkOccupant {
  who : value;
  abbr : option string;
  retrograde : bool;
  comma : bool
}.

Inductive cell : Type :=
| Center (title : string)
| Blank
| SignCell (sign : string) (short : option string) (occupants : list occupant).

Section Component.
Variable type_error_message : value -> string -> string.
(** The message of 'x.f is not a function'. *)
Variable not_a_function : string -> string.
(** The names [Object.prototype] defines ('constructor', 'toString', ...): a
    read of one of them on an object literal that has no such own key finds
    the inherited member, which is truthy and has neither [push], [map] nor
    [substring]. *)
Variable inherited : string -> bool.
(** ToString of numbers, arrays and objects is the engine's. *)
Variable to_string : value -> string.
Local Abbreviation get := (JS.get type_error_message).

(** The property key a value is converted to in [o[v]]. *)
Definition property_key (v : value) : string :=
  match v with
  | Str s => s
  | Undefined => "undefined"
  | Null => "null"
  | Bool true => "true"
  | Bool false => "false"
  | _ => to_string v
  end.

Definition read (b : board) (k : string) : slot :=
  match own k b with
  | Some l => Own l
  | None => if inherited k then Inherited else Missing
  end.

(** [if (lagna && lagna.sign) planetsBySign[lagna.sign].push({...})] *)
Definition add_lagna (lagna : value) (b : board) : completion board :=
  if truthy lagna then
    cbind (get lagna "sign") (fun sign =>
    if truthy sign then
      match read b (property_key sign) with
      | Own _ => Normal (push (property_key sign) ascendant b)
      | Inherited => Throw (mkError (not_a_function "push"))
      | Missing => Throw (mkError (type_error_message Undefined "push"))
      end
    else Normal b)
  else Normal b.

(** [Object.entries(planets).forEach(([name, data]) => {
       if (planetsBySign[data.sign]) planetsBySign[data.sign].push({name, ...data}) })] *)
Fixpoint add_planets (entries : list (string * value)) (b : board) :
    completion board :=
  match entries with
  | [] => Normal b
  | (name, data) :: t =>
      cbind (get data "sign") (fun sign =>
      match read b (property_key sign) with
      | Own _ => add_planets t (push (property_key sign) (entry name data) b)
      | Inherited => Throw (mkError (not_a_function "push"))
      | Missing => add_planets t b
      end)
  end.

(** The grouping the component computes before it draws. *)
Definition planetsBySign (chartData : value) : completion board :=
  cbind (get chartData "planets") (fun planets =>
  cbind (get chartData "lagna") (fun lagna =>
  cbind (add_lagna lagna initial) (fun b =>
  if truthy planets then add_planets (ResultsView.Object_entries planets) b
  else Normal b))).

(** [PLANET_ABBR[name] || name.substring(0, 2)]; [None] is an inherited
    member of [PLANET_ABBR], which is not a text. *)
Definition abbreviation (name : value) : completion (option string) :=
  match own (property_key name) PLANET_ABBR with
  | Some a => Normal (Some a)
  | None =>
      if inherited (property_key name) then Normal None
      else
        match name with
        | Str s => Normal (Some (String.substring 0 2 s))
        | Undefined | Null =>
            Throw (mkError (type_error_message name "substring"))
        | _ => Throw (mkError (not_a_function "substring"))
        end
  end.

(** The spans of one cell; [i < planetsInSign.length - 1] holds for all but
    the last. *)
Fixpoint render_occupants (l : list value) : completion (list occupant) :=
  match l with
  | [] => Normal []
  | p :: t =>
      cbind (get p "isRetrograde") (fun isRetrograde =>
      cbind (get p "isLagna") (fun _ =>
      cbind (get p "name") (fun name =>
      cbind (abbreviation name) (fun a =>
      cbind (render_occupants t) (fun os =>
      Normal (mkOccupant p a (truthy isRetrograde)
                (match t with [] => false | _ => true end) :: os))))))
  end.

Definition renderCell (title : string) (b : board) (signName : option string)
    (index : nat) : completion cell :=
  match signName with
  | None => Normal (if Nat.eqb index 5 then Center title else Blank)
  | Some s =>
      match read b s with
      | Own l =>
          cbind (render_occupants l) (fun os =>
          Normal (SignCell s (own s SIGN_NAMES_MAP) os))
      | Inherited => Throw (mkError (not_a_function "map"))
      | Missing => Normal (SignCell s (own s SIGN_NAMES_MAP) [])
      end
  end.

(** [signs.map((sign, i) => renderCell(sign, i))], from index [index] on. *)
Fixpoint render_cells (title : string) (b : board) (signs : list (option string))
    (index : nat) : completion (list cell) :=
  match signs with
  | [] => Normal []
  | s :: t =>
      cbind (renderCell title b s index) (fun c =>
      cbind (render_cells title b t (S index)) (fun cs => Normal (c :: cs)))
  end.

(** [SouthIndianChart]: [None] when it returns [null], otherwise the sixteen
    positions of the grid. *)
Definition SouthIndianChart (chartData : value) (title : string) :
    completion (option (list cell)) :=
  if negb (truthy chartData) then Normal None
  else
    cbind (planetsBySign chartData) (fun b =>
    cbind (render_cells title b SIGN_ORDER 0) (fun cells =>
    Normal (Some cells))).

(** The key under which a planet is filed. *)
Definition sign_of (data : value) : string :=
  property_key (prop data "sign").

(** A planet the component files or leaves out without throwing: its record
    is not [null] and its sign is no inherited name. *)
Definition filed (e : string * value) : Prop :=
  match snd e with Undefined | Null => False | _ => True end /\
  inherited (sign_of (snd e)) = false.

(** The sign of the ascendant, when the chart has one to place. *)
Definition ascendant_sign (chartData : value) : option string :=
  let lagna := prop chartData "lagna" in
  if (truthy lagna && truthy (prop lagna "sign"))%bool
  then Some (property_key (prop lagna "sign")) else None.

(** The ascendant's entry in the cell of sign [k]. *)
Definition ascendant_in (chartData : value) (k : string) : list value :=
  match ascendant_sign chartData with
  | Some s => if String.eqb s k then [ascendant] else []
  | None => []
  end.

End Component.

(** An occupant whose [name] is a text, as the key of a planet is. *)
Definition named (p : value) : Prop :=
  exists o n, p = Obj o /\ lookup "name" o = Some (Str n).

End Chart.

(** ** Names used to state properties *)

Module Facts.
Import JS.

(** The five endpoints the web App asks, in the order it asks them. *)
Definition app_urls : list string :=
  ["/api/v1/chart/calculate"; "/api/v1/dasha/calculate"; "/api/v1/yoga/detect";
   "/api/v1/interpretation/summary"; "/api/v1/interpretation/houses"].

(** [Number(s)] on the texts the examples convert: 0 on the empty text and
    the value of a text of decimal digits, as every engine answers; [NaN]
    on any other text, which the examples do not reach. *)
Definition Number_of_digits (s : string) : number :=
  if Client.is_empty s then Num 0
  else if forallb (fun c => (48 <=? nat_of_ascii c) && (nat_of_ascii c <=? 57))%nat%bool
                  (list_ascii_of_string s)
  then Client.parseInt s else NaN.

(** [null] or [undefined]. *)
Definition nullish (v : value) : bool :=
  match v with
  | Undefined | Null => true
  | _ => false
  end.

(** What a stored dataset becomes after a reply: replaced when the response
    is ok, kept otherwise. *)
Definition stored (ok : bool) (new old : value) : value :=
  if ok then new else old.

(** A dasha period [DashaTimeline] can draw: not [null], and with a [years]
    that is a number whenever it is truthy (so that [toFixed] exists). *)
Definition drawable (d : value) : Prop :=
  nullish d = false /\
  (truthy (prop d "years") = true -> exists n, prop d "years" = Number n).

Section Rows.
Variable toFixed1 : number -> string.

(** The years cell of a drawable period:
    [d.years ? `${d.years.toFixed(1)}y` : d.duration || '']. *)
Definition years_text (d : value) : value :=
  match prop d "years" with
  | Number n =>
      if truthy (Number n) then Str (toFixed1 n ++ "y")
      else or_else (prop d "duration") (Str "")
  | _ => or_else (prop d "duration") (Str "")
  end.

(** The row of a drawable period. *)
Definition row_of (d : value) : DashaView.row :=
  DashaView.mkRow (or_else (prop d "planet") (prop d "lord"))
                  (or_else (prop d "start_date") (prop d "start"))
                  (or_else (prop d "end_date") (prop d "end"))
                  (years_text d).

End Rows.

End Facts.

(* ================================================================== *)
(** * Part II: theorems *)
(* ================================================================== *)

(** ** Score bands *)

Section OutlookBands.
Import JS Outlook.

Lemma ge_Num_true (q c : Q) : ge (Num q) c = true <-> (c <= q)%Q.
Proof. apply Qle_bool_iff. Qed.

Lemma ge_Num_false (q c : Q) : ge (Num q) c = false <-> (q < c)%Q.
Proof.
  unfold ge. split; intro H.
  - apply Qnot_le_lt. intro Hle. apply Qle_bool_iff in Hle. congruence.
  - destruct (Qle_bool c q) eqn:E; [|reflexivity].
    apply Qle_bool_iff in E. exfalso. apply (Qlt_not_le _ _ H E).
Qed.

(** The three tests a band helper performs, as a decision on the score. *)
Lemma band_cases (q : Q) :
  (ge (Num q) (70#1) = true /\ (70#1 <= q)%Q) \/
  (ge (Num q) (70#1) = false /\ ge (Num q) (50#1) = true /\
     (50#1 <= q)%Q /\ (q < 70#1)%Q) \/
  (ge (Num q) (70#1) = false /\ ge (Num q) (50#1) = false /\
     ge (Num q) (30#1) = true /\ (30#1 <= q)%Q /\ (q < 50#1)%Q) \/
  (ge (Num q) (70#1) = false /\ ge (Num q) (50#1) = false /\
     ge (Num q) (30#1) = false /\ (q < 30#1)%Q).
Proof.
  destruct (ge (Num q) (70#1)) eqn:E70.
  { left. split; [reflexivity | now apply ge_Num_true]. }
  destruct (ge (Num q) (50#1)) eqn:E50.
  { right; left. repeat split; try reflexivity;
      [now apply ge_Num_true | now apply ge_Num_false]. }
  destruct (ge (Num q) (30#1)) eqn:E30.
  { right; right; left. repeat split; try reflexivity;
      [now apply ge_Num_true | now apply ge_Num_false]. }
  right; right; right. repeat split; try reflexivity. now apply ge_Num_false.
Qed.

(** C1.  For every numeric score, the web label helper answers 'Favorable'
    exactly from 70 up, 'Above Average' exactly on [50,70), 'Below Average'
    exactly on [30,50) and 'Challenging' exactly below 30; the web colour
    helper and the iOS colour helper cut at the same three values, band by
    band, and return the same colour on every input. *)
Theorem outlook_bands_70_50_30 (q : Q) :
  (getOutlookLabel (Num q) = "Favorable" <-> (70#1 <= q)%Q) /\
  (getOutlookLabel (Num q) = "Above Average" <-> (50#1 <= q)%Q /\ (q < 70#1)%Q) /\
  (getOutlookLabel (Num q) = "Below Average" <-> (30#1 <= q)%Q /\ (q < 50#1)%Q) /\
  (getOutlookLabel (Num q) = "Challenging" <-> (q < 30#1)%Q) /\
  (getOutlookColor (Num q) = "#4ade80" <-> (70#1 <= q)%Q) /\
  (getOutlookColor (Num q) = "#fbbf24" <-> (50#1 <= q)%Q /\ (q < 70#1)%Q) /\
  (getOutlookColor (Num q) = "#fb923c" <-> (30#1 <= q)%Q /\ (q < 50#1)%Q) /\
  (getOutlookColor (Num q) = "#f87171" <-> (q < 30#1)%Q) /\
  (forall n : number, getStrengthColor n = getOutlookColor n).
Proof.
  unfold getOutlookLabel, getOutlookColor.
  destruct (band_cases q) as
    [[E70 H]|[[E70 [E50 [H1 H2]]]|[[E70 [E50 [E30 [H1 H2]]]]|[E70 [E50 [E30 H]]]]]];
    rewrite ?E70, ?E50, ?E30;
    repeat split; intros; try discriminate; try reflexivity; try assumption;
    try lra.
Qed.

End OutlookBands.

(** ** The transit handlers *)

Section TransitHandlers.
Import JS Transit.
Variable type_error_message : value -> string -> string.
Variable ToNumber : string -> number.
Local Abbreviation get := (JS.get type_error_message).
Local Abbreviation pick := (JS.pick type_error_message).

(** A read of a truthy value never throws. *)
Lemma get_truthy (v : value) (k : string) :
  truthy v = true -> exists x, get v k = Normal x.
Proof.
  destruct v; simpl; intro H; try discriminate; eauto.
  destruct (lookup k o); eauto.
Qed.

Lemma pick_truthy (v : value) (ks : list string) :
  truthy v = true -> exists fs, pick v ks = Normal fs.
Proof.
  intro H. induction ks as [|k ks [fs IH]]; simpl.
  - eauto.
  - destruct (get_truthy v k H) as [x ->]. simpl. rewrite IH. simpl. eauto.
Qed.

Lemma get_Normal (r : value) (k : string) (x : value) :
  get r k = Normal x -> x = prop r k.
Proof.
  unfold prop. destruct r; simpl; try congruence.
  destruct (lookup k o); congruence.
Qed.

Lemma get_prop (r : value) (k k' : string) (x : value) :
  get r k = Normal x -> get r k' = Normal (prop r k').
Proof.
  unfold prop. destruct r; simpl; try congruence; intros _; try reflexivity.
  destruct (lookup k' o); reflexivity.
Qed.

Ltac run_handler :=
  cbv beta iota delta [negb bind finally try_catch lift fetch_json setLoading
                       setError setTransitData setEnhancedData].

(** What the basic handler leaves behind, by what the network did. *)
Lemma analyzeTransits_outcome bd date net st :
  truthy bd = true ->
  let res := analyzeTransits type_error_message ToNumber bd date net st in
  fst res = Normal tt /\ loading (snd res) = false /\
  match net with
  | Body r =>
      match get r "success" with
      | Normal s =>
          if truthy s then
            transitData (snd res) = prop r "data" /\ error (snd res) = Null
          else
            error (snd res) = or_else (prop r "error") (Str fallback) /\
            transitData (snd res) = transitData st
      | Throw e =>
          error (snd res) = Str (connect_prefix ++ message e) /\
          transitData (snd res) = transitData st
      end
  | NetworkFailure e | NotJson e =>
      error (snd res) = Str (connect_prefix ++ message e) /\
      transitData (snd res) = transitData st
  end.
Proof.
  intros Hbd. unfold analyzeTransits. rewrite Hbd.
  destruct (pick_truthy bd birth_keys Hbd) as [fs Hfs].
  run_handler. rewrite Hfs. simpl.
  destruct net as [e|e|r]; simpl; auto.
  destruct (get r "success") as [s|e] eqn:Hs; simpl; auto.
  destruct (truthy s) eqn:Ht; simpl.
  - rewrite (get_prop r "success" "data" s Hs). simpl. auto.
  - rewrite (get_prop r "success" "error" s Hs). simpl. auto.
Qed.

(** The same for the enhanced handler. *)
Lemma analyzeTransitsEnhanced_outcome bd date net st :
  truthy bd = true ->
  let res := analyzeTransitsEnhanced type_error_message ToNumber bd date net st in
  fst res = Normal tt /\ loading (snd res) = false /\
  match net with
  | Body r =>
      match get r "success" with
      | Normal s =>
          if truthy s then
            enhancedData (snd res) = r /\
            match compatible_view type_error_message r with
            | Normal v => transitData (snd res) = v /\ error (snd res) = Null
            | Throw e =>
                transitData (snd res) = transitData st /\
                error (snd res) = Str (connect_prefix ++ message e)
            end
          else
            error (snd res) = or_else (prop r "error") (Str fallback) /\
            transitData (snd res) = transitData st /\
            enhancedData (snd res) = enhancedData st
      | Throw e =>
          error (snd res) = Str (connect_prefix ++ message e) /\
          transitData (snd res) = transitData st /\
          enhancedData (snd res) = enhancedData st
      end
  | NetworkFailure e | NotJson e =>
      error (snd res) = Str (connect_prefix ++ message e) /\
      transitData (snd res) = transitData st /\
      enhancedData (snd res) = enhancedData st
  end.
Proof.
  intros Hbd. unfold analyzeTransitsEnhanced. rewrite Hbd.
  destruct (pick_truthy bd birth_keys Hbd) as [fs Hfs].
  run_handler. rewrite Hfs. simpl.
  destruct net as [e|e|r]; simpl; auto.
  destruct (get r "success") as [s|e] eqn:Hs; simpl; auto.
  destruct (truthy s) eqn:Ht; simpl.
  - destruct (compatible_view type_error_message r) as [v|e]; simpl; auto.
  - rewrite (get_prop r "success" "error" s Hs). simpl. auto.
Qed.

(** Without a chart the handlers only set the error text: nothing is sent
    and the loading flag is not touched. *)
Lemma analyzeTransits_without_chart bd date net st :
  truthy bd = false ->
  analyzeTransits type_error_message ToNumber bd date net st =
    (Normal tt, mkState (transitData st) (enhancedData st) (loading st)
                        (Str no_chart) (sent st)) /\
  analyzeTransitsEnhanced type_error_message ToNumber bd date net st =
    (Normal tt, mkState (transitData st) (enhancedData st) (loading st)
                        (Str no_chart) (sent st)).
Proof.
  intros Hbd. unfold analyzeTransits, analyzeTransitsEnhanced.
  rewrite Hbd. split; reflexivity.
Qed.

(** C2 (amended).  With a chart present, both transit handlers complete
    normally with [loading] back to [false], whatever the network did: a
    rejected [fetch], a body that is not JSON, or any JSON body.  A body [r]
    whose [success] can be read is treated as success exactly when
    [r.success] is truthy: then the basic handler stores [r.data] and the
    enhanced handler stores [r]; otherwise the error text becomes [r.error]
    when that is truthy and the fixed fallback when it is absent or falsy, and
    the stored transit data is left as it was. *)
Theorem transit_envelope_handling bd date net st :
  truthy bd = true ->
  let basic := analyzeTransits type_error_message ToNumber bd date net st in
  let enhanced := analyzeTransitsEnhanced type_error_message ToNumber bd date net st in
  (fst basic = Normal tt /\ loading (snd basic) = false) /\
  (fst enhanced = Normal tt /\ loading (snd enhanced) = false) /\
  (forall r s, net = Body r -> get r "success" = Normal s ->
     (truthy s = true ->
        transitData (snd basic) = prop r "data" /\
        enhancedData (snd enhanced) = r) /\
     (truthy s = false ->
        error (snd basic) = or_else (prop r "error") (Str fallback) /\
        transitData (snd basic) = transitData st /\
        error (snd enhanced) = or_else (prop r "error") (Str fallback) /\
        transitData (snd enhanced) = transitData st /\
        enhancedData (snd enhanced) = enhancedData st)).
Proof.
  intros Hbd basic enhanced.
  destruct (analyzeTransits_outcome bd date net st Hbd) as [B1 [B2 B3]].
  destruct (analyzeTransitsEnhanced_outcome bd date net st Hbd) as [E1 [E2 E3]].
  fold basic in B1, B2, B3. fold enhanced in E1, E2, E3.
  split; [now split|]. split; [now split|].
  intros r s -> Hs. rewrite Hs in B3, E3.
  split; intros Ht; rewrite Ht in B3, E3; intuition.
Qed.

End TransitHandlers.

Lemma transit_envelope_handling_witness :
  JS.truthy Transit.delhi_1990 = true /\
  Transit.loading
    (snd (Transit.analyzeTransits JS.v8_message Facts.Number_of_digits
            Transit.delhi_1990 "2024-01-01"
            (Transit.Body (JS.Obj [("success", JS.Bool false)]))
            Transit.idle)) = false.
Proof.
  split; [reflexivity|].
  apply (transit_envelope_handling JS.v8_message Facts.Number_of_digits
           Transit.delhi_1990 "2024-01-01"
           (Transit.Body (JS.Obj [("success", JS.Bool false)]))
           Transit.idle).
  reflexivity.
Defined.

(** C2 as worded fails on a body that carries an empty error text: the field
    is present, yet the handler shows the fallback, not [r.error]. *)
Lemma empty_error_text_replaced_by_fallback :
  let r := JS.Obj [("success", JS.Bool false); ("error", JS.Str "")] in
  let res := Transit.analyzeTransits JS.v8_message Facts.Number_of_digits
               Transit.delhi_1990 "2024-01-01"
               (Transit.Body r) Transit.idle in
  JS.field r "error" = Some (JS.Str "") /\
  Transit.error (snd res) = JS.Str "Failed to analyze transits" /\
  Transit.error (snd res) <> Transit.worded_error_text r.
Proof.
  cbv. repeat split. discriminate.
Qed.

(** ** The yoga list *)

Section YogaList.
Import JS Yoga.
Variable type_error_message : value -> string -> string.
Local Abbreviation get := (JS.get type_error_message).

Lemma get_readable (v : value) (k : string) :
  readable v = true -> get v k = Normal (prop v k).
Proof.
  unfold prop. destruct v; simpl; try discriminate; intros _; try reflexivity.
  destruct (lookup k o); reflexivity.
Qed.

Lemma filter_present_readable (l : list value) :
  forallb readable l = true ->
  filter_present type_error_message l = Normal (filter present l).
Proof.
  induction l as [|y t IH]; simpl; [reflexivity|].
  intros H. apply andb_prop in H. destruct H as [Hy Ht].
  rewrite (get_readable y "is_present" Hy). simpl.
  rewrite (IH Ht). simpl. reflexivity.
Qed.

Lemma filter_keeps_readable (l : list value) :
  forallb readable l = true -> forallb readable (filter present l) = true.
Proof.
  induction l as [|y t IH]; simpl; [reflexivity|].
  intros H. apply andb_prop in H. destruct H as [Hy Ht].
  destruct (present y); simpl; [rewrite Hy|]; auto.
Qed.

Lemma render_cards_readable (l : list value) :
  forallb readable l = true ->
  exists cards,
    render_cards type_error_message l = Normal cards /\ map record cards = l.
Proof.
  induction l as [|y t IH]; simpl.
  - exists []. split; reflexivity.
  - intros H. apply andb_prop in H. destruct H as [Hy Ht].
    destruct (IH Ht) as [cs [Hcs Hmap]].
    unfold render_card. rewrite !(get_readable y _ Hy). simpl.
    rewrite Hcs. simpl. eexists. split; [reflexivity|].
    simpl. now rewrite Hmap.
Qed.

Lemma flat_concat_value_lists (vs l : list value) :
  concat_value_lists vs = Some l -> flat vs = l.
Proof.
  revert l. induction vs as [|v t IH]; simpl; intros l H.
  - congruence.
  - destruct v; try discriminate.
    destruct (concat_value_lists t) as [rest|]; [|discriminate].
    injection H as <-. now rewrite (IH rest eq_refl).
Qed.

(** A payload the wording assigns a source to is truthy, and the component
    picks that very list. *)
Lemma yoga_source_picked (y : value) (l : list value) :
  yoga_source y = Some l ->
  truthy y = true /\ pick_list type_error_message y = Normal l.
Proof.
  unfold yoga_source, pick_list.
  destruct y as [| |b|n|s|a|o]; simpl; try discriminate.
  - intros H. injection H as ->. split; reflexivity.
  - intros H. split; [reflexivity|].
    destruct (lookup "all_yogas" o) as [all|] eqn:Hall.
    + destruct all; try (injection H as ->; reflexivity);
        simpl; rewrite ?andb_false_r;
        (destruct (lookup "detected_yogas" o) as [det|] eqn:Hdet;
         [ destruct det; try (injection H as ->; reflexivity);
             simpl; rewrite ?andb_false_r
         | simpl ]);
        (destruct (lookup "yogas" o) as [yy|]; [|discriminate]);
        destruct yy; try discriminate; simpl;
        now rewrite (flat_concat_value_lists _ _ H).
    + simpl.
      destruct (lookup "detected_yogas" o) as [det|] eqn:Hdet;
        [ destruct det; try (injection H as ->; reflexivity);
            simpl; rewrite ?andb_false_r
        | simpl ];
        (destruct (lookup "yogas" o) as [yy|]; [|discriminate]);
        destruct yy; try discriminate; simpl;
        now rewrite (flat_concat_value_lists _ _ H).
Qed.

Lemma YogaList_of_source (y : value) (l : list value) :
  yoga_source y = Some l ->
  forallb readable l = true ->
  exists cards,
    YogaList type_error_message y = Normal (Some cards) /\
    map record cards = filter present l.
Proof.
  intros Hsrc Hl.
  destruct (yoga_source_picked y l Hsrc) as [Hy Hpick].
  unfold YogaList. rewrite Hy, Hpick. simpl.
  rewrite (filter_present_readable l Hl). simpl.
  destruct (render_cards_readable _ (filter_keeps_readable l Hl)) as [cs [Hcs Hmap]].
  rewrite Hcs. simpl. eauto.
Qed.

Lemma YogaList_all_yogas (l : list value) :
  YogaList type_error_message (Obj [("all_yogas", Arr l)]) =
  cbind (filter_present type_error_message l) (fun shown =>
  cbind (render_cards type_error_message shown) (fun cards =>
  Normal (Some cards))).
Proof. reflexivity. Qed.

Lemma YogaList_yogas_dictionary (d : list (string * value)) (l : list value) :
  concat_value_lists (map snd d) = Some l ->
  YogaList type_error_message (Obj [("yogas", Obj d)]) =
  cbind (filter_present type_error_message l) (fun shown =>
  cbind (render_cards type_error_message shown) (fun cards =>
  Normal (Some cards))).
Proof.
  intros H. unfold YogaList, pick_list. simpl.
  now rewrite (flat_concat_value_lists _ _ H).
Qed.

(** C4.  When the payload has a source list in the order the specification
    words it ([all_yogas] if an array, else [detected_yogas] if an array, else
    the payload itself if an array, else the concatenated value lists of the
    dictionary [yogas]) and the list holds records, the component draws one
    card per record [r] with [r.is_present !== false], in order, and nothing
    else; a record without an [is_present] field gets its card; and the
    dictionary shape draws what the array shape with the same records
    draws. *)
Theorem YogaList_renders_present_records (y : value) (l : list value) :
  yoga_source y = Some l ->
  forallb readable l = true ->
  exists cards,
    YogaList type_error_message y = Normal (Some cards) /\
    map record cards = filter present l /\
    (forall r, In r l -> field r "is_present" = None ->
       In r (map record cards)) /\
    (forall d, y = Obj [("yogas", Obj d)] ->
       YogaList type_error_message (Obj [("all_yogas", Arr l)]) =
       YogaList type_error_message y).
Proof.
  intros Hsrc Hl.
  destruct (YogaList_of_source y l Hsrc Hl) as [cards [Hrun Hmap]].
  exists cards. repeat split; try assumption.
  - intros r Hin Habsent. rewrite Hmap. apply filter_In. split; [assumption|].
    unfold present, prop. now rewrite Habsent.
  - intros d ->. rewrite YogaList_all_yogas.
    symmetry. apply YogaList_yogas_dictionary.
    exact Hsrc.
Qed.

End YogaList.

Lemma YogaList_renders_present_records_witness :
  exists cards,
    Yoga.YogaList JS.v8_message
      (JS.Obj [("yogas",
                JS.Obj [("raja", JS.Arr [Yoga.raj; Yoga.kemadruma]);
                        ("chandra", JS.Arr [Yoga.gaja])])]) =
      JS.Normal (Some cards) /\
    map Yoga.record cards = [Yoga.raj; Yoga.gaja].
Proof.
  destruct (YogaList_renders_present_records JS.v8_message
              (JS.Obj [("yogas",
                        JS.Obj [("raja", JS.Arr [Yoga.raj; Yoga.kemadruma]);
                                ("chandra", JS.Arr [Yoga.gaja])])])
              [Yoga.raj; Yoga.kemadruma; Yoga.gaja]
              eq_refl eq_refl) as [cards [Hrun [Hmap _]]].
  exists cards. split; [exact Hrun | exact Hmap].
Defined.

(** With no payload the component returns [null]; with a payload that has
    none of the four sources it draws the empty list. *)
Example YogaList_no_payload :
  Yoga.YogaList JS.v8_message JS.Null = JS.Normal None.
Proof. reflexivity. Qed.

Example YogaList_no_source :
  Yoga.YogaList JS.v8_message (JS.Obj [("summary", JS.Str "none")]) =
  JS.Normal (Some []).
Proof. reflexivity. Qed.

(** A [null] among the list elements makes the filter throw: the component
    draws records, not arbitrary array elements. *)
Example YogaList_null_element_throws :
  Yoga.YogaList JS.v8_message (JS.Obj [("all_yogas", JS.Arr [JS.Null])]) =
  JS.Throw (JS.mkError "Cannot read properties of null (reading 'is_present')").
Proof. reflexivity. Qed.

Example parseInt_1990 : Client.parseInt "1990" = JS.Num (1990#1).
Proof. reflexivity. Qed.
Example parseInt_prefix : Client.parseInt " 12px" = JS.Num (12#1).
Proof. reflexivity. Qed.
Example parseInt_hex : Client.parseInt "0x1F" = JS.Num (31#1).
Proof. reflexivity. Qed.
Example parseInt_neg : Client.parseInt "-7" = JS.Num (-7#1).
Proof. reflexivity. Qed.
Example parseInt_abc : Client.parseInt "abc" = JS.NaN.
Proof. reflexivity. Qed.
Example parseInt_empty : Client.parseInt "" = JS.NaN.
Proof. reflexivity. Qed.

(** ** Requests of the web App and of the iOS screens *)

Section Appends.
Import JS.
Context {S : Type} (sent : S -> list (string * value)).
Variable P : string * value -> Prop.

Lemma appends_ret {A} (a : A) : appends sent P (ret a).
Proof. intros s. exists []. simpl. rewrite app_nil_r. auto. Qed.

Lemma appends_throw {A} (e : error) : appends sent P (@throw S A e).
Proof. intros s. exists []. simpl. rewrite app_nil_r. auto. Qed.

Lemma appends_lift {A} (c : completion A) : appends sent P (@lift S A c).
Proof. intros s. exists []. simpl. rewrite app_nil_r. auto. Qed.

Lemma appends_bind {A B} (m : M S A) (k : A -> M S B) :
  appends sent P m -> (forall a, appends sent P (k a)) ->
  appends sent P (bind m k).
Proof.
  intros Hm Hk s. unfold bind.
  destruct (Hm s) as [n1 [E1 F1]].
  destruct (m s) as [[a|e] s1]; simpl in *.
  - destruct (Hk a s1) as [n2 [E2 F2]].
    exists (n1 ++ n2). rewrite E2, E1, app_assoc. split; [reflexivity|].
    apply Forall_app. auto.
  - exists n1. auto.
Qed.

Lemma appends_try_catch {A} (body : M S A) (handler : error -> M S A) :
  appends sent P body -> (forall e, appends sent P (handler e)) ->
  appends sent P (try_catch body handler).
Proof.
  intros Hb Hh s. unfold try_catch.
  destruct (Hb s) as [n1 [E1 F1]].
  destruct (body s) as [[a|e] s1]; simpl in *.
  - exists n1. auto.
  - destruct (Hh e s1) as [n2 [E2 F2]].
    exists (n1 ++ n2). rewrite E2, E1, app_assoc. split; [reflexivity|].
    apply Forall_app. auto.
Qed.

Lemma appends_finally {A} (body : M S A) (fin : M S unit) :
  appends sent P body -> appends sent P fin ->
  appends sent P (finally body fin).
Proof.
  intros Hb Hf s. unfold finally.
  destruct (Hb s) as [n1 [E1 F1]].
  destruct (body s) as [c s1]; simpl in *.
  destruct (Hf s1) as [n2 [E2 F2]].
  exists (n1 ++ n2).
  destruct (fin s1) as [[u|e] s2]; simpl in *;
    (rewrite E2, E1, app_assoc; split; [reflexivity|]; apply Forall_app; auto).
Qed.

(** A step that leaves the request list alone. *)
Lemma appends_silent {A} (m : M S A) :
  (forall s, sent (snd (m s)) = sent s) -> appends sent P m.
Proof. intros H s. exists []. rewrite app_nil_r. auto. Qed.

(** A step that issues one request. *)
Lemma appends_one {A} (m : M S A) (r : string * value) :
  (forall s, sent (snd (m s)) = sent s ++ [r]) -> P r -> appends sent P m.
Proof. intros H Hr s. exists [r]. split; [apply H | auto]. Qed.

End Appends.

Section ClientRequests.
Import JS Client.
Variable parseFloat : string -> number.
Variable type_error_message : value -> string -> string.

Ltac appends_structure :=
  repeat lazymatch goal with
  | |- appends _ _ (finally _ _) => apply appends_finally
  | |- appends _ _ (try_catch _ _) => apply appends_try_catch; [|intros ?]
  | |- appends _ _ (bind _ _) => apply appends_bind; [|intros ?]
  | |- appends _ _ (ret _) => apply appends_ret
  | |- appends _ _ (throw _) => apply appends_throw
  | |- appends _ _ (lift _) => apply appends_lift
  | |- appends _ _ (if ?b then _ else _) => destruct b
  end.

Ltac appends_silently := apply appends_silent; intros ?; reflexivity.

(** **** The web App *)

Lemma web_body_lahiri (form : web_form) (url : string) :
  lahiri_zero_seconds (url, wire (web_birthData parseFloat form)).
Proof. split; reflexivity. Qed.

Lemma fetch_appends (net : string -> reply) (url : string) (form : web_form) :
  appends app_sent lahiri_zero_seconds
    (fetch net url (web_birthData parseFloat form)).
Proof.
  apply appends_one with (r := (url, wire (web_birthData parseFloat form))).
  - intros s. unfold fetch. destruct (net url); reflexivity.
  - apply web_body_lahiri.
Qed.

Lemma store_if_ok_appends res set :
  (forall v, appends app_sent lahiri_zero_seconds (set v)) ->
  appends app_sent lahiri_zero_seconds (store_if_ok res set).
Proof.
  intros Hset. unfold store_if_ok. appends_structure. apply Hset.
Qed.

Lemma handleFormSubmit_appends (form : web_form) (net : string -> reply) :
  appends app_sent lahiri_zero_seconds (handleFormSubmit parseFloat form net).
Proof.
  unfold handleFormSubmit. cbv zeta.
  appends_structure;
    try apply fetch_appends;
    try (apply store_if_ok_appends; intros ?);
    appends_silently.
Qed.

(** **** Bodies after [JSON.stringify] and after a spread *)

Lemma lookup_wire (o : list (string * value)) (k : string) (v : value) :
  lookup k o = Some v -> v <> Undefined ->
  field (wire (Obj o)) k = Some (wire v).
Proof.
  intros Hk Hv. simpl. induction o as [|[k' x] t IH]; simpl in *.
  - discriminate.
  - destruct (String.eqb k k') eqn:E.
    + injection Hk as ->. apply String.eqb_eq in E. subst k'.
      destruct v; try congruence; simpl; rewrite String.eqb_refl; reflexivity.
    + destruct x; simpl; rewrite ?E; apply IH; assumption.
Qed.

Lemma lookup_assign_other (k k' : string) (v : value) (o : list (string * value)) :
  k <> k' -> lookup k (assign k' v o) = lookup k o.
Proof.
  intros Hne. apply String.eqb_neq in Hne.
  induction o as [|[k2 x] t IH]; simpl.
  - now rewrite Hne.
  - destruct (String.eqb k' k2) eqn:E; simpl.
    + apply String.eqb_eq in E. subst k2. now rewrite Hne.
    + destruct (String.eqb k k2); [reflexivity | exact IH].
Qed.

Lemma lookup_spread_other (k : string) (o extra : list (string * value)) :
  ~ In k (map fst extra) -> lookup k (spread o extra) = lookup k o.
Proof.
  unfold spread. revert o. induction extra as [|[k' v] t IH]; simpl; intros o H.
  - reflexivity.
  - rewrite IH by tauto. apply lookup_assign_other. intros ->. tauto.
Qed.

(** The memo of the Results screen is an object that binds [second] to 0
    and [ayanamsa] to ['lahiri']. *)
Lemma results_birthData_shape (chartData birthData : value) :
  results_birthData type_error_message chartData = Normal birthData ->
  memo_shaped birthData.
Proof.
  unfold results_birthData, memo_shaped. intros H.
  repeat match type of H with
  | cbind ?c _ = Normal _ => destruct c; simpl in H; [|discriminate]
  end.
  injection H as <-. eexists. split; [reflexivity|]. split; reflexivity.
Qed.

Lemma spread_body_lahiri (o extra : list (string * value)) (url : string) :
  lookup "second" o = Some (Number (Num 0)) ->
  lookup "ayanamsa" o = Some (Str "lahiri") ->
  ~ In "second" (map fst extra) -> ~ In "ayanamsa" (map fst extra) ->
  lahiri_zero_seconds (url, wire (spread_object (Obj o) extra)).
Proof.
  intros Hs Ha Ns Na. unfold lahiri_zero_seconds, spread_object, snd. split.
  - rewrite (lookup_wire _ "second" (Number (Num 0))); try reflexivity;
      [now rewrite lookup_spread_other | discriminate].
  - rewrite (lookup_wire _ "ayanamsa" (Str "lahiri")); try reflexivity;
      [now rewrite lookup_spread_other | discriminate].
Qed.

Lemma plain_body_lahiri (o : list (string * value)) (url : string) :
  lookup "second" o = Some (Number (Num 0)) ->
  lookup "ayanamsa" o = Some (Str "lahiri") ->
  lahiri_zero_seconds (url, wire (Obj o)).
Proof.
  intros Hs Ha. unfold lahiri_zero_seconds, snd. split.
  - now rewrite (lookup_wire _ "second" (Number (Num 0)) Hs).
  - now rewrite (lookup_wire _ "ayanamsa" (Str "lahiri") Ha).
Qed.

Ltac not_a_key := simpl; intuition discriminate.

(** **** The iOS Home screen *)

Lemma home_post_appends (path : string) (f : home_form) :
  appends home_sent lahiri_zero_seconds
    (home_post path (home_birthData parseFloat f)).
Proof.
  apply appends_one
    with (r := ((API_BASE_URL ++ path)%string, wire (home_birthData parseFloat f))).
  - intros s. reflexivity.
  - split; reflexivity.
Qed.

Lemma validateInputs_silent (f : home_form) (s : home_world) :
  home_sent (snd (validateInputs f s)) = home_sent s.
Proof.
  unfold validateInputs.
  repeat match goal with
  | |- context [if ?b then _ else _] => destruct b
  end; reflexivity.
Qed.

Lemma handleSubmit_appends (f : home_form) (net : settled4) :
  appends home_sent lahiri_zero_seconds (handleSubmit parseFloat f net).
Proof.
  unfold handleSubmit. cbv zeta.
  apply appends_bind; [apply appends_silent, validateInputs_silent|].
  intros valid. destruct net;
  appends_structure; try apply home_post_appends; appends_silently.
Qed.

(** **** The iOS Results screen *)

Lemma getEnhancedTransit_appends birthData (ty tm td : number) :
  memo_shaped birthData ->
  appends res_sent lahiri_zero_seconds (getEnhancedTransit birthData ty tm td).
Proof.
  intros [o [-> [Hs Ha]]].
  eapply appends_one; [intros s; reflexivity|].
  apply spread_body_lahiri; try assumption; not_a_key.
Qed.

Lemma getTransitTimeline_appends birthData (area : value) :
  memo_shaped birthData ->
  appends res_sent lahiri_zero_seconds (getTransitTimeline birthData area).
Proof.
  intros [o [-> [Hs Ha]]].
  eapply appends_one; [intros s; reflexivity|].
  apply spread_body_lahiri; try assumption; not_a_key.
Qed.

Lemma getHouseInterpretation_appends birthData :
  memo_shaped birthData ->
  appends res_sent lahiri_zero_seconds (getHouseInterpretation birthData).
Proof.
  intros [o [-> [Hs Ha]]].
  eapply appends_one; [intros s; reflexivity|].
  apply plain_body_lahiri; assumption.
Qed.

Lemma fetchTransit_appends birthData (ty tm td : number) (net : settled2) :
  memo_shaped birthData ->
  appends res_sent lahiri_zero_seconds (fetchTransit birthData ty tm td net).
Proof.
  intros Hbd. unfold fetchTransit. destruct net; appends_structure;
    try (apply getEnhancedTransit_appends; assumption);
    try (apply getTransitTimeline_appends; assumption);
    appends_silently.
Qed.

Lemma handleTransitAreaPress_appends birthData (area : string)
    (net : completion value) :
  memo_shaped birthData ->
  appends res_sent lahiri_zero_seconds (handleTransitAreaPress birthData area net).
Proof.
  intros Hbd. unfold handleTransitAreaPress. appends_structure;
    try (apply getTransitTimeline_appends; assumption);
    appends_silently.
Qed.

Lemma fetchHouses_appends birthData (net : completion value) :
  memo_shaped birthData ->
  appends res_sent lahiri_zero_seconds (fetchHouses birthData net).
Proof.
  intros Hbd. unfold fetchHouses. appends_structure;
    try (apply getHouseInterpretation_appends; assumption);
    appends_silently.
Qed.

Lemma handleTabChange_appends birthData tab ty tm td net2 net1 :
  memo_shaped birthData ->
  appends res_sent lahiri_zero_seconds
    (handleTabChange birthData tab ty tm td net2 net1).
Proof.
  intros Hbd s. unfold handleTabChange.
  generalize (res_transitData s), (housesData s). intros v1 v2. revert s.
  apply appends_bind; [appends_silently|]. intros _.
  apply appends_bind.
  - destruct (_ && _)%bool; [now apply fetchTransit_appends | apply appends_ret].
  - intros _. destruct (_ && _)%bool; [now apply fetchHouses_appends | apply appends_ret].
Qed.

(** C9.  Whatever the user entered and whatever the network answers, every
    request the web App's submit handler, the iOS Home screen's submit
    handler and the iOS Results screen's fetches issue carries [second] equal
    to 0 and [ayanamsa] equal to ['lahiri'] in its JSON body.  (The forms have
    no field for either: [web_form] and [home_form] list all their inputs.) *)
Theorem requests_carry_zero_seconds_and_lahiri :
  (forall form net,
     appends app_sent lahiri_zero_seconds (handleFormSubmit parseFloat form net)) /\
  (forall f net,
     appends home_sent lahiri_zero_seconds (handleSubmit parseFloat f net)) /\
  (forall chartData birthData,
     results_birthData type_error_message chartData = Normal birthData ->
     (forall ty tm td net,
        appends res_sent lahiri_zero_seconds (fetchTransit birthData ty tm td net)) /\
     (forall area net,
        appends res_sent lahiri_zero_seconds
          (handleTransitAreaPress birthData area net)) /\
     (forall net,
        appends res_sent lahiri_zero_seconds (fetchHouses birthData net)) /\
     (forall tab ty tm td net2 net1,
        appends res_sent lahiri_zero_seconds
          (handleTabChange birthData tab ty tm td net2 net1))).
Proof.
  split; [exact handleFormSubmit_appends|].
  split; [exact handleSubmit_appends|].
  intros chartData birthData memo.
  apply results_birthData_shape in memo.
  repeat split; intros.
  - now apply fetchTransit_appends.
  - now apply handleTransitAreaPress_appends.
  - now apply fetchHouses_appends.
  - now apply handleTabChange_appends.
Qed.

End ClientRequests.

Lemma requests_carry_zero_seconds_and_lahiri_witness :
  exists birthData,
    Client.results_birthData JS.v8_message Client.chart_1990
      = JS.Normal birthData /\
    JS.appends Client.res_sent Client.lahiri_zero_seconds
      (Client.fetchHouses birthData (JS.Normal JS.Null)).
Proof.
  eexists. split; [reflexivity|].
  apply (proj2 (proj2 (requests_carry_zero_seconds_and_lahiri
                         (fun _ => JS.NaN) JS.v8_message))
           Client.chart_1990 _ eq_refl).
Defined.

(** The two transit views of the web client build their bodies field by
    field and put neither [second] nor [ayanamsa] in them. *)
Remark web_transit_body_has_no_ayanamsa :
  let res := Transit.analyzeTransits JS.v8_message Facts.Number_of_digits
               Transit.delhi_1990 "2024-01-01"
               (Transit.Body (JS.Obj [("success", JS.Bool false)]))
               Transit.idle in
  map (fun request => (JS.field (snd request) "second",
                       JS.field (snd request) "ayanamsa"))
      (Transit.sent (snd res)) = [(None, None)].
Proof. reflexivity. Qed.

(** ** Timeline summary *)

Section FirstExtreme.
Import Engine.
Variable no_better : Q -> Q -> bool.
Hypothesis total : forall a b, no_better a b = false -> no_better b a = true.
Hypothesis trans :
  forall a b c, no_better a b = true -> no_better b c = true -> no_better a c = true.

Lemma no_better_refl (a : Q) : no_better a a = true.
Proof.
  destruct (no_better a a) eqn:E; [reflexivity|].
  rewrite <- E. now apply total.
Qed.

Lemma first_extreme_some (l : list Q) :
  l <> [] -> exists j v, first_extreme no_better l = Some (j, v).
Proof.
  destruct l as [|x t]; [congruence|]. intros _. simpl.
  destruct (first_extreme no_better t) as [[j v]|]; [|eauto].
  destruct (no_better v x); eauto.
Qed.

(** The position found holds the value found, nothing in the list is better,
    and everything before it is strictly worse. *)
Lemma first_extreme_spec (l : list Q) (j : nat) (v : Q) :
  first_extreme no_better l = Some (j, v) ->
  nth_error l j = Some v /\
  (forall k x, nth_error l k = Some x -> no_better x v = true) /\
  (forall k x, (k < j)%nat -> nth_error l k = Some x -> no_better v x = false).
Proof.
  revert j v. induction l as [|x t IH]; simpl; intros j v H; [discriminate|].
  destruct (first_extreme no_better t) as [[j' v']|] eqn:Et.
  - destruct (IH j' v' eq_refl) as [Hnth [Hall Hbefore]].
    destruct (no_better v' x) eqn:Ehead; injection H as <- <-.
    + split; [reflexivity|]. split.
      * intros [|k] y Hy; simpl in Hy.
        -- injection Hy as <-. apply no_better_refl.
        -- apply trans with (b := v'); [now apply (Hall k)|assumption].
      * intros k y Hk. lia.
    + split; [exact Hnth|]. split.
      * intros [|k] y Hy; simpl in Hy.
        -- injection Hy as <-. now apply total.
        -- now apply (Hall k).
      * intros [|k] y Hk Hy; simpl in Hy.
        -- now injection Hy as <-.
        -- apply (Hbefore k); [lia|assumption].
  - injection H as <- <-.
    destruct t as [|y t'];
      [| simpl in Et; destruct (first_extreme no_better t') as [[? ?]|];
         [destruct (no_better _ _)|]; discriminate].
    split; [reflexivity|]. split.
    + intros [|[|k]] y Hy; simpl in Hy; try discriminate.
      injection Hy as <-. apply no_better_refl.
    + intros k y Hk. lia.
Qed.

Lemma first_extreme_in_range (l : list Q) (j : nat) (v : Q) :
  first_extreme no_better l = Some (j, v) -> (j < List.length l)%nat.
Proof.
  intros H. apply first_extreme_spec in H. destruct H as [H _].
  apply nth_error_Some. congruence.
Qed.

End FirstExtreme.

Lemma at_most_total a b : Engine.at_most a b = false -> Engine.at_most b a = true.
Proof.
  unfold Engine.at_most. intros H. apply Qle_bool_iff.
  destruct (Qlt_le_dec b a) as [Hlt|Hle].
  - now apply Qlt_le_weak.
  - apply Qle_bool_iff in Hle. congruence.
Qed.

Lemma at_most_trans a b c :
  Engine.at_most a b = true -> Engine.at_most b c = true -> Engine.at_most a c = true.
Proof.
  unfold Engine.at_most. rewrite !Qle_bool_iff. apply Qle_trans.
Qed.

Lemma at_most_false a b : Engine.at_most a b = false -> (b < a)%Q.
Proof.
  unfold Engine.at_most. intros H. apply Qnot_le_lt. intros Hle.
  apply Qle_bool_iff in Hle. congruence.
Qed.

Lemma at_least_total a b : Engine.at_least a b = false -> Engine.at_least b a = true.
Proof. unfold Engine.at_least. apply at_most_total. Qed.

Lemma at_least_trans a b c :
  Engine.at_least a b = true -> Engine.at_least b c = true -> Engine.at_least a c = true.
Proof. unfold Engine.at_least. intros H1 H2. now apply at_most_trans with (b := b). Qed.

Section TimelineSummary.
Import JS Engine Timeline.
Variable type_error_message : value -> string -> string.

Lemma extreme_point (no_better : Q -> Q -> bool)
    (total : forall a b, no_better a b = false -> no_better b a = true)
    (trans : forall a b c,
        no_better a b = true -> no_better b c = true -> no_better a c = true)
    (points : list TimelinePoint) :
  points <> [] ->
  exists j p,
    first_extreme no_better (map normalized_score points)
      = Some (j, normalized_score p) /\
    nth_error points j = Some p /\
    (j < List.length points)%nat /\
    (forall q, In q points ->
       no_better (normalized_score q) (normalized_score p) = true) /\
    (forall k q, (k < j)%nat -> nth_error points k = Some q ->
       no_better (normalized_score p) (normalized_score q) = false).
Proof.
  intros Hne.
  destruct (first_extreme_some no_better (map normalized_score points))
    as [j [v Hext]].
  { destruct points; [congruence | discriminate]. }
  destruct (first_extreme_spec no_better total trans _ _ _ Hext)
    as [Hnth [Hall Hbefore]].
  rewrite nth_error_map in Hnth.
  destruct (nth_error points j) as [p|] eqn:Hp; [|discriminate].
  simpl in Hnth. injection Hnth as <-.
  exists j, p. split; [exact Hext|]. split; [exact Hp|]. split.
  { apply nth_error_Some. congruence. }
  split.
  - intros q Hq. apply In_nth_error in Hq. destruct Hq as [k Hk].
    apply (Hall k). rewrite nth_error_map, Hk. reflexivity.
  - intros k q Hk Hq. apply (Hbefore k); [exact Hk|].
    rewrite nth_error_map, Hq. reflexivity.
Qed.

(** The cell of a listed month [S j] shows the first three letters of the
    name of entry [j] (or the number, should the name be empty). *)
Lemma month_cell_of_point (points : list TimelinePoint) (j : nat) (p : TimelinePoint) :
  nth_error points j = Some p ->
  month_cell type_error_message (map point_json points) (Z.of_nat (S j)) =
  Normal (or_else (Str (String.substring 0 3 (month p)))
                  (Number (Num (inject_Z (Z.of_nat (S j)))))).
Proof.
  intros Hp. unfold month_cell, index.
  replace (Z.of_nat (S j) - 1)%Z with (Z.of_nat j) by lia.
  destruct (Z.of_nat j <? 0)%Z eqn:E; [apply Z.ltb_lt in E; lia|].
  rewrite Nat2Z.id.
  rewrite (nth_error_nth (map point_json points) j Undefined (x := point_json p)).
  - reflexivity.
  - rewrite nth_error_map, Hp. reflexivity.
Qed.

(** C5.  For a timeline of 12 points, [best_months] lists one month: the
    position, counted from 1, of the first point whose normalized score no
    other point exceeds; [challenging_months] the same for the lowest score;
    and the web client, reading a listed month [m] as [monthly_data[m-1]],
    shows the name of exactly that point. *)
Theorem best_months_index_first_extremes (points : list TimelinePoint) :
  List.length points = 12%nat ->
  exists b c pb pc,
    best_months points = [b] /\ challenging_months points = [c] /\
    (1 <= b <= 12)%nat /\ (1 <= c <= 12)%nat /\
    nth_error points (b - 1) = Some pb /\
    nth_error points (c - 1) = Some pc /\
    (forall p, In p points -> (normalized_score p <= normalized_score pb)%Q) /\
    (forall k p, (k < b - 1)%nat -> nth_error points k = Some p ->
       (normalized_score p < normalized_score pb)%Q) /\
    (forall p, In p points -> (normalized_score pc <= normalized_score p)%Q) /\
    (forall k p, (k < c - 1)%nat -> nth_error points k = Some p ->
       (normalized_score pc < normalized_score p)%Q) /\
    month_cell type_error_message (map point_json points) (Z.of_nat b) =
      Normal (or_else (Str (String.substring 0 3 (month pb)))
                      (Number (Num (inject_Z (Z.of_nat b))))) /\
    month_cell type_error_message (map point_json points) (Z.of_nat c) =
      Normal (or_else (Str (String.substring 0 3 (month pc)))
                      (Number (Num (inject_Z (Z.of_nat c))))).
Proof.
  intros Hlen.
  assert (Hne : points <> []) by (destruct points; [discriminate | congruence]).
  destruct (extreme_point at_most at_most_total at_most_trans points Hne)
    as [jb [pb [Hb [Hpb [Hjb [Hmax Hfirst]]]]]].
  destruct (extreme_point at_least at_least_total at_least_trans points Hne)
    as [jc [pc [Hc [Hpc [Hjc [Hmin Hfirst']]]]]].
  exists (S jb), (S jc), pb, pc.
  unfold best_months, challenging_months. rewrite Hb, Hc.
  replace (S jb - 1)%nat with jb by lia. replace (S jc - 1)%nat with jc by lia.
  repeat split; try reflexivity; try assumption; try lia.
  - intros p Hp. apply Qle_bool_iff. exact (Hmax p Hp).
  - intros k p Hk Hp. apply at_most_false. exact (Hfirst k p Hk Hp).
  - intros p Hp. apply Qle_bool_iff. exact (Hmin p Hp).
  - intros k p Hk Hp. apply at_most_false. exact (Hfirst' k p Hk Hp).
  - now apply month_cell_of_point.
  - now apply month_cell_of_point.
Qed.

End TimelineSummary.

Lemma best_months_index_first_extremes_witness :
  exists b c,
    Engine.best_months Engine.sample_year = [b] /\
    Engine.challenging_months Engine.sample_year = [c].
Proof.
  destruct (best_months_index_first_extremes JS.v8_message Engine.sample_year eq_refl)
    as [b [c [pb [pc [Hb [Hc _]]]]]].
  exists b, c. split; assumption.
Defined.

Example sample_year_best : Engine.best_months Engine.sample_year = [2%nat].
Proof. reflexivity. Qed.

Example sample_year_challenging :
  Engine.challenging_months Engine.sample_year = [6%nat].
Proof. reflexivity. Qed.

Example sample_year_best_cell :
  Timeline.month_cell JS.v8_message
    (map Engine.point_json Engine.sample_year) 2 = JS.Normal (JS.Str "Feb").
Proof. reflexivity. Qed.

(** ** Dasha periods *)

Section Dasha.
Import Engine.

Lemma partitions_finish (l : list DashaPeriod) (s e e' : Q) :
  e == e' -> partitions s l e -> partitions s l e'.
Proof.
  revert s. induction l as [|p t IH]; simpl; intros s He H.
  - now rewrite <- He.
  - destruct H as [H1 [H2 [H3 H4]]]. repeat split; try assumption.
    now apply IH.
Qed.

Lemma periods_durations now start items children :
  map duration_years (periods now start items children) = map snd items.
Proof.
  revert start. induction items as [|[p d] t IH]; simpl; intros start.
  - reflexivity.
  - now rewrite IH.
Qed.

Lemma periods_length now start items children :
  List.length (periods now start items children) = List.length items.
Proof.
  revert start. induction items as [|[p d] t IH]; simpl; intros start.
  - reflexivity.
  - now rewrite IH.
Qed.

(** Periods laid end to end cover their total length exactly. *)
Lemma periods_partition now start items children :
  (forall p d, In (p, d) items -> 0 < d) ->
  partitions start (periods now start items children)
             (start + Qsum (map snd items)).
Proof.
  revert start. induction items as [|[p d] t IH]; simpl; intros start Hpos.
  - lra.
  - split; [reflexivity|]. split; [reflexivity|]. split.
    + apply (Hpos p d). now left.
    + apply partitions_finish with (e := start + d + Qsum (map snd t)).
      * lra.
      * apply IH. intros p' d' Hin. apply (Hpos p' d'). now right.
Qed.

Lemma years_positive (p : Planet) : 0 < years p.
Proof. destruct p; reflexivity. Qed.

(** Whichever lord the walk starts from, the nine catalog durations add up
    to the 120 years of the cycle. *)
Lemma cycle_is_120 (lord : Planet) :
  Qsum (map snd (map (fun p => (p, years p)) (walk 9 lord))) == 120#1.
Proof. destruct lord; reflexivity. Qed.

Lemma antardasha_sum (lord : Planet) (md_years : Q) :
  Qsum (map snd (antardasha_items lord md_years)) == md_years.
Proof.
  destruct lord; unfold antardasha_items, Qsum; simpl; field.
Qed.

Lemma antardasha_positive (lord : Planet) (md_years : Q) :
  0 < md_years ->
  forall p d, In (p, d) (antardasha_items lord md_years) -> 0 < d.
Proof.
  intros Hmd p d Hin. unfold antardasha_items in Hin.
  apply in_map_iff in Hin. destruct Hin as [q [Heq _]].
  injection Heq as _ <-.
  assert (Hq := years_positive q).
  unfold Qdiv. apply Qmult_lt_0_compat; [|reflexivity].
  now apply Qmult_lt_0_compat.
Qed.

Lemma partitions_start_le_finish (l : list DashaPeriod) (s e : Q) :
  partitions s l e -> s <= e.
Proof.
  revert s. induction l as [|p t IH]; simpl; intros s H.
  - lra.
  - destruct H as [H1 [H2 [H3 H4]]]. apply IH in H4. lra.
Qed.

(** No period of a partition reaches outside the span it partitions. *)
Lemma partitions_within (l : list DashaPeriod) (s e : Q) :
  partitions s l e ->
  forall p, In p l -> s <= start_date p /\ end_date p <= e.
Proof.
  revert s. induction l as [|q t IH]; simpl; intros s H p Hin; [contradiction|].
  destruct H as [H1 [H2 [H3 H4]]].
  destruct Hin as [<-|Hin].
  - apply partitions_start_le_finish in H4. lra.
  - destruct (IH _ H4 p Hin) as [Ha Hb]. lra.
Qed.

(** What a mahadasha of the engine's list looks like. *)
Lemma periods_member now start items md :
  In md (periods now start items (antardashas_of now)) ->
  exists p s d,
    In (p, d) items /\
    md = mkPeriod p s (s + d) d (contains s (s + d) now)
                  (antardashas_of now p s d).
Proof.
  revert start. induction items as [|[p d] t IH]; simpl; intros start H.
  - contradiction.
  - destruct H as [<-|H].
    + exists p, start, d. split; [now left | reflexivity].
    + destruct (IH _ H) as [p' [s' [d' [Hin Heq]]]].
      exists p', s', d'. split; [now right | exact Heq].
Qed.

(** The Moon has gone through less than one full nakshatra span. *)
Lemma nakshatra_elapsed_bounds (moon_longitude : Q) :
  0 <= nakshatra_elapsed moon_longitude /\
  nakshatra_elapsed moon_longitude < nakshatra_span.
Proof.
  unfold nakshatra_elapsed, nakshatra_span.
  assert (Hlo := Qfloor_le (moon_longitude / (40#3))).
  assert (Hhi := Qlt_floor (moon_longitude / (40#3))).
  rewrite inject_Z_plus in Hhi.
  set (f := inject_Z (Qfloor (moon_longitude / (40#3)))) in *.
  assert (E : moon_longitude / (40#3) == moon_longitude * (3#40)) by (field).
  rewrite E in Hlo, Hhi. change (inject_Z 1) with 1 in Hhi. split; lra.
Qed.

(** Birth falls where the balance of the first period begins: that period
    ends [balance_of_first_dasha] years after birth. *)
Lemma first_period_ends_at_balance (moon_longitude now : Q) :
  match mahadashas moon_longitude now with
  | md :: _ =>
      planet md = nakshatra_lord moon_longitude /\
      end_date md == balance_of_first_dasha moon_longitude
  | [] => False
  end.
Proof.
  unfold mahadashas. cbv zeta.
  destruct (nakshatra_lord moon_longitude) eqn:E; cbn [walk map periods planet end_date];
    (split; [reflexivity | cbn [years]; lra]).
Qed.

(** C6.  For every position of the Moon at birth, the engine returns nine
    mahadashas whose durations add up to exactly 120 years; they cover 120
    years end to end, from a start at or before birth that falls within the
    first lord's period; and the antardashas of each mahadasha cover the
    parent's span from its start to its end with no gap and no overlap, none
    reaching outside it, their durations adding up to the parent's duration
    (exactly, hence within 1e-6). *)
Theorem dasha_periods_partition (moon_longitude now : Q) :
  let mds := mahadashas moon_longitude now in
  List.length mds = 9%nat /\
  Qsum (map duration_years mds) == 120#1 /\
  (exists start,
     partitions start mds (start + (120#1)) /\
     start <= 0 /\ 0 < start + years (nakshatra_lord moon_longitude)) /\
  (forall md ads, In md mds -> antardashas md = Some ads ->
     partitions (start_date md) ads (end_date md) /\
     (forall ad, In ad ads ->
        start_date md <= start_date ad /\ end_date ad <= end_date md) /\
     Qsum (map duration_years ads) == duration_years md /\
     Qabs (Qsum (map duration_years ads) - duration_years md) <= 1#1000000).
Proof.
  unfold mahadashas. cbv zeta.
  set (lord := nakshatra_lord moon_longitude).
  set (start := 0 - (years lord - balance_of_first_dasha moon_longitude)).
  split; [rewrite periods_length; destruct lord; reflexivity|].
  split; [rewrite periods_durations; apply cycle_is_120|].
  split.
  - exists start. split.
    + apply partitions_finish
        with (e := start + Qsum (map snd (map (fun p => (p, years p)) (walk 9 lord)))).
      * now rewrite cycle_is_120.
      * apply periods_partition. intros p d Hin.
        apply in_map_iff in Hin. destruct Hin as [q [Heq _]].
        injection Heq as _ <-. apply years_positive.
    + destruct (nakshatra_elapsed_bounds moon_longitude) as [Hlo Hhi].
      unfold start, balance_of_first_dasha. fold lord.
      unfold nakshatra_span in *.
      set (e := nakshatra_elapsed moon_longitude) in *.
      assert (E : forall y, ((40#3) - e) / (40#3) * y == y - e * (3#40) * y)
        by (intros y; field).
      rewrite E. destruct lord; simpl; split; lra.
  - intros md ads Hin Hads.
    apply periods_member in Hin. destruct Hin as [p [s [d [Hitem ->]]]].
    assert (Hads' : Some (periods now s (antardasha_items p d)
                            (fun _ _ _ => None)) = Some ads) by exact Hads.
    assert (E : periods now s (antardasha_items p d) (fun _ _ _ => None) = ads)
      by congruence.
    clear Hads Hads'. subst ads.
    cbn [start_date end_date duration_years].
    assert (Hd : 0 < d).
    { apply in_map_iff in Hitem. destruct Hitem as [q [Heq _]].
      injection Heq as _ <-. apply years_positive. }
    assert (Hpart : partitions s
              (periods now s (antardasha_items p d) (fun _ _ _ => None)) (s + d)).
    { apply partitions_finish
        with (e := s + Qsum (map snd (antardasha_items p d))).
      - now rewrite antardasha_sum.
      - apply periods_partition. now apply antardasha_positive. }
    split; [exact Hpart|]. split; [exact (partitions_within _ _ _ Hpart)|].
    rewrite periods_durations. split; [apply antardasha_sum|].
    assert (Z0 : Qsum (map snd (antardasha_items p d)) - d == 0)
      by (rewrite antardasha_sum; lra).
    rewrite Z0. discriminate.
Qed.

End Dasha.

Lemma dasha_periods_partition_witness :
  exists md ads,
    In md (Engine.mahadashas (100#1) (30#1)) /\
    Engine.antardashas md = Some ads /\
    Engine.Qsum (map Engine.duration_years ads) == Engine.duration_years md.
Proof.
  eexists. eexists.
  split; [left; reflexivity|].
  split; [reflexivity|].
  apply (dasha_periods_partition (100#1) (30#1)).
  - left; reflexivity.
  - reflexivity.
Defined.

(** The Moon at 100 degrees is half way through Pushya, Saturn's
    nakshatra: Saturn's 19 years run from 9.5 years before birth. *)
Example moon_at_100_first_period :
  match Engine.mahadashas (100#1) (30#1) with
  | md :: _ =>
      Engine.planet md = Engine.Saturn /\
      Engine.start_date md == - (19#2) /\ Engine.end_date md == 19#2
  | [] => False
  end.
Proof. cbv. repeat split. Qed.

(** ** Validation on the iOS Home screen *)

Section HomeValidation.
Import JS Client.
Variable parseFloat : string -> number.

Lemma range_test (n : number) (lo hi : Z) :
  (lt n (inject_Z lo) || gt n (inject_Z hi))%bool = false <->
  match n with
  | NaN => True
  | Num q => inject_Z lo <= q /\ q <= inject_Z hi
  end.
Proof.
  destruct n as [|q]; simpl; [tauto|].
  rewrite orb_false_iff, !negb_false_iff, !Qle_bool_iff. tauto.
Qed.

Lemma is_empty_false (s : string) : is_empty s = false <-> s <> "".
Proof. unfold is_empty. apply String.eqb_neq. Qed.

Lemma range_test_fails (n : number) (lo hi : Z) :
  (lt n (inject_Z lo) || gt n (inject_Z hi))%bool = true ->
  ~ match n with
    | NaN => True
    | Num q => inject_Z lo <= q /\ q <= inject_Z hi
    end.
Proof.
  intros H Hin. apply range_test in Hin. congruence.
Qed.

Ltac reflect_tests :=
  repeat match goal with
  | H : is_empty ?s = true |- _ => apply String.eqb_eq in H
  | H : is_empty ?s = false |- _ => apply is_empty_false in H
  | H : (lt ?n (?lo # 1) || gt ?n (?hi # 1))%bool = false |- _ =>
      apply (proj1 (range_test n lo hi)) in H
  | H : (lt ?n (?lo # 1) || gt ?n (?hi # 1))%bool = true |- _ =>
      apply (range_test_fails n lo hi) in H
  end.

Ltac validation_fails :=
  exists false; reflect_tests; unfold between_or_NaN;
  repeat split; try reflexivity; try discriminate;
  try (intros _; eexists; reflexivity);
  intros; intuition congruence.

(** What [validateInputs] answers, and that it shows one alert exactly when
    it answers [false]. *)
Lemma validateInputs_answer (f : home_form) (w : home_world) :
  exists b,
    fst (validateInputs f w) = Normal b /\
    home_sent (snd (validateInputs f w)) = home_sent w /\
    home_loading (snd (validateInputs f w)) = home_loading w /\
    (b = true ->
       alerts (snd (validateInputs f w)) = alerts w) /\
    (b = false ->
       exists a, alerts (snd (validateInputs f w)) = alerts w ++ [a]) /\
    (b = true <->
       year f <> "" /\ month f <> "" /\ day f <> "" /\ hour f <> "" /\
       minute f <> "" /\
       between_or_NaN (year f) 1900 2100 /\ between_or_NaN (month f) 1 12 /\
       between_or_NaN (day f) 1 31 /\ between_or_NaN (hour f) 0 23 /\
       between_or_NaN (minute f) 0 59).
Proof.
  unfold validateInputs.
  destruct (is_empty (year f)) eqn:Ey; [validation_fails|].
  destruct (is_empty (month f)) eqn:Em; [validation_fails|].
  destruct (is_empty (day f)) eqn:Ed; [validation_fails|].
  destruct (is_empty (hour f)) eqn:Eh; [validation_fails|].
  destruct (is_empty (minute f)) eqn:Emi; [validation_fails|].
  cbn [orb].
  destruct (lt (parseInt (year f)) (1900#1) || gt (parseInt (year f)) (2100#1))%bool
    eqn:Ry; [validation_fails|].
  destruct (lt (parseInt (month f)) (1#1) || gt (parseInt (month f)) (12#1))%bool
    eqn:Rm; [validation_fails|].
  destruct (lt (parseInt (day f)) (1#1) || gt (parseInt (day f)) (31#1))%bool
    eqn:Rd; [validation_fails|].
  destruct (lt (parseInt (hour f)) (0#1) || gt (parseInt (hour f)) (23#1))%bool
    eqn:Rh; [validation_fails|].
  destruct (lt (parseInt (minute f)) (0#1) || gt (parseInt (minute f)) (59#1))%bool
    eqn:Rmi; [validation_fails|].
  exists true. reflect_tests.
  repeat split; try reflexivity; try discriminate; assumption.
Qed.

(** The direction of the wording that holds: fields that are integers in
    range are accepted. *)
Lemma integer_between_accepted (s : string) (lo hi : Z) :
  integer_between s lo hi -> between_or_NaN s lo hi.
Proof.
  intros [z [Hz [Hlo Hhi]]]. unfold between_or_NaN. rewrite Hz.
  rewrite <- !Zle_Qle. split; assumption.
Qed.

(** X1.  [handleSubmit] issues the four calls, in order and with the same
    body, exactly when [validateInputs] answers [true]; when it answers
    [false] nothing is sent and one alert is shown.  Either way the handler
    completes normally. *)
Lemma handleSubmit_calls (f : home_form) (net : settled4) (w : home_world) :
  let res := handleSubmit parseFloat f net w in
  let body := wire (home_birthData parseFloat f) in
  fst res = Normal tt /\
  (fst (validateInputs f w) = Normal true ->
     home_sent (snd res) =
       home_sent w ++
       [((API_BASE_URL ++ "/chart/calculate")%string, body);
        ((API_BASE_URL ++ "/dasha/calculate")%string, body);
        ((API_BASE_URL ++ "/yoga/detect")%string, body);
        ((API_BASE_URL ++ "/interpretation/summary")%string, body)] /\
     home_loading (snd res) = false) /\
  (fst (validateInputs f w) = Normal false ->
     home_sent (snd res) = home_sent w /\
     exists a, alerts (snd res) = alerts w ++ [a]).
Proof.
  destruct (validateInputs_answer f w) as [b [Hb [Hsent [_ [_ [Halert _]]]]]].
  unfold handleSubmit, bind.
  destruct (validateInputs f w) as [[b'|e] w1] eqn:Ev; simpl in Hb;
    [|discriminate].
  injection Hb as ->. simpl in Hsent, Halert.
  destruct b; cbn [negb fst snd].
  - split.
    + destruct net; reflexivity.
    + split; [|discriminate]. intros _.
      destruct net; cbn; rewrite Hsent, <- !app_assoc; split; reflexivity.
  - split; [reflexivity|]. split; [discriminate|]. intros _.
    split; [exact Hsent | exact (Halert eq_refl)].
Qed.

End HomeValidation.

(** C10, at a year that is not a number.  ['abc'] is not empty and
    [parseInt('abc')] is [NaN]; both comparisons of the year test are then
    false, no alert is shown, and the four calls go out with [year: null]. *)
Theorem handleSubmit_sends_non_numeric_year (parseFloat : string -> JS.number) :
  let f := Client.letters_for_year in
  let res := Client.handleSubmit parseFloat f
               (Client.Fulfilled4 JS.Null JS.Null JS.Null JS.Null)
               Client.home_idle in
  Client.parseInt (Client.year f) = JS.NaN /\
  ~ Client.integer_between (Client.year f) 1900 2100 /\
  fst (Client.validateInputs f Client.home_idle) = JS.Normal true /\
  Client.alerts (snd res) = [] /\
  map fst (Client.home_sent (snd res)) =
    ["http://127.0.0.1:8002/api/v1/chart/calculate";
     "http://127.0.0.1:8002/api/v1/dasha/calculate";
     "http://127.0.0.1:8002/api/v1/yoga/detect";
     "http://127.0.0.1:8002/api/v1/interpretation/summary"] /\
  Forall (fun request => JS.field (snd request) "year" = Some JS.Null)
         (Client.home_sent (snd res)).
Proof.
  cbv zeta. split; [reflexivity|]. split.
  { intros [z [Hz _]]. discriminate Hz. }
  split; [reflexivity|]. split; [reflexivity|]. split; [reflexivity|].
  repeat constructor.
Qed.

Example born_1990_is_accepted :
  fst (Client.validateInputs Client.born_1990 Client.home_idle) = JS.Normal true.
Proof. reflexivity. Qed.

Example month_13_is_refused :
  let f := Client.mkHomeForm "1990" "13" "15" "10" "30" Client.new_delhi in
  Client.validateInputs f Client.home_idle =
  (JS.Normal false,
   Client.mkHome false [("Error", "Month must be between 1 and 12")] [] None []).
Proof. reflexivity. Qed.

(* ================================================================== *)
(** * Part III: further properties of the client code *)
(* ================================================================== *)

(** ** The iOS Home screen *)

Lemma handleSubmit_calls_witness :
  fst (Client.validateInputs Client.born_1990 Client.home_idle) = JS.Normal true /\
  Client.home_loading
    (snd (Client.handleSubmit (fun _ => JS.NaN) Client.born_1990
            (Client.Rejected4 (JS.mkError "Network Error")) Client.home_idle))
  = false.
Proof.
  split; [reflexivity|].
  apply (handleSubmit_calls (fun _ => JS.NaN) Client.born_1990
           (Client.Rejected4 (JS.mkError "Network Error")) Client.home_idle).
  reflexivity.
Defined.

Section HomeScreen.
Import JS Client.
Variable parseFloat : string -> number.

Lemma parseInt_of_empty (s : string) (z : Z) :
  parseInt s = Num (inject_Z z) -> s <> "".
Proof. intros H ->. discriminate H. Qed.

(** [validateInputs] touches nothing but the list of alerts. *)
Lemma validateInputs_frame (f : home_form) (w : home_world) :
  exists b shown,
    validateInputs f w =
      (Normal b, mkHome (home_loading w) (alerts w ++ shown) (home_sent w)
                        (navigated w) (home_console w)) /\
    (b = true -> shown = []).
Proof.
  unfold validateInputs.
  repeat match goal with
  | |- context [if ?c then _ else _] => destruct c
  end;
  try (eexists false, [_]; split; [reflexivity | discriminate]).
  exists true, []. rewrite app_nil_r. destruct w. split; reflexivity.
Qed.

(** X2.  When the five fields parse to integers, [validateInputs] answers
    [true] exactly when the year is in 1900..2100, the month in 1..12, the
    day in 1..31, the hour in 0..23 and the minute in 0..59. *)
Theorem validateInputs_on_integers (f : home_form) (w : home_world)
    (y m d h mi : Z) :
  parseInt (year f) = Num (inject_Z y) ->
  parseInt (month f) = Num (inject_Z m) ->
  parseInt (day f) = Num (inject_Z d) ->
  parseInt (hour f) = Num (inject_Z h) ->
  parseInt (minute f) = Num (inject_Z mi) ->
  (fst (validateInputs f w) = Normal true <->
   (1900 <= y <= 2100 /\ 1 <= m <= 12 /\ 1 <= d <= 31 /\
    0 <= h <= 23 /\ 0 <= mi <= 59)%Z).
Proof.
  intros Hy Hm Hd Hh Hmi.
  destruct (validateInputs_answer f w) as [b [Hb [_ [_ [_ [_ Hiff]]]]]].
  rewrite Hb. unfold between_or_NaN in Hiff.
  rewrite Hy, Hm, Hd, Hh, Hmi in Hiff.
  rewrite <- !Zle_Qle in Hiff.
  assert (Ey := parseInt_of_empty _ _ Hy). assert (Em := parseInt_of_empty _ _ Hm).
  assert (Ed := parseInt_of_empty _ _ Hd). assert (Eh := parseInt_of_empty _ _ Hh).
  assert (Emi := parseInt_of_empty _ _ Hmi).
  split.
  - intros E. injection E as ->. destruct Hiff as [Hiff _].
    specialize (Hiff eq_refl). tauto.
  - intros R. f_equal. apply Hiff. tauto.
Qed.

(** X3.  Once the form is accepted, the Home screen either navigates or
    alerts, never both: when the four calls are fulfilled it opens 'Results'
    with the four payloads and shows no alert; when they are rejected it
    stays where it is, logs one console line and shows one 'Connection
    Error' alert that quotes the error's message.  In both cases [loading]
    ends [false]. *)
Theorem handleSubmit_navigates_or_alerts (f : home_form) (w : home_world) :
  fst (validateInputs f w) = Normal true ->
  (forall chart dasha yoga interp,
     let res := handleSubmit parseFloat f (Fulfilled4 chart dasha yoga interp) w in
     fst res = Normal tt /\
     navigated (snd res) =
       Some ("Results", Obj [("chartData", chart); ("dashaData", dasha);
                             ("yogaData", yoga); ("interpretation", interp)]) /\
     alerts (snd res) = alerts w /\
     home_console (snd res) = home_console w /\
     home_loading (snd res) = false) /\
  (forall e,
     let res := handleSubmit parseFloat f (Rejected4 e) w in
     fst res = Normal tt /\
     navigated (snd res) = navigated w /\
     alerts (snd res) =
       alerts w ++
       [("Connection Error",
         ("Unable to connect to the server. " ++ message e ++
          String (ascii_of_nat 10) (String (ascii_of_nat 10)
            "Please ensure the backend is running on port 8002."))%string)] /\
     home_console (snd res) = home_console w ++ ["API Error:"] /\
     home_loading (snd res) = false).
Proof.
  intros Hvalid.
  destruct (validateInputs_frame f w) as [b [shown [Hrun Hshown]]].
  rewrite Hrun in Hvalid. simpl in Hvalid. injection Hvalid as ->.
  rewrite (Hshown eq_refl), app_nil_r in Hrun.
  split; intros; subst res; unfold handleSubmit, bind; rewrite Hrun; cbn;
    repeat split; reflexivity.
Qed.

End HomeScreen.

Lemma validateInputs_on_integers_witness :
  fst (Client.validateInputs Client.born_1990 Client.home_idle) = JS.Normal true <->
  (1900 <= 1990 <= 2100 /\ 1 <= 6 <= 12 /\ 1 <= 15 <= 31 /\
   0 <= 10 <= 23 /\ 0 <= 30 <= 59)%Z.
Proof.
  apply (validateInputs_on_integers Client.born_1990 Client.home_idle
           1990 6 15 10 30); reflexivity.
Defined.

Lemma handleSubmit_navigates_or_alerts_witness :
  Client.navigated
    (snd (Client.handleSubmit (fun _ => JS.NaN) Client.born_1990
            (Client.Rejected4 (JS.mkError "timeout")) Client.home_idle)) = None.
Proof.
  apply (proj2 (handleSubmit_navigates_or_alerts (fun _ => JS.NaN)
                  Client.born_1990 Client.home_idle eq_refl)
           (JS.mkError "timeout")).
Defined.

(** ** The web App *)

Section WebApp.
Import JS Client Facts.
Variable parseFloat : string -> number.

Ltac run_app :=
  cbv beta iota zeta delta
    [handleFormSubmit bind finally try_catch lift ret throw fetch store_if_ok
     setAppLoading setAppError setChartData setDashaData setYogaData
     setInterpretation setHouseData fst snd negb
     chartData dashaData yogaData interpretation houseData app_loading
     app_error app_sent].

Ltac split_reply url :=
  match goal with
  | |- context [?net url] =>
      let e := fresh "e" in let ok := fresh "ok" in let j := fresh "j" in
      destruct (net url) as [e|ok j]; [|destruct ok; [destruct j|]]
  end.

(** X4.  The chart request decides the submission.  If it is rejected, if
    its response is not ok, or if its body is not JSON, the App sends nothing
    more, shows the error's message ('Failed to calculate chart' for a
    response that is not ok) and keeps all five datasets as they were; if it
    is answered, the chart is stored.  In every case the handler completes
    normally with [loading] back to [false]. *)
Theorem handleFormSubmit_chart_decides (form : web_form) (net : string -> reply)
    (st : app_state) :
  let res := handleFormSubmit parseFloat form net st in
  let stopped (text : string) :=
    app_sent (snd res) =
      app_sent st ++ [("/api/v1/chart/calculate", wire (web_birthData parseFloat form))] /\
    app_error (snd res) = Str text /\
    chartData (snd res) = chartData st /\ dashaData (snd res) = dashaData st /\
    yogaData (snd res) = yogaData st /\
    interpretation (snd res) = interpretation st /\
    houseData (snd res) = houseData st in
  fst res = Normal tt /\ app_loading (snd res) = false /\
  match net "/api/v1/chart/calculate" with
  | Rejected e => stopped (message e)
  | Response false _ => stopped "Failed to calculate chart"
  | Response true (Throw e) => stopped (message e)
  | Response true (Normal chart) => chartData (snd res) = chart
  end.
Proof.
  cbv zeta. run_app.
  split_reply "/api/v1/chart/calculate"; cbn; try (repeat split; reflexivity).
  split_reply "/api/v1/dasha/calculate"; cbn; try (repeat split; reflexivity);
  split_reply "/api/v1/yoga/detect"; cbn; try (repeat split; reflexivity);
  split_reply "/api/v1/interpretation/summary"; cbn; try (repeat split; reflexivity);
  split_reply "/api/v1/interpretation/houses"; cbn; repeat split; reflexivity.
Qed.

(** X5.  After an answered chart request, the four further requests cannot
    fail the submission when they are answered: all five requests go out in
    order, no error is shown, and each further dataset is replaced when its
    response is ok and silently kept when it is not. *)
Theorem handleFormSubmit_later_failures_are_silent (form : web_form)
    (net : string -> reply) (st : app_state)
    (chart dasha yoga interp houses : value) (ok_d ok_y ok_i ok_h : bool) :
  net "/api/v1/chart/calculate" = Response true (Normal chart) ->
  net "/api/v1/dasha/calculate" = Response ok_d (Normal dasha) ->
  net "/api/v1/yoga/detect" = Response ok_y (Normal yoga) ->
  net "/api/v1/interpretation/summary" = Response ok_i (Normal interp) ->
  net "/api/v1/interpretation/houses" = Response ok_h (Normal houses) ->
  let res := handleFormSubmit parseFloat form net st in
  fst res = Normal tt /\
  app_sent (snd res) =
    app_sent st ++
    map (fun url => (url, wire (web_birthData parseFloat form))) app_urls /\
  app_error (snd res) = Null /\
  app_loading (snd res) = false /\
  chartData (snd res) = chart /\
  dashaData (snd res) = stored ok_d dasha (dashaData st) /\
  yogaData (snd res) = stored ok_y yoga (yogaData st) /\
  interpretation (snd res) = stored ok_i interp (interpretation st) /\
  houseData (snd res) = stored ok_h houses (houseData st).
Proof.
  intros Hc Hd Hy Hi Hh. cbv zeta. run_app.
  rewrite Hc; cbn. rewrite Hd; cbn.
  destruct ok_d; cbn; rewrite Hy; cbn;
  destruct ok_y; cbn; rewrite Hi; cbn;
  destruct ok_i; cbn; rewrite Hh; cbn;
  destruct ok_h; cbn; rewrite <- !app_assoc; repeat split; reflexivity.
Qed.

(** X6.  Whatever the network does, the requests of one submission are the
    first [n] of the five endpoints, in order and with one and the same body,
    for some [n] between 1 and 5. *)
Theorem handleFormSubmit_sends_a_prefix (form : web_form) (net : string -> reply)
    (st : app_state) :
  exists n : nat,
    (1 <= n <= 5)%nat /\
    app_sent (snd (handleFormSubmit parseFloat form net st)) =
      app_sent st ++
      map (fun url => (url, wire (web_birthData parseFloat form)))
          (firstn n app_urls).
Proof.
  run_app.
  split_reply "/api/v1/chart/calculate"; cbn;
    try (exists 1%nat; split; [lia | reflexivity]).
  split_reply "/api/v1/dasha/calculate"; cbn; rewrite <- ?app_assoc;
    try (exists 2%nat; split; [lia | reflexivity]);
  split_reply "/api/v1/yoga/detect"; cbn; rewrite <- ?app_assoc;
    try (exists 3%nat; split; [lia | reflexivity]);
  split_reply "/api/v1/interpretation/summary"; cbn; rewrite <- ?app_assoc;
    try (exists 4%nat; split; [lia | reflexivity]);
  split_reply "/api/v1/interpretation/houses"; cbn; rewrite <- ?app_assoc;
    exists 5%nat; split; try lia; reflexivity.
Qed.

End WebApp.

Lemma handleFormSubmit_later_failures_are_silent_witness :
  Client.app_error
    (snd (Client.handleFormSubmit (fun _ => JS.NaN)
            (Client.mkWebForm "1990" "6" "15" "10" "30" "28.6139" "77.2090" "New Delhi")
            (fun url =>
               Client.Response (String.eqb url "/api/v1/chart/calculate")
                               (JS.Normal (JS.Str url)))
            (Client.mkApp JS.Null JS.Null JS.Null JS.Null JS.Null false JS.Null [])))
  = JS.Null.
Proof.
  apply (handleFormSubmit_later_failures_are_silent (fun _ => JS.NaN)
           (Client.mkWebForm "1990" "6" "15" "10" "30" "28.6139" "77.2090" "New Delhi")
           (fun url =>
              Client.Response (String.eqb url "/api/v1/chart/calculate")
                              (JS.Normal (JS.Str url)))
           (Client.mkApp JS.Null JS.Null JS.Null JS.Null JS.Null false JS.Null [])
           (JS.Str "/api/v1/chart/calculate") (JS.Str "/api/v1/dasha/calculate")
           (JS.Str "/api/v1/yoga/detect") (JS.Str "/api/v1/interpretation/summary")
           (JS.Str "/api/v1/interpretation/houses") false false false false);
    reflexivity.
Defined.

(** ** Requests of the web transit views *)

Section Bodies.
Import JS.

Lemma lookup_absent (o : list (string * value)) (k : string) :
  ~ In k (map fst o) -> lookup k o = None.
Proof.
  induction o as [|[k' x] t IH]; simpl; intros H; [reflexivity|].
  destruct (String.eqb k k') eqn:E.
  - apply String.eqb_eq in E. subst. tauto.
  - apply IH. tauto.
Qed.

Lemma lookup_app (a b : list (string * value)) (k : string) :
  lookup k (a ++ b) =
  match lookup k a with
  | Some x => Some x
  | None => lookup k b
  end.
Proof.
  induction a as [|[k' x] t IH]; simpl; [reflexivity|].
  destruct (String.eqb k k'); [reflexivity | exact IH].
Qed.

(** A key the object does not bind is not in what [JSON.stringify] sends. *)
Lemma wire_absent (o : list (string * value)) (k : string) :
  lookup k o = None -> field (wire (Obj o)) k = None.
Proof.
  simpl. induction o as [|[k' x] t IH]; simpl; intros H; [reflexivity|].
  destruct (String.eqb k k') eqn:E; [discriminate|].
  destruct x; simpl; rewrite ?E; apply IH; assumption.
Qed.

(** A key bound to [undefined] is not in what [JSON.stringify] sends. *)
Lemma wire_undefined (o : list (string * value)) (k : string) :
  NoDup (map fst o) -> lookup k o = Some Undefined ->
  field (wire (Obj o)) k = None.
Proof.
  intros Hnd Hk. induction o as [|[k' x] t IH]; [discriminate|].
  inversion Hnd as [|? ? Hnot Hnd']; subst.
  cbn [lookup] in Hk. destruct (String.eqb k k') eqn:E.
  - injection Hk as ->. apply String.eqb_eq in E. subst k'.
    apply (wire_absent t k), lookup_absent, Hnot.
  - specialize (IH Hnd' Hk). simpl in IH |- *.
    destruct x; simpl; rewrite ?E; exact IH.
Qed.

End Bodies.

Section TransitRequests.
Import JS Transit.
Variable type_error_message : value -> string -> string.
Variable ToNumber : string -> number.
Local Abbreviation pick := (JS.pick type_error_message).

Lemma pick_keys (v : value) (ks : list string) (fs : list (string * value)) :
  pick v ks = Normal fs -> map fst fs = ks.
Proof.
  revert fs. induction ks as [|k ks IH]; simpl; intros fs H.
  - injection H as <-. reflexivity.
  - destruct (JS.get type_error_message v k); simpl in H; [|discriminate].
    destruct (pick v ks) as [rest|]; simpl in H; [|discriminate].
    injection H as <-. simpl. now rewrite (IH rest eq_refl).
Qed.

(** The pieces of a text that starts with a dash-free piece and a dash. *)
Lemma split_dash_app (a b : string) :
  forallb (fun c => negb (Ascii.eqb c "-")) (list_ascii_of_string a) = true ->
  split_dash (a ++ String "-" b) = a :: split_dash b.
Proof.
  unfold split_dash. induction a as [|c a IH]; simpl; intros H.
  - destruct (pieces b); reflexivity.
  - apply andb_prop in H. destruct H as [Hc Ha].
    apply negb_true_iff in Hc. rewrite Hc.
    specialize (IH Ha). destruct (pieces (a ++ String "-" b)) as [p r].
    destruct (pieces b) as [p' r']. injection IH as -> ->. reflexivity.
Qed.

Lemma split_dash_plain (a : string) :
  forallb (fun c => negb (Ascii.eqb c "-")) (list_ascii_of_string a) = true ->
  split_dash a = [a].
Proof.
  unfold split_dash. induction a as [|c a IH]; simpl; intros H; [reflexivity|].
  apply andb_prop in H. destruct H as [Hc Ha].
  apply negb_true_iff in Hc. rewrite Hc.
  specialize (IH Ha). destruct (pieces a) as [p r]. injection IH as -> ->.
  reflexivity.
Qed.

(** What the body holds under the key of the [i]-th date part. *)
Lemma transit_field_sent (fs : list (string * value)) (date : string)
    (i : nat) (key : string) :
  map fst fs = birth_keys ->
  In (i, key) [(0%nat, "transit_year"); (1%nat, "transit_month");
               (2%nat, "transit_day")] ->
  field (wire (Obj (fs ++ transit_fields ToNumber date))) key =
  option_map (fun piece => wire (Number (ToNumber piece)))
             (nth_error (split_dash date) i).
Proof.
  intros Hkeys Hin.
  assert (Hnth : forall j,
            nth j (map (fun piece => Number (ToNumber piece)) (split_dash date))
                Undefined =
            match nth_error (split_dash date) j with
            | Some piece => Number (ToNumber piece)
            | None => Undefined
            end).
  { intros j. generalize (split_dash date). intros l. revert j.
    induction l as [|x l IH]; intros [|j]; simpl; auto. }
  assert (Hlook : lookup key (fs ++ transit_fields ToNumber date) =
                  Some (match nth_error (split_dash date) i with
                        | Some piece => Number (ToNumber piece)
                        | None => Undefined
                        end)).
  { rewrite lookup_app, lookup_absent.
    - unfold transit_fields, date_parts. rewrite <- !Hnth. simpl in Hin.
      destruct Hin as [E|[E|[E|[]]]]; injection E as <- <-; reflexivity.
    - rewrite Hkeys. simpl in Hin |- *.
      destruct Hin as [E|[E|[E|[]]]]; injection E as <- <-;
        intuition discriminate. }
  destruct (nth_error (split_dash date) i) as [piece|]; cbn [option_map].
  - apply lookup_wire; [exact Hlook | discriminate].
  - apply wire_undefined; [|exact Hlook].
    rewrite map_app, Hkeys. unfold transit_fields, date_parts. cbn [map fst].
    repeat constructor; simpl; intuition discriminate.
Qed.

(** X7.  With a chart present, each of the two web transit handlers sends
    exactly one request, whatever the network then does; the basic one asks
    [/api/v1/transit/analyze], the enhanced one [/api/v1/transit/enhanced],
    with one and the same body.  That body has neither a [second] nor an
    [ayanamsa] field, whatever the chart object holds, and it carries each
    transit-date key exactly when the date text has that piece between its
    dashes, with [Number] of the piece ([null] when that is [NaN]):
    a date ['y-m-d'] gives all three; a cleared date input gives
    [transit_year: 0] and neither [transit_month] nor [transit_day].
    Without a chart neither handler sends anything. *)
Theorem transit_handlers_send_one_request bd date net st :
  let basic := analyzeTransits type_error_message ToNumber bd date net st in
  let enhanced := analyzeTransitsEnhanced type_error_message ToNumber bd date net st in
  let no_dash (a : string) :=
    forallb (fun c => negb (Ascii.eqb c "-")) (list_ascii_of_string a) = true in
  (truthy bd = true ->
   exists body,
     sent (snd basic) = sent st ++ [("/api/v1/transit/analyze", body)] /\
     sent (snd enhanced) = sent st ++ [("/api/v1/transit/enhanced", body)] /\
     field body "second" = None /\
     field body "ayanamsa" = None /\
     (forall i key,
        In (i, key) [(0%nat, "transit_year"); (1%nat, "transit_month");
                     (2%nat, "transit_day")] ->
        field body key =
        option_map (fun piece => wire (Number (ToNumber piece)))
                   (nth_error (split_dash date) i)) /\
     (forall y m d,
        date = (y ++ "-" ++ m ++ "-" ++ d)%string ->
        no_dash y -> no_dash m -> no_dash d ->
        field body "transit_year" = Some (wire (Number (ToNumber y))) /\
        field body "transit_month" = Some (wire (Number (ToNumber m))) /\
        field body "transit_day" = Some (wire (Number (ToNumber d)))) /\
     (date = "" -> ToNumber "" = Num 0 ->
        field body "transit_year" = Some (Number (Num 0)) /\
        field body "transit_month" = None /\
        field body "transit_day" = None)) /\
  (truthy bd = false ->
   sent (snd basic) = sent st /\ sent (snd enhanced) = sent st).
Proof.
  cbv zeta. split; intros Hbd.
  - destruct (pick_truthy type_error_message bd birth_keys Hbd) as [fs Hfs].
    assert (Hkeys := pick_keys _ _ _ Hfs).
    exists (wire (Obj (fs ++ transit_fields ToNumber date))).
    unfold analyzeTransits, analyzeTransitsEnhanced. rewrite Hbd.
    cbv beta iota delta [negb bind finally try_catch lift fetch_json setLoading
                         setError setTransitData setEnhancedData].
    rewrite Hfs. cbn [fst snd sent].
    assert (Hpart := fun i key => transit_field_sent fs date i key Hkeys).
    assert (Hother : forall k,
              ~ In k (birth_keys ++ ["transit_year"; "transit_month"; "transit_day"]) ->
              field (wire (Obj (fs ++ transit_fields ToNumber date))) k = None).
    { intros k Hk. apply wire_absent, lookup_absent.
      rewrite map_app, Hkeys. unfold transit_fields, date_parts. exact Hk. }
    split.
    { destruct net as [e|e|r]; cbn [fst snd sent]; [reflexivity|reflexivity|].
      destruct (JS.get type_error_message r "success") as [s|e]; cbn [fst snd sent];
        [|reflexivity].
      destruct (truthy s); cbn [fst snd sent].
      - destruct (JS.get type_error_message r "data"); reflexivity.
      - destruct (JS.get type_error_message r "error"); reflexivity. }
    split.
    { destruct net as [e|e|r]; cbn [fst snd sent]; [reflexivity|reflexivity|].
      destruct (JS.get type_error_message r "success") as [s|e]; cbn [fst snd sent];
        [|reflexivity].
      destruct (truthy s); cbn [fst snd sent].
      - destruct (compatible_view type_error_message r); reflexivity.
      - destruct (JS.get type_error_message r "error"); reflexivity. }
    split; [apply Hother; simpl; intuition discriminate|].
    split; [apply Hother; simpl; intuition discriminate|].
    split; [exact Hpart|]. split.
    + intros y m d -> Hy Hm Hd.
      assert (Hsplit : split_dash (y ++ "-" ++ m ++ "-" ++ d) = [y; m; d]).
      { change (y ++ "-" ++ m ++ "-" ++ d)%string
          with (y ++ String "-" (m ++ String "-" d))%string.
        rewrite (split_dash_app _ _ Hy), (split_dash_app _ _ Hm),
                (split_dash_plain _ Hd). reflexivity. }
      rewrite (Hpart 0%nat "transit_year"), (Hpart 1%nat "transit_month"),
              (Hpart 2%nat "transit_day") by (simpl; tauto).
      rewrite Hsplit. repeat split; reflexivity.
    + intros -> Hzero.
      rewrite (Hpart 0%nat "transit_year"), (Hpart 1%nat "transit_month"),
              (Hpart 2%nat "transit_day") by (simpl; tauto).
      cbn. rewrite Hzero. repeat split; reflexivity.
  - destruct (analyzeTransits_without_chart type_error_message ToNumber bd date net st Hbd)
      as [-> ->]. split; reflexivity.
Qed.

End TransitRequests.

Lemma transit_handlers_send_one_request_witness :
  exists body,
    Transit.sent
      (snd (Transit.analyzeTransits JS.v8_message Facts.Number_of_digits
              Transit.delhi_1990 ""
              (Transit.NetworkFailure (JS.mkError "Failed to fetch"))
              Transit.idle))
    = [("/api/v1/transit/analyze", body)] /\
    JS.field body "transit_year" = Some (JS.Number (JS.Num 0)) /\
    JS.field body "transit_month" = None /\
    JS.field body "transit_day" = None.
Proof.
  destruct (proj1 (transit_handlers_send_one_request JS.v8_message
                     Facts.Number_of_digits Transit.delhi_1990 ""
                     (Transit.NetworkFailure (JS.mkError "Failed to fetch"))
                     Transit.idle) eq_refl)
    as [body [Hb [_ [_ [_ [_ [_ Hcleared]]]]]]].
  exists body. split; [exact Hb | exact (Hcleared eq_refl eq_refl)].
Defined.

(** ** The timeline and question handlers of the enhanced transit view *)

Section EnhancedHandlers.
Import JS Enhanced.
Variable type_error_message : value -> string -> string.
Local Abbreviation get := (JS.get type_error_message).
Local Abbreviation pick := (JS.pick type_error_message).

Ltac run_enhanced :=
  cbv beta iota delta [negb orb bind finally try_catch lift ret fetch_json
                       setError setAnswer setQuestionLoading setTimelineData
                       setTimelineLoading].

(** X8.  With a chart present, [fetchTimeline] completes normally with
    [timelineLoading] back to [false] whatever the network does, and never
    touches the stored answer.  A body whose [success] is truthy is stored
    whole as the timeline and leaves the error text as it was (an earlier
    error is not cleared); otherwise the error text becomes the body's
    [error], or 'Failed to fetch timeline' when that is absent or falsy, or
    the connection message when the request or the read failed, and the
    stored timeline is kept. *)
Theorem fetchTimeline_outcome bd area net st :
  truthy bd = true ->
  let res := fetchTimeline type_error_message bd area net st in
  fst res = Normal tt /\ timelineLoading (snd res) = false /\
  answer (snd res) = answer st /\
  questionLoading (snd res) = questionLoading st /\
  match net with
  | Transit.Body r =>
      match get r "success" with
      | Normal s =>
          if truthy s then
            timelineData (snd res) = r /\ error (snd res) = error st
          else
            error (snd res) = or_else (prop r "error") (Str timeline_fallback) /\
            timelineData (snd res) = timelineData st
      | Throw e =>
          error (snd res) = Str (Transit.connect_prefix ++ message e) /\
          timelineData (snd res) = timelineData st
      end
  | Transit.NetworkFailure e | Transit.NotJson e =>
      error (snd res) = Str (Transit.connect_prefix ++ message e) /\
      timelineData (snd res) = timelineData st
  end.
Proof.
  intros Hbd. unfold fetchTimeline. rewrite Hbd.
  destruct (pick_truthy type_error_message bd Transit.birth_keys Hbd) as [fs Hfs].
  run_enhanced. rewrite Hfs. simpl.
  destruct net as [e|e|r]; simpl; try (repeat split; reflexivity).
  destruct (get r "success") as [s|e] eqn:Hs; simpl;
    try (repeat split; reflexivity).
  destruct (truthy s) eqn:Ht; simpl; try (repeat split; reflexivity).
  rewrite (get_prop type_error_message r "success" "error" s Hs). simpl.
  repeat split; reflexivity.
Qed.

Lemma skip_blank (s : string) :
  Client.skip_white_space s = "" <->
  forallb Client.is_white_space (list_ascii_of_string s) = true.
Proof.
  induction s as [|c t IH]; simpl.
  - tauto.
  - destruct (Client.is_white_space c); simpl; [exact IH|].
    split; discriminate.
Qed.

Lemma forallb_rev {A} (f : A -> bool) (l : list A) :
  forallb f (rev l) = forallb f l.
Proof.
  induction l as [|a t IH]; simpl; [reflexivity|].
  rewrite forallb_app, IH. simpl. rewrite andb_true_r. apply andb_comm.
Qed.

Lemma skip_keeps_blank (s : string) :
  forallb Client.is_white_space (list_ascii_of_string (Client.skip_white_space s)) = true ->
  Client.skip_white_space s = "".
Proof.
  induction s as [|c t IH]; simpl; [reflexivity|].
  destruct (Client.is_white_space c) eqn:E; [exact IH|].
  simpl. rewrite E. discriminate.
Qed.

(** A question trims to nothing exactly when it holds only white space. *)
Lemma trim_blank (s : string) :
  Client.is_empty (trim s) = true <->
  forallb Client.is_white_space (list_ascii_of_string s) = true.
Proof.
  unfold Client.is_empty. rewrite String.eqb_eq, <- skip_blank.
  unfold trim. split.
  - intros H.
    assert (H1 : rev (list_ascii_of_string
                        (Client.skip_white_space
                           (string_of_list_ascii
                              (rev (list_ascii_of_string (Client.skip_white_space s))))))
                 = []).
    { rewrite <- (list_ascii_of_string_of_list_ascii (rev _)). now rewrite H. }
    assert (H2 : Client.skip_white_space
                   (string_of_list_ascii
                      (rev (list_ascii_of_string (Client.skip_white_space s)))) = "").
    { rewrite <- (string_of_list_ascii_of_string (Client.skip_white_space _)).
      apply (f_equal (@rev ascii)) in H1. rewrite rev_involutive in H1.
      now rewrite H1. }
    apply skip_blank in H2.
    rewrite list_ascii_of_string_of_list_ascii, forallb_rev in H2.
    now apply skip_keeps_blank.
  - intros ->. reflexivity.
Qed.

(** X9.  [askQuestion] does nothing at all (no request, no error text, no
    state change) when the question holds only white space or there is no
    chart.  Otherwise it sends exactly one request to [/api/v1/transit/ask]
    whose body carries the question as typed (untrimmed), completes normally
    with [questionLoading] back to [false], stores a body with a truthy
    [success] whole as the answer, and on a body without it sets the error
    text to the body's [error] or 'Failed to process question'. *)
Theorem askQuestion_needs_question_and_chart bd question net st :
  let res := askQuestion type_error_message bd question net st in
  let blank := forallb Client.is_white_space (list_ascii_of_string question) in
  ((blank = true \/ truthy bd = false) -> res = (Normal tt, st)) /\
  (blank = false -> truthy bd = true ->
     fst res = Normal tt /\ questionLoading (snd res) = false /\
     timelineData (snd res) = timelineData st /\
     (exists body,
        sent (snd res) = sent st ++ [("/api/v1/transit/ask", body)] /\
        field body "question" = Some (Str question)) /\
     (forall r s, net = Transit.Body r -> get r "success" = Normal s ->
        if truthy s then
          answer (snd res) = r /\ error (snd res) = error st
        else
          error (snd res) = or_else (prop r "error") (Str question_fallback) /\
          answer (snd res) = answer st)).
Proof.
  cbv zeta. unfold askQuestion. split.
  - intros [Hblank|Hbd].
    + apply trim_blank in Hblank. rewrite Hblank. reflexivity.
    + rewrite Hbd. rewrite orb_true_r. reflexivity.
  - intros Hblank Hbd.
    assert (Hne : Client.is_empty (trim question) = false).
    { destruct (Client.is_empty (trim question)) eqn:E; [|reflexivity].
      apply trim_blank in E. congruence. }
    rewrite Hne, Hbd.
    destruct (pick_truthy type_error_message bd Transit.birth_keys Hbd) as [fs Hfs].
    assert (Hkeys := pick_keys type_error_message _ _ _ Hfs).
    run_enhanced. rewrite Hfs. cbn [fst snd].
    assert (Hq : field (wire (Obj (fs ++ [("question", Str question)]))) "question"
                 = Some (Str question)).
    { apply (lookup_wire _ "question" (Str question)); [|discriminate].
      rewrite lookup_app. rewrite (lookup_absent fs "question"); [reflexivity|].
      rewrite Hkeys. simpl. intuition discriminate. }
    destruct net as [e|e|r]; cbn.
    + do 3 (split; [reflexivity|]); split; [eexists; split; [reflexivity|exact Hq]|].
      intros r s H. discriminate H.
    + do 3 (split; [reflexivity|]); split; [eexists; split; [reflexivity|exact Hq]|].
      intros r s H. discriminate H.
    + destruct (get r "success") as [s|e] eqn:Hs; cbn.
      * destruct (truthy s) eqn:Ht; cbn.
        -- do 3 (split; [reflexivity|]); split; [eexists; split; [reflexivity|exact Hq]|].
           intros r' s' H Hs'. injection H as <-.
           rewrite Hs in Hs'. injection Hs' as <-. rewrite Ht. split; reflexivity.
        -- rewrite (get_prop type_error_message r "success" "error" s Hs). cbn.
           do 3 (split; [reflexivity|]); split; [eexists; split; [reflexivity|exact Hq]|].
           intros r' s' H Hs'. injection H as <-.
           rewrite Hs in Hs'. injection Hs' as <-. rewrite Ht. split; reflexivity.
      * do 3 (split; [reflexivity|]); split; [eexists; split; [reflexivity|exact Hq]|].
        intros r' s' H Hs'. injection H as <-. rewrite Hs in Hs'. discriminate.
Qed.

End EnhancedHandlers.

Lemma fetchTimeline_outcome_witness :
  JS.truthy Transit.delhi_1990 = true /\
  Enhanced.timelineLoading
    (snd (Enhanced.fetchTimeline JS.v8_message Transit.delhi_1990
            (JS.Str "career") (Transit.NotJson (JS.mkError "Unexpected token"))
            Enhanced.idle)) = false.
Proof.
  split; [reflexivity|].
  apply (fetchTimeline_outcome JS.v8_message Transit.delhi_1990 (JS.Str "career")
           (Transit.NotJson (JS.mkError "Unexpected token")) Enhanced.idle).
  reflexivity.
Defined.

Lemma askQuestion_needs_question_and_chart_witness :
  Enhanced.askQuestion JS.v8_message Transit.delhi_1990 "   "
    (Transit.Body (JS.Obj [("success", JS.Bool true)])) Enhanced.idle
  = (JS.Normal tt, Enhanced.idle).
Proof.
  apply (proj1 (askQuestion_needs_question_and_chart JS.v8_message
                  Transit.delhi_1990 "   "
                  (Transit.Body (JS.Obj [("success", JS.Bool true)]))
                  Enhanced.idle)).
  left. reflexivity.
Defined.

(** ** The iOS Results screen *)

Section ResultsScreen.
Import JS Client ResultsView Facts.
Variable type_error_message : value -> string -> string.
Local Abbreviation get := (JS.get type_error_message).

Ltac run_results :=
  cbv beta iota delta
    [handleTabChange fetchTransit fetchHouses handleTransitAreaPress
     getEnhancedTransit getTransitTimeline getHouseInterpretation
     bind finally try_catch lift ret throw res_post setActiveTab
     setResTransitData setTransitLoading setTimelineData
     setSelectedTransitArea setHousesData setHousesLoading res_console_error
     fst snd activeTab res_transitData transitLoading timelineData
     selectedTransitArea housesData housesLoading res_sent res_console].

Ltac read_results :=
  cbv beta iota delta
    [fst snd activeTab res_transitData transitLoading timelineData
     selectedTransitArea housesData housesLoading res_sent res_console].

(** X10.  Changing tab always records the new tab and completes normally.
    It fetches only for a tab whose data is still missing: on 'transit' with
    no truthy transit data stored it issues the enhanced-transit request and
    the 'career' timeline request, on 'houses' with no truthy houses data the
    houses request, and nothing otherwise; any stored truthy value, a failure
    envelope included, suppresses the fetch. *)
Theorem handleTabChange_fetches_missing_data birthData tab ty tm td net2 net1 s :
  let res := handleTabChange birthData tab ty tm td net2 net1 s in
  fst res = Normal tt /\
  activeTab (snd res) = tab /\
  res_sent (snd res) =
    res_sent s ++
    (if (String.eqb tab "transit" && negb (truthy (res_transitData s)))%bool then
       [((API_BASE_URL ++ "/transit/enhanced")%string,
         wire (spread_object birthData
                 [("transit_year", Number ty); ("transit_month", Number tm);
                  ("transit_day", Number td)]));
        ((API_BASE_URL ++ "/transit/timeline")%string,
         wire (spread_object birthData [("area", Str "career")]))]
     else []) ++
    (if (String.eqb tab "houses" && negb (truthy (housesData s)))%bool then
       [((API_BASE_URL ++ "/interpretation/houses")%string, wire birthData)]
     else []).
Proof.
  cbv zeta. unfold handleTabChange. cbv beta.
  destruct (String.eqb tab "transit" && negb (truthy (res_transitData s)))%bool;
  destruct (String.eqb tab "houses" && negb (truthy (housesData s)))%bool;
  run_results; destruct net2; destruct net1; read_results;
  rewrite <- ?app_assoc, ?app_nil_r; repeat split; reflexivity.
Qed.

Lemma get_opt_prop (v : value) (k : string) :
  Enhanced.get_opt type_error_message v k = Normal (prop v k).
Proof.
  unfold Enhanced.get_opt, prop. destruct v; simpl; try reflexivity.
  destruct (lookup k o); reflexivity.
Qed.

(** X11.  [fetchTransit] stores whatever the two calls return, without
    looking at a [success] flag: after a fulfilled fetch the transit tab draws
    the analysis exactly when the stored answer's [success] is truthy and the
    'Load Transit Analysis' button otherwise, with no error text.  A rejected
    fetch stores nothing, logs one console line, and leaves the panel to the
    data stored before.  Either way [transitLoading] ends [false] and two
    requests were issued. *)
Theorem fetchTransit_stores_any_answer birthData ty tm td s :
  (forall transit timeline,
     let res := fetchTransit birthData ty tm td (Fulfilled2 transit timeline) s in
     fst res = Normal tt /\
     res_transitData (snd res) = transit /\
     timelineData (snd res) = timeline /\
     res_console (snd res) = res_console s /\
     List.length (res_sent (snd res)) = (List.length (res_sent s) + 2)%nat /\
     renderTransit_panel type_error_message
       (transitLoading (snd res)) (res_transitData (snd res)) =
     Normal (if truthy (prop transit "success") then Analysis else LoadButton)) /\
  (forall e,
     let res := fetchTransit birthData ty tm td (Rejected2 e) s in
     fst res = Normal tt /\
     res_transitData (snd res) = res_transitData s /\
     timelineData (snd res) = timelineData s /\
     res_console (snd res) = res_console s ++ ["Transit fetch error:"] /\
     List.length (res_sent (snd res)) = (List.length (res_sent s) + 2)%nat /\
     renderTransit_panel type_error_message
       (transitLoading (snd res)) (res_transitData (snd res)) =
     renderTransit_panel type_error_message false (res_transitData s)).
Proof.
  split; intros; subst res; run_results; read_results;
    rewrite <- ?app_assoc, ?length_app; cbn [List.length Nat.add];
    (repeat split; try reflexivity).
  unfold renderTransit_panel. rewrite get_opt_prop. simpl.
  destruct (truthy (prop transit "success")); reflexivity.
Qed.

(** X12.  A house card always has a percentage to show: the first of
    [strength.legacy.percentage] and [strength.percentage] that is neither
    [null] nor [undefined], and 0 when both are missing.  A legacy percentage
    that is present wins even when it is 0, and missing [strength] or
    [legacy] objects never make the read throw. *)
Theorem house_pct_never_missing (house : value) :
  nullish house = false ->
  let legacy := prop (prop (prop house "strength") "legacy") "percentage" in
  let plain := prop (prop house "strength") "percentage" in
  exists pct,
    house_pct type_error_message house = Normal pct /\
    nullish pct = false /\
    pct = (if nullish legacy
           then (if nullish plain then Number (Num 0) else plain)
           else legacy).
Proof.
  intros Hhouse legacy plain. subst legacy plain. unfold house_pct.
  assert (Hget : forall k, get house k = Normal (prop house k)).
  { intros k. unfold prop. destruct house; simpl; try discriminate; try reflexivity.
    destruct (lookup k o); reflexivity. }
  do 3 (rewrite ?Hget, ?get_opt_prop; cbn [cbind]).
  destruct (prop (prop (prop house "strength") "legacy") "percentage");
    cbn [nullish cbind];
    try (eexists; split; [reflexivity|]; split; reflexivity);
    do 2 (rewrite ?Hget, ?get_opt_prop; cbn [cbind]);
    destruct (prop (prop house "strength") "percentage");
    eexists; (split; [reflexivity|]); split; reflexivity.
Qed.

Lemma areas_with_filter (names : list string) (areas rows : list (string * value)) :
  areas_with type_error_message names areas = Normal rows ->
  rows = filter (fun e => includes names (prop (snd e) "outlook")) areas.
Proof.
  revert rows. induction areas as [|[key a] t IH]; simpl; intros rows H.
  - now injection H as <-.
  - destruct (get a "outlook") as [outlook|] eqn:Ho; simpl in H; [|discriminate].
    apply (get_Normal type_error_message) in Ho. subst outlook.
    destruct (areas_with type_error_message names t) as [t'|]; simpl in H;
      [|discriminate].
    injection H as <-. rewrite (IH t' eq_refl). reflexivity.
Qed.

Lemma includes_In (names : list string) (v : value) :
  includes names v = true -> exists s, v = Str s /\ In s names.
Proof.
  destruct v; simpl; try discriminate. intros H.
  apply existsb_exists in H. destruct H as [x [Hin Heq]].
  apply String.eqb_eq in Heq. subst x. eauto.
Qed.

(** No outlook name belongs to two of the three groups. *)
Lemma outlook_groups_disjoint (v : value) :
  (includes favorable_outlooks v && includes neutral_outlooks v = false)%bool /\
  (includes favorable_outlooks v && includes challenging_outlooks v = false)%bool /\
  (includes neutral_outlooks v && includes challenging_outlooks v = false)%bool.
Proof.
  repeat split.
  - destruct (includes favorable_outlooks v) eqn:E; [|reflexivity].
    apply includes_In in E. destruct E as [s [-> Hin]].
    simpl in Hin. repeat destruct Hin as [<-|Hin]; try reflexivity; contradiction.
  - destruct (includes favorable_outlooks v) eqn:E; [|reflexivity].
    apply includes_In in E. destruct E as [s [-> Hin]].
    simpl in Hin. repeat destruct Hin as [<-|Hin]; try reflexivity; contradiction.
  - destruct (includes neutral_outlooks v) eqn:E; [|reflexivity].
    apply includes_In in E. destruct E as [s [-> Hin]].
    simpl in Hin. repeat destruct Hin as [<-|Hin]; try reflexivity; contradiction.
Qed.

(** X13.  When the houses tab can group the life areas (no area is [null]),
    each group lists, in their original order, the areas whose outlook is one
    of the group's names, and no area is listed in two groups; an area whose
    outlook is none of the thirteen names (for instance 'Strong') is listed
    in no group. *)
Theorem area_groups_partition (life_areas_summary : value)
    (favorable neutral challenging : list (string * value)) :
  area_groups type_error_message life_areas_summary
    = Normal (favorable, neutral, challenging) ->
  let areas := Object_entries (or_else life_areas_summary (Obj [])) in
  let outlook (e : string * value) := prop (snd e) "outlook" in
  favorable = filter (fun e => includes favorable_outlooks (outlook e)) areas /\
  neutral = filter (fun e => includes neutral_outlooks (outlook e)) areas /\
  challenging = filter (fun e => includes challenging_outlooks (outlook e)) areas /\
  (forall e, In e favorable -> ~ In e neutral /\ ~ In e challenging) /\
  (forall e, In e neutral -> ~ In e challenging) /\
  (forall e, In e areas ->
     includes (favorable_outlooks ++ neutral_outlooks ++ challenging_outlooks)
              (outlook e) = false ->
     ~ In e favorable /\ ~ In e neutral /\ ~ In e challenging).
Proof.
  intros H. cbv zeta. unfold area_groups in H. cbv zeta in H.
  set (areas := Object_entries (or_else life_areas_summary (Obj []))) in *.
  destruct (areas_with type_error_message favorable_outlooks areas) as [f|] eqn:Hf;
    simpl in H; [|discriminate].
  destruct (areas_with type_error_message neutral_outlooks areas) as [n|] eqn:Hn;
    simpl in H; [|discriminate].
  destruct (areas_with type_error_message challenging_outlooks areas) as [c|] eqn:Hc;
    simpl in H; [|discriminate].
  assert (Ef : f = favorable) by congruence.
  assert (En : n = neutral) by congruence.
  assert (Ec : c = challenging) by congruence.
  subst f n c. clear H.
  apply areas_with_filter in Hf, Hn, Hc.
  split; [exact Hf|]. split; [exact Hn|]. split; [exact Hc|].
  rewrite Hf, Hn, Hc.
  split; [|split].
  - intros e He. apply filter_In in He. destruct He as [_ He].
    destruct (outlook_groups_disjoint (prop (snd e) "outlook")) as [D1 [D2 _]].
    rewrite He in D1, D2. simpl in D1, D2.
    split; intros Hin; apply filter_In in Hin; destruct Hin as [_ Hin]; congruence.
  - intros e He. apply filter_In in He. destruct He as [_ He].
    destruct (outlook_groups_disjoint (prop (snd e) "outlook")) as [_ [_ D3]].
    rewrite He in D3. simpl in D3.
    intros Hin; apply filter_In in Hin; destruct Hin as [_ Hin]; congruence.
  - intros e _ Hnone.
    assert (Hsplit : includes favorable_outlooks (prop (snd e) "outlook") = false /\
                     includes neutral_outlooks (prop (snd e) "outlook") = false /\
                     includes challenging_outlooks (prop (snd e) "outlook") = false).
    { unfold includes in *. destruct (prop (snd e) "outlook"); auto.
      rewrite !existsb_app in Hnone.
      apply orb_false_iff in Hnone. destruct Hnone as [H1 H2].
      apply orb_false_iff in H2. tauto. }
    destruct Hsplit as [H1 [H2 H3]].
    repeat split; intros Hin; apply filter_In in Hin; destruct Hin as [_ Hin];
      congruence.
Qed.

End ResultsScreen.

Lemma house_pct_never_missing_witness :
  exists pct,
    ResultsView.house_pct (fun _ _ => "TypeError")
      (JS.Obj [("strength",
                JS.Obj [("legacy", JS.Obj [("percentage", JS.Number (JS.Num 0))]);
                        ("percentage", JS.Number (JS.Num 64))])])
      = JS.Normal pct /\
    Facts.nullish pct = false /\
    pct = JS.Number (JS.Num 0).
Proof.
  exact (house_pct_never_missing (fun _ _ => "TypeError")
           (JS.Obj [("strength",
                     JS.Obj [("legacy",
                              JS.Obj [("percentage", JS.Number (JS.Num 0))]);
                             ("percentage", JS.Number (JS.Num 64))])])
           eq_refl).
Defined.

Lemma area_groups_partition_witness :
  let career := ("career", JS.Obj [("outlook", JS.Str "Good")]) in
  let health := ("health", JS.Obj [("outlook", JS.Str "Weak")]) in
  let wealth := ("wealth", JS.Obj [("outlook", JS.Str "Strong")]) in
  ~ In wealth [career] /\ ~ In wealth [] /\ ~ In wealth [health].
Proof.
  intros career health wealth.
  apply (area_groups_partition (fun _ _ => "TypeError")
           (JS.Obj [career; health; wealth]) [career] [] [health] eq_refl).
  - right. right. left. reflexivity.
  - reflexivity.
Defined.

(** ** The yoga lists of the two clients *)

Section YogaLists.
Import JS Yoga ResultsView.
Variable type_error_message : value -> string -> string.
Variable to_number : value -> number.

Lemma yoga_rows_readable (l : list value) :
  forallb readable l = true -> yoga_rows type_error_message l = Normal l.
Proof.
  induction l as [|y t IH]; simpl; [reflexivity|].
  intros H. apply andb_prop in H. destruct H as [Hy Ht].
  rewrite !(get_readable type_error_message y _ Hy). cbn [cbind].
  rewrite (IH Ht). reflexivity.
Qed.

Lemma filter_all {A} (f : A -> bool) (l : list A) :
  filter f l = l <-> forallb f l = true.
Proof.
  induction l as [|a t IH]; simpl; [tauto|].
  destruct (f a) eqn:E; simpl.
  - rewrite <- IH. split; [intros H; now injection H | intros ->; reflexivity].
  - split; [|discriminate]. intros H.
    assert (Hin : In a (filter f t)) by (rewrite H; now left).
    apply filter_In in Hin. destruct Hin as [_ Hf]. congruence.
Qed.

(** X14.  On a payload whose [all_yogas] is an array of records, the iOS
    yoga tab lists every record of the array, while the web [YogaList] lists
    those whose [is_present] is not [false]: the two clients show the same
    yogas exactly when no record is marked absent. *)
Theorem renderYoga_lists_absent_yogas_too (yogaData : value) (l : list value) :
  field yogaData "all_yogas" = Some (Arr l) ->
  forallb readable l = true ->
  renderYoga type_error_message to_number yogaData = Normal l /\
  exists cards,
    YogaList type_error_message yogaData = Normal (Some cards) /\
    map record cards = filter present l /\
    (map record cards = l <-> forallb present l = true).
Proof.
  intros Hfield Hread.
  split.
  - unfold renderYoga.
    destruct yogaData; simpl in Hfield; try discriminate.
    cbn [JS.get]. rewrite Hfield. cbn [cbind truthy length_of].
    destruct l as [|y t]; [reflexivity|].
    cbn [positive List.length].
    replace (gt (Num (inject_Z (Z.of_nat (S (List.length t))))) 0) with true.
    + apply yoga_rows_readable, Hread.
    + symmetry. unfold gt.
      destruct (Qle_bool (inject_Z (Z.of_nat (S (List.length t)))) 0) eqn:E;
        [|reflexivity].
      apply Qle_bool_iff in E. unfold Qle in E. simpl in E. lia.
  - assert (Hsrc : yoga_source yogaData = Some l).
    { unfold yoga_source. rewrite Hfield. reflexivity. }
    destruct (YogaList_of_source type_error_message yogaData l Hsrc Hread)
      as [cards [Hrun Hrec]].
    exists cards. split; [exact Hrun|]. split; [exact Hrec|].
    rewrite Hrec. apply filter_all.
Qed.

End YogaLists.

Lemma renderYoga_lists_absent_yogas_too_witness :
  exists cards,
    Yoga.YogaList (fun _ _ => "TypeError")
      (JS.Obj [("all_yogas", JS.Arr [Yoga.raj; Yoga.gaja; Yoga.kemadruma])])
      = JS.Normal (Some cards) /\
    map Yoga.record cards = [Yoga.raj; Yoga.gaja].
Proof.
  destruct (renderYoga_lists_absent_yogas_too (fun _ _ => "TypeError")
              (fun _ => JS.NaN)
              (JS.Obj [("all_yogas", JS.Arr [Yoga.raj; Yoga.gaja; Yoga.kemadruma])])
              [Yoga.raj; Yoga.gaja; Yoga.kemadruma] eq_refl eq_refl)
    as [_ [cards [Hrun [Hrec _]]]].
  exists cards. split; [exact Hrun | exact Hrec].
Defined.

(** ** The request body of the iOS Results screen *)

Section ResultsBody.
Import JS Client Facts.
Variable type_error_message : value -> string -> string.

(** X15.  The birth data the Results screen sends is read from
    [chartData.birth_data]: building it throws exactly when the chart or its
    [birth_data] is [null] or [undefined]; otherwise it is the nine-key object
    whose seven read fields are those of [birth_data], and a field that
    [birth_data] lacks is left out of the request body by [JSON.stringify]. *)
Theorem results_birthData_needs_birth_data (chartData : value) :
  let bd := prop chartData "birth_data" in
  if (nullish chartData || nullish bd)%bool then
    exists e, results_birthData type_error_message chartData = Throw e
  else
    exists body,
      results_birthData type_error_message chartData = Normal body /\
      body = Obj [("year", prop bd "year"); ("month", prop bd "month");
                  ("day", prop bd "day"); ("hour", prop bd "hour");
                  ("minute", prop bd "minute"); ("second", Number (Num 0));
                  ("lat", prop bd "lat"); ("lon", prop bd "lon");
                  ("ayanamsa", Str "lahiri")] /\
      forall k, In k ["year"; "month"; "day"; "hour"; "minute"; "lat"; "lon"] ->
        prop bd k = Undefined -> field (wire body) k = None.
Proof.
  cbv zeta. unfold results_birthData.
  destruct (nullish chartData) eqn:Ec; cbn [orb].
  { destruct chartData; try discriminate; eexists; reflexivity. }
  assert (Hget : get type_error_message chartData "birth_data"
                 = Normal (prop chartData "birth_data")).
  { unfold prop. destruct chartData; simpl; try discriminate; try reflexivity.
    destruct (lookup "birth_data" o); reflexivity. }
  rewrite !Hget. cbn [cbind].
  destruct (nullish (prop chartData "birth_data")) eqn:Eb.
  { destruct (prop chartData "birth_data"); try discriminate; eexists; reflexivity. }
  assert (Hbd : forall k, get type_error_message (prop chartData "birth_data") k
                 = Normal (prop (prop chartData "birth_data") k)).
  { intros k. unfold prop at 2.
    destruct (prop chartData "birth_data"); simpl; try discriminate; try reflexivity.
    destruct (lookup k o); reflexivity. }
  rewrite !Hbd. cbn [cbind].
  eexists. split; [reflexivity|]. split; [reflexivity|].
  intros k Hin Hk. apply wire_undefined.
  - repeat constructor; simpl; intuition discriminate.
  - simpl in Hin.
    repeat destruct Hin as [<-|Hin]; try contradiction; simpl; rewrite Hk;
      reflexivity.
Qed.

End ResultsBody.

(** ** Status colours of the three transit views *)

Section StatusColours.
Import JS.

Ltac split_status s :=
  destruct (String.eqb s "Good") eqn:?;
  [|destruct (String.eqb s "Bad") eqn:?;
    [|destruct (String.eqb s "Obstructed") eqn:?;
      [|destruct (String.eqb s "Positive") eqn:?;
        [|destruct (String.eqb s "Challenging") eqn:?]]]].

(** X16.  The three status-colour helpers agree wherever the older one has
    an opinion: a status the basic web view colours (not grey) gets the same
    colour in the enhanced web view, and a status the enhanced web view
    colours gets the same colour on iOS.  In the enhanced view two statuses
    share the badge colour exactly when they share the background tint. *)
Theorem status_colours_agree (status other : value) :
  (Transit.getStatusColor status <> "#9ca3af" ->
   Enhanced.getStatusColor status = Transit.getStatusColor status) /\
  (Enhanced.getStatusColor status <> "#9ca3af" ->
   ResultsView.getStatusColor status = Enhanced.getStatusColor status) /\
  (Enhanced.getStatusColor status = Enhanced.getStatusColor other <->
   Enhanced.getStatusBgColor status = Enhanced.getStatusBgColor other).
Proof.
  split; [|split].
  - destruct status as [| | | |s| |]; simpl; try congruence.
    split_status s; simpl; congruence.
  - destruct status as [| | | |s| |]; simpl; try congruence.
    split_status s;
      repeat match goal with
      | H : String.eqb _ _ = true |- _ => apply String.eqb_eq in H; subst
      end; simpl; try reflexivity.
    congruence.
  - unfold Enhanced.getStatusColor, Enhanced.getStatusBgColor.
    destruct status as [| | | |s| |]; destruct other as [| | | |s'| |];
      try split_status s; try split_status s';
      split; intros H; try reflexivity; discriminate H.
Qed.

End StatusColours.

(** ** Month cells of the timeline tab *)

Section MonthCells.
Import JS Timeline.
Variable type_error_message : value -> string -> string.

Lemma index_out_of_range (a : list value) (m : Z) :
  (m < 1 \/ Z.of_nat (List.length a) < m)%Z -> index a (m - 1) = Undefined.
Proof.
  intros H. unfold index.
  destruct (m - 1 <? 0)%Z eqn:E; [reflexivity|].
  apply Z.ltb_ge in E. apply nth_overflow. lia.
Qed.

(** X17.  A month cell never throws on a timeline whose entries carry a text
    [month]: for a listed number inside the data it shows the first three
    characters of that month's name, and it falls back to the number itself
    when the name is empty or the number is outside the data (0, negative, or
    past the last month). *)
Theorem month_cell_falls_back_to_number (monthly_data : list value) (m : Z) :
  (forall e, In e monthly_data ->
     exists o name, e = Obj o /\ lookup "month" o = Some (Str name)) ->
  let number := Number (Num (inject_Z m)) in
  exists cell,
    month_cell type_error_message monthly_data m = Normal cell /\
    (cell = number \/ exists short, cell = Str short /\ short <> "") /\
    ((m < 1 \/ Z.of_nat (List.length monthly_data) < m)%Z -> cell = number) /\
    (forall o name,
       nth_error monthly_data (Z.to_nat (m - 1)) = Some (Obj o) ->
       (1 <= m)%Z ->
       lookup "month" o = Some (Str name) ->
       cell = if String.eqb (String.substring 0 3 name) ""
              then number else Str (String.substring 0 3 name)).
Proof.
  intros Hdata number.
  destruct (Z_lt_ge_dec m 1) as [Hlow|Hlow].
  { exists number. unfold month_cell. rewrite index_out_of_range by (left; exact Hlow).
    split; [reflexivity|]. split; [left; reflexivity|]. split; [reflexivity|].
    intros; lia. }
  destruct (nth_error monthly_data (Z.to_nat (m - 1))) as [e|] eqn:He.
  - destruct (Hdata e (nth_error_In _ _ He)) as [o [name [-> Hname]]].
    assert (Hidx : index monthly_data (m - 1) = Obj o).
    { unfold index. destruct (m - 1 <? 0)%Z eqn:E; [apply Z.ltb_lt in E; lia|].
      apply nth_error_nth. exact He. }
    unfold month_cell. rewrite Hidx.
    cbn [JS.get cbind]. rewrite Hname. cbn [cbind slice_0_3].
    fold number. eexists. split; [reflexivity|].
    assert (Hcell : or_else (Str (substring 0 3 name)) number =
                    if String.eqb (substring 0 3 name) "" then number
                    else Str (substring 0 3 name)).
    { unfold or_else, truthy. destruct (String.eqb (substring 0 3 name) "");
        reflexivity. }
    rewrite Hcell. split; [|split].
    + destruct (String.eqb (substring 0 3 name) "") eqn:E; [left; reflexivity|].
      right. eexists. split; [reflexivity|]. apply String.eqb_neq. exact E.
    + intros [Hout|Hout]; [lia|].
      assert (Hlt : (Z.to_nat (m - 1) < List.length monthly_data)%nat).
      { apply nth_error_Some. congruence. }
      lia.
    + intros o' name' Ho' _ Hname'. injection Ho' as <-.
      rewrite Hname in Hname'. injection Hname' as <-. reflexivity.
  - exists number. unfold month_cell.
    apply nth_error_None in He.
    rewrite index_out_of_range by (right; lia).
    split; [reflexivity|]. split; [left; reflexivity|]. split; [reflexivity|].
    intros o name Hnth. apply nth_error_None in He. congruence.
Qed.

End MonthCells.

(** ** The web dasha timeline *)

Section DashaRows.
Import JS DashaView Facts.
Variable type_error_message : value -> string -> string.
Variable toFixed1 : number -> string.

Lemma get_present (v : value) (k : string) :
  nullish v = false -> get type_error_message v k = Normal (prop v k).
Proof.
  unfold prop. destruct v; simpl; try discriminate; try reflexivity.
  destruct (lookup k o); reflexivity.
Qed.

Lemma render_row_drawable (d : value) :
  drawable d ->
  render_row type_error_message toFixed1 d = Normal (row_of toFixed1 d).
Proof.
  intros [Hd Hyears]. unfold render_row, years_cell, row_of, years_text.
  rewrite !(get_present d _ Hd). cbn [cbind].
  destruct (truthy (prop d "years")) eqn:Et.
  - destruct (Hyears eq_refl) as [n Hn]. rewrite Hn in Et |- *.
    rewrite Et. reflexivity.
  - destruct (prop d "years") eqn:Ey; cbn [cbind]; try reflexivity.
    rewrite Et. reflexivity.
Qed.

Lemma render_rows_drawable (l : list value) :
  Forall drawable l ->
  render_rows type_error_message toFixed1 l = Normal (map (row_of toFixed1) l).
Proof.
  induction 1 as [|d t Hd _ IH]; simpl; [reflexivity|].
  rewrite (render_row_drawable d Hd). cbn [cbind]. rewrite IH. reflexivity.
Qed.

Lemma render_rows_null (l : list value) :
  (exists d, In d l /\ nullish d = true) ->
  exists e, render_rows type_error_message toFixed1 l = Throw e.
Proof.
  induction l as [|d t IH]; intros [x [Hin Hx]]; [contradiction|].
  simpl. destruct (render_row type_error_message toFixed1 d) as [r|e] eqn:Er;
    cbn [cbind]; [|eexists; reflexivity].
  destruct Hin as [->|Hin].
  - destruct x; discriminate.
  - destruct (IH (ex_intro _ x (conj Hin Hx))) as [e ->]. eexists; reflexivity.
Qed.

Lemma DashaTimeline_of_mahadashas (dashas : value) (l : list value) :
  field dashas "mahadashas" = Some (Arr l) ->
  DashaTimeline type_error_message toFixed1 dashas =
  cbind (render_rows type_error_message toFixed1 (firstn 9 l))
        (fun rows => Normal (Some rows)).
Proof.
  intros Hfield. unfold DashaTimeline, dasha_list.
  destruct dashas; simpl in Hfield; try discriminate.
  cbn [truthy negb JS.get]. rewrite Hfield. reflexivity.
Qed.

(** X18.  [DashaTimeline] draws the first nine periods of [mahadashas] and
    reads no other: when those are drawable it returns one row for each, in
    order, whatever follows the ninth; a [null] among the first nine makes it
    throw. *)
Theorem DashaTimeline_draws_first_nine (dashas : value) (l : list value) :
  field dashas "mahadashas" = Some (Arr l) ->
  (Forall drawable (firstn 9 l) ->
   exists rows,
     DashaTimeline type_error_message toFixed1 dashas = Normal (Some rows) /\
     rows = map (row_of toFixed1) (firstn 9 l) /\
     List.length rows = Nat.min 9 (List.length l)) /\
  ((exists d, In d (firstn 9 l) /\ nullish d = true) ->
   exists e, DashaTimeline type_error_message toFixed1 dashas = Throw e).
Proof.
  intros Hfield. rewrite (DashaTimeline_of_mahadashas dashas l Hfield). split.
  - intros Hl. rewrite (render_rows_drawable _ Hl). eexists.
    split; [reflexivity|]. split; [reflexivity|].
    rewrite length_map, length_firstn. reflexivity.
  - intros Hnull. destruct (render_rows_null _ Hnull) as [e ->].
    eexists; reflexivity.
Qed.

(** X19.  The years column shows [years] or [duration] and nothing else:
    for periods that are objects with neither key (such as the declared
    [DashaPeriod], which names its length [duration_years]) every row is
    drawn with an empty years cell. *)
Theorem DashaTimeline_years_column_reads_years_or_duration
    (dashas : value) (l : list value) :
  field dashas "mahadashas" = Some (Arr l) ->
  (forall d, In d (firstn 9 l) ->
     exists o, d = Obj o /\ lookup "years" o = None /\ lookup "duration" o = None) ->
  exists rows,
    DashaTimeline type_error_message toFixed1 dashas = Normal (Some rows) /\
    List.length rows = Nat.min 9 (List.length l) /\
    Forall (fun r => row_years r = Str "") rows.
Proof.
  intros Hfield Hl. rewrite (DashaTimeline_of_mahadashas dashas l Hfield).
  assert (Hdraw : Forall drawable (firstn 9 l)).
  { apply Forall_forall. intros d Hd. destruct (Hl d Hd) as [o [-> [Hy _]]].
    split; [reflexivity|]. unfold prop. simpl. rewrite Hy. discriminate. }
  rewrite (render_rows_drawable _ Hdraw). eexists. split; [reflexivity|].
  split; [rewrite length_map, length_firstn; reflexivity|].
  apply Forall_map, Forall_forall. intros d Hd.
  destruct (Hl d Hd) as [o [-> [Hy Hdur]]].
  unfold row_of, years_text, prop. simpl. rewrite Hy, Hdur. reflexivity.
Qed.

End DashaRows.

Lemma DashaTimeline_draws_first_nine_witness :
  exists rows,
    DashaView.DashaTimeline (fun _ _ => "TypeError") (fun _ => "7.0")
      (JS.Obj [("mahadashas",
                JS.Arr [JS.Obj [("lord", JS.Str "Ketu");
                                ("years", JS.Number (JS.Num 7))]])])
      = JS.Normal (Some rows) /\
    rows = [DashaView.mkRow (JS.Str "Ketu") JS.Undefined JS.Undefined
                            (JS.Str "7.0y")].
Proof.
  destruct (proj1 (DashaTimeline_draws_first_nine (fun _ _ => "TypeError")
              (fun _ => "7.0")
              (JS.Obj [("mahadashas",
                        JS.Arr [JS.Obj [("lord", JS.Str "Ketu");
                                        ("years", JS.Number (JS.Num 7))]])])
              [JS.Obj [("lord", JS.Str "Ketu"); ("years", JS.Number (JS.Num 7))]]
              eq_refl))
    as [rows [Hrun [Hrows _]]].
  - repeat constructor. intros _. eexists. reflexivity.
  - exists rows. split; [exact Hrun | exact Hrows].
Defined.

Lemma DashaTimeline_years_column_reads_years_or_duration_witness :
  exists rows,
    DashaView.DashaTimeline (fun _ _ => "TypeError") (fun _ => "7.0")
      (JS.Obj [("mahadashas",
                JS.Arr [DashaView.declared_period "Ketu" "1990-06-15" "1994-01-10"
                          (7#2) true])])
      = JS.Normal (Some rows) /\
    List.length rows = 1%nat /\
    Forall (fun r => DashaView.row_years r = JS.Str "") rows.
Proof.
  apply (DashaTimeline_years_column_reads_years_or_duration
           (fun _ _ => "TypeError") (fun _ => "7.0")
           (JS.Obj [("mahadashas",
                     JS.Arr [DashaView.declared_period "Ketu" "1990-06-15"
                               "1994-01-10" (7#2) true])])
           [DashaView.declared_period "Ketu" "1990-06-15" "1994-01-10" (7#2) true]
           eq_refl).
  intros d [<-|[]]. eexists. split; [reflexivity|]. split; reflexivity.
Defined.

Lemma month_cell_falls_back_to_number_witness :
  exists cell,
    Timeline.month_cell (fun _ _ => "TypeError")
      [JS.Obj [("month", JS.Str "January 2025")]] 5 = JS.Normal cell /\
    cell = JS.Number (JS.Num 5).
Proof.
  destruct (month_cell_falls_back_to_number (fun _ _ => "TypeError")
              [JS.Obj [("month", JS.Str "January 2025")]] 5)
    as [cell [Hrun [_ [Hout _]]]].
  - intros e [<-|[]]. eexists. eexists. split; reflexivity.
  - exists cell. split; [exact Hrun|]. apply Hout. right. simpl. lia.
Defined.

(** ** The South Indian chart *)

Section SouthIndianChart.
Import JS Chart Facts.
Variable type_error_message : value -> string -> string.
Variable not_a_function : string -> string.
Variable inherited : string -> bool.
Variable to_string : value -> string.

Local Abbreviation sign_of := (Chart.sign_of to_string).
Local Abbreviation add_planets :=
  (Chart.add_planets type_error_message not_a_function inherited to_string).
Local Abbreviation render_occupants :=
  (Chart.render_occupants type_error_message not_a_function inherited to_string).
Local Abbreviation render_cells :=
  (Chart.render_cells type_error_message not_a_function inherited to_string).
Local Abbreviation SouthIndianChart :=
  (Chart.SouthIndianChart type_error_message not_a_function inherited to_string).

Lemma own_keys {A} (k : string) (t : list (string * A)) :
  own k t = None <-> ~ In k (map fst t).
Proof.
  induction t as [|[k' a] t IH]; simpl; [tauto|].
  destruct (String.eqb k k') eqn:E.
  - apply String.eqb_eq in E. subst. split; [discriminate | tauto].
  - apply String.eqb_neq in E. rewrite IH. split; [|tauto].
    intros H [H'|H']; [congruence | tauto].
Qed.

Lemma push_keys (k : string) (x : value) (b : board) :
  map fst (push k x b) = map fst b.
Proof.
  induction b as [|[k' l] t IH]; simpl; [reflexivity|].
  destruct (String.eqb k k'); simpl; [reflexivity | now rewrite IH].
Qed.

Lemma own_push (k k' : string) (x : value) (b : board) :
  own k (push k' x b) =
  match own k b with
  | Some l => Some (if String.eqb k' k then l ++ [x] else l)
  | None => None
  end.
Proof.
  induction b as [|[k0 l] t IH]; simpl; [reflexivity|].
  destruct (String.eqb k' k0) eqn:E'; simpl; destruct (String.eqb k k0) eqn:E;
    try reflexivity.
  - apply String.eqb_eq in E', E. subst. now rewrite String.eqb_refl.
  - apply String.eqb_eq in E'. subst k0. rewrite String.eqb_sym in E.
    destruct (own k t); [rewrite E|]; reflexivity.
  - apply String.eqb_eq in E. subst k0. now rewrite E'.
  - exact IH.
Qed.

Lemma get_of_present (v : value) (k : string) :
  nullish v = false -> get type_error_message v k = Normal (prop v k).
Proof.
  unfold prop. destruct v; simpl; try discriminate; try reflexivity.
  destruct (lookup k o); reflexivity.
Qed.

Local Abbreviation filed := (Chart.filed inherited to_string).

Lemma add_planets_files (ps : list (string * value)) (b : board) :
  Forall filed ps ->
  exists b',
    add_planets ps b = Normal b' /\
    map fst b' = map fst b /\
    forall k l, own k b = Some l ->
      own k b' =
      Some (l ++ map (fun e => entry (fst e) (snd e))
                     (filter (fun e => String.eqb (sign_of (snd e)) k) ps)).
Proof.
  intros Hps. revert b. induction Hps as [|[name data] t [Hd Hi] _ IH]; intros b.
  - exists b. simpl. split; [reflexivity|]. split; [reflexivity|].
    intros k l ->. now rewrite app_nil_r.
  - cbn [Chart.add_planets]. simpl in Hd, Hi.
    assert (Hd' : nullish data = false) by (destruct data; tauto || reflexivity).
    rewrite (get_of_present data "sign" Hd'). cbn [cbind].
    fold (sign_of data). unfold read.
    destruct (own (sign_of data) b) as [l0|] eqn:Eown.
    + destruct (IH (push (sign_of data) (entry name data) b))
        as [b' [Hrun [Hkeys Hown]]].
      exists b'. split; [exact Hrun|]. split; [now rewrite Hkeys, push_keys|].
      intros k l Hk. rewrite (Hown k (if String.eqb (sign_of data) k
                                      then l ++ [entry name data] else l)).
      * cbn [filter snd fst]. destruct (String.eqb (sign_of data) k);
          [cbn [map]; now rewrite <- app_assoc | reflexivity].
      * rewrite own_push, Hk. reflexivity.
    + rewrite Hi. destruct (IH b) as [b' [Hrun [Hkeys Hown]]].
      exists b'. split; [exact Hrun|]. split; [exact Hkeys|].
      intros k l Hk. rewrite (Hown k l Hk). cbn [filter snd fst].
      destruct (String.eqb (sign_of data) k) eqn:E; [|reflexivity].
      apply String.eqb_eq in E. congruence.
Qed.


Lemma abbreviation_of_text (n : string) :
  exists a, Chart.abbreviation type_error_message not_a_function inherited
              to_string (Str n) = Normal a.
Proof.
  unfold Chart.abbreviation. cbn [property_key].
  destruct (own n PLANET_ABBR); [eauto|].
  destruct (inherited n); eauto.
Qed.

Lemma render_occupants_named (l : list value) :
  Forall named l ->
  exists os, render_occupants l = Normal os /\ map who os = l.
Proof.
  induction 1 as [|p t [o [n [-> Hn]]] _ [os [IH Hos]]].
  - exists []. split; reflexivity.
  - cbn [Chart.render_occupants JS.get]. rewrite Hn.
    destruct (lookup "isRetrograde" o), (lookup "isLagna" o); cbn [cbind];
      destruct (abbreviation_of_text n) as [a ->]; cbn [cbind];
      rewrite IH; cbn [cbind]; eexists; (split; [reflexivity|]);
      cbn [map who]; rewrite Hos; reflexivity.
Qed.

Lemma render_cells_named (title : string) (b : board)
    (signs : list (option string)) (index : nat) :
  (forall s, In (Some s) signs -> exists l, own s b = Some l /\ Forall named l) ->
  exists cells,
    render_cells title b signs index = Normal cells /\
    List.length cells = List.length signs /\
    forall i s, nth_error signs i = Some (Some s) ->
      exists l os,
        own s b = Some l /\
        nth_error cells i = Some (SignCell s (own s SIGN_NAMES_MAP) os) /\
        map who os = l.
Proof.
  revert index. induction signs as [|sg t IH]; intros index Hb.
  - exists []. split; [reflexivity|]. split; [reflexivity|].
    intros [|i] s H; discriminate H.
  - destruct (IH (S index)) as [cs [Hrun [Hlen Hnth]]].
    { intros s Hs. apply Hb. now right. }
    cbn [Chart.render_cells]. destruct sg as [s|].
    + destruct (Hb s (or_introl eq_refl)) as [l [Hown Hl]].
      destruct (render_occupants_named l Hl) as [os [Hos Hwho]].
      unfold renderCell, read. rewrite Hown, Hos. cbn [cbind]. rewrite Hrun.
      cbn [cbind]. eexists. split; [reflexivity|].
      split; [cbn [List.length]; now rewrite Hlen|].
      intros [|i] s' Hs'.
      * injection Hs' as <-. exists l, os. repeat split; assumption.
      * exact (Hnth i s' Hs').
    + unfold renderCell. cbn [cbind]. rewrite Hrun. cbn [cbind].
      eexists. split; [reflexivity|].
      split; [cbn [List.length]; now rewrite Hlen|].
      intros [|i] s' Hs'; [discriminate Hs'|]. exact (Hnth i s' Hs').
Qed.

Lemma own_initial (k : string) :
  In k (map fst SIGN_NAMES_MAP) -> own k initial = Some [].
Proof.
  simpl. intros H.
  repeat (destruct H as [<-|H]; [reflexivity|]). contradiction.
Qed.

Lemma falsy_has_no_entries (v : value) :
  truthy v = false -> ResultsView.Object_entries v = [].
Proof.
  destruct v; simpl; try discriminate; try reflexivity.
  intros H. apply negb_false_iff, String.eqb_eq in H. subst. reflexivity.
Qed.

Lemma truthy_present (v : value) : truthy v = true -> nullish v = false.
Proof. destruct v; simpl; congruence. Qed.

Lemma add_lagna_places (chartData : value) :
  (forall s, ascendant_sign to_string chartData = Some s ->
     In s (map fst SIGN_NAMES_MAP)) ->
  exists b,
    add_lagna type_error_message not_a_function inherited to_string
      (prop chartData "lagna") initial = Normal b /\
    forall k, In k (map fst SIGN_NAMES_MAP) ->
      own k b = Some (ascendant_in to_string chartData k).
Proof.
  unfold ascendant_in, ascendant_sign, add_lagna. intros Hsign.
  destruct (truthy (prop chartData "lagna")) eqn:El; cbn [andb] in *.
  - rewrite (get_of_present _ "sign" (truthy_present _ El)). cbn [cbind].
    destruct (truthy (prop (prop chartData "lagna") "sign")) eqn:Es.
    + specialize (Hsign _ eq_refl). unfold read.
      rewrite (own_initial _ Hsign). eexists. split; [reflexivity|].
      intros k Hk. rewrite own_push, (own_initial _ Hk). reflexivity.
    + eexists. split; [reflexivity|]. exact own_initial.
  - eexists. split; [reflexivity|]. exact own_initial.
Qed.

Lemma sign_order_names (s : string) :
  In (Some s) SIGN_ORDER -> In s (map fst SIGN_NAMES_MAP).
Proof.
  simpl. intros H.
  repeat (destruct H as [H|H]; [try discriminate H; injection H as <-; tauto|]).
  contradiction.
Qed.

(** X20.  [SouthIndianChart] files every planet under its sign.  When the
    ascendant's sign, if any, is one of the twelve names and every planet
    record is readable, carries a text name and a sign that is no inherited
    name, the component draws sixteen positions, and the cell of each sign
    holds the ascendant first (when it is in that sign) and then the planets
    of that sign in the order of [planets]; a planet whose sign is none of the
    twelve names is in no cell. *)
Theorem SouthIndianChart_files_planets_by_sign (chartData : value) (title : string) :
  let planets := ResultsView.Object_entries (prop chartData "planets") in
  truthy chartData = true ->
  (forall s, ascendant_sign to_string chartData = Some s ->
     In s (map fst SIGN_NAMES_MAP)) ->
  Forall (fun e => filed e /\ named (entry (fst e) (snd e))) planets ->
  exists cells,
    SouthIndianChart chartData title = Normal (Some cells) /\
    List.length cells = 16%nat /\
    forall i s, nth_error SIGN_ORDER i = Some (Some s) ->
      exists occupants,
        nth_error cells i = Some (SignCell s (own s SIGN_NAMES_MAP) occupants) /\
        map who occupants =
          ascendant_in to_string chartData s ++
          map (fun e => entry (fst e) (snd e))
              (filter (fun e => String.eqb (sign_of (snd e)) s) planets).
Proof.
  intros planets Hchart Hsign Hplanets.
  assert (Hfiled : Forall filed planets).
  { eapply Forall_impl; [|exact Hplanets]. intros e [H _]. exact H. }
  destruct (add_lagna_places chartData Hsign) as [b0 [Hlagna Hown0]].
  destruct (add_planets_files planets b0 Hfiled) as [b [Hadd [_ Hown]]].
  assert (Hboard : Chart.planetsBySign type_error_message not_a_function
                     inherited to_string chartData = Normal b).
  { unfold Chart.planetsBySign.
    rewrite !(get_of_present chartData _ (truthy_present _ Hchart)).
    cbn [cbind]. rewrite Hlagna. cbn [cbind].
    destruct (truthy (prop chartData "planets")) eqn:Ep; [exact Hadd|].
    unfold planets in Hadd. rewrite (falsy_has_no_entries _ Ep) in Hadd.
    exact Hadd. }
  assert (Hcell : forall s, In s (map fst SIGN_NAMES_MAP) ->
            own s b =
            Some (ascendant_in to_string chartData s ++
                  map (fun e => entry (fst e) (snd e))
                      (filter (fun e => String.eqb (sign_of (snd e)) s) planets))).
  { intros s Hs. apply Hown, Hown0, Hs. }
  destruct (render_cells_named title b SIGN_ORDER 0) as [cells [Hrun [Hlen Hnth]]].
  { intros s Hs. eexists. split; [apply Hcell, sign_order_names, Hs|].
    apply Forall_app. split.
    - unfold ascendant_in. destruct (ascendant_sign to_string chartData) as [a|];
        [destruct (String.eqb a s)|]; repeat constructor.
      exists [("name", Str "Ascendant"); ("isLagna", Bool true)], "Ascendant".
      split; reflexivity.
    - apply Forall_map, Forall_forall. intros e He.
      apply filter_In in He. destruct He as [He _].
      rewrite Forall_forall in Hplanets. exact (proj2 (Hplanets e He)). }
  exists cells. unfold Chart.SouthIndianChart. rewrite Hchart. cbn [negb].
  rewrite Hboard. cbn [cbind]. rewrite Hrun. cbn [cbind].
  split; [reflexivity|]. split; [exact Hlen|].
  intros i s Hi. destruct (Hnth i s Hi) as [l [os [Hl [Hc Hwho]]]].
  exists os. split; [exact Hc|]. rewrite Hwho.
  rewrite Hcell in Hl by (apply sign_order_names; eapply nth_error_In; exact Hi).
  now injection Hl.
Qed.

(** X21.  An ascendant whose sign is truthy but none of the twelve names
    makes [SouthIndianChart] throw, whatever the planets are (a planet with
    such a sign is only left out). *)
Theorem SouthIndianChart_unknown_ascendant_sign_throws (chartData : value)
    (title : string) (s : string) :
  truthy chartData = true ->
  ascendant_sign to_string chartData = Some s ->
  ~ In s (map fst SIGN_NAMES_MAP) ->
  exists e, SouthIndianChart chartData title = Throw e.
Proof.
  intros Hchart Hasc Hs.
  unfold Chart.SouthIndianChart, Chart.planetsBySign. rewrite Hchart. cbn [negb].
  rewrite !(get_of_present chartData _ (truthy_present _ Hchart)). cbn [cbind].
  unfold ascendant_sign in Hasc. unfold add_lagna.
  destruct (truthy (prop chartData "lagna")) eqn:El; [|discriminate Hasc].
  rewrite (get_of_present _ "sign" (truthy_present _ El)). cbn [cbind].
  destruct (truthy (prop (prop chartData "lagna") "sign")) eqn:Es;
    [|discriminate Hasc].
  cbn [andb] in Hasc. injection Hasc as Hkey. rewrite Hkey.
  unfold read.
  assert (Hown : own s initial = None).
  { apply own_keys. unfold initial. rewrite map_map. exact Hs. }
  rewrite Hown. destruct (inherited s); eexists; reflexivity.
Qed.

End SouthIndianChart.

Lemma SouthIndianChart_files_planets_by_sign_witness :
  let chart :=
    JS.Obj [("planets",
             JS.Obj [("Sun", JS.Obj [("sign", JS.Str "Aries")]);
                     ("Moon", JS.Obj [("sign", JS.Str "Ophiuchus")])]);
            ("lagna", JS.Obj [("sign", JS.Str "Aries")])] in
  exists cells occupants,
    Chart.SouthIndianChart (fun _ _ => "TypeError") (fun _ => "TypeError")
      (fun _ => false) (fun _ => "[object Object]") chart "Rashi Chakra"
      = JS.Normal (Some cells) /\
    nth_error cells 1 = Some (Chart.SignCell "Aries" (Some "Mesh") occupants) /\
    map Chart.who occupants =
      [Chart.ascendant; JS.Obj [("name", JS.Str "Sun"); ("sign", JS.Str "Aries")]].
Proof.
  intros chart.
  destruct (SouthIndianChart_files_planets_by_sign (fun _ _ => "TypeError")
              (fun _ => "TypeError") (fun _ => false) (fun _ => "[object Object]")
              chart "Rashi Chakra")
    as [cells [Hrun [_ Hcells]]].
  - reflexivity.
  - intros s H. injection H as <-. simpl. tauto.
  - repeat constructor; eexists; eexists; split; reflexivity.
  - destruct (Hcells 1%nat "Aries" eq_refl) as [occupants [Hcell Hwho]].
    exists cells, occupants. split; [exact Hrun|]. split; [exact Hcell|exact Hwho].
Defined.

Lemma SouthIndianChart_unknown_ascendant_sign_throws_witness :
  exists e,
    Chart.SouthIndianChart (fun _ _ => "TypeError") (fun _ => "TypeError")
      (fun _ => false) (fun _ => "[object Object]")
      (JS.Obj [("lagna", JS.Obj [("sign", JS.Str "aries")])]) "Rashi Chakra"
    = JS.Throw e.
Proof.
  apply (SouthIndianChart_unknown_ascendant_sign_throws (fun _ _ => "TypeError")
           (fun _ => "TypeError") (fun _ => false) (fun _ => "[object Object]")
           (JS.Obj [("lagna", JS.Obj [("sign", JS.Str "aries")])])
           "Rashi Chakra" "aries"); [reflexivity | reflexivity |].
  simpl. intuition discriminate.
Defined.
